(** * InterviewChatbot: question generation, normalisation and persistence

    A shallow embedding of the three Python modules of the repository:

    - [server.py]: [generate_questions], which asks the Groq chat API for
      interview questions and validates the JSON it gets back;
    - [app.py]: the local helper [normalize_q_map] of the tech-stack form;
    - [mongo.py]: the [MongoDB] wrapper ([upsert_candidate], [add_answer],
      [get_candidate_by_email]), the lazy initialisation ([get_db],
      [init_mongo]) and the composite [save_candidate_and_answers].

    Python values are modelled by inductive types, a text by the
    string of its UTF-8 bytes, dictionaries by association lists in
    insertion order, exceptions by a sum type whose left injection
    carries the exception class and message, and the MongoDB collection
    by an explicit world state threaded through a state-and-exception
    monad. What depends on the Unicode database of the interpreter
    ([repr] of a text) is a parameter. *)

From Stdlib Require Import String Ascii List ZArith Lia Bool Arith.
From Stdlib Require Import Decimal DecimalString.
Import ListNotations.
Open Scope string_scope.
Set Warnings "-register-all".

(* ================================================================== *)
(** * Python preliminaries *)
(* ================================================================== *)

Module Py.

(** ** Exceptions: class and [str(e)] *)

Inductive exn_class : Type :=
| RuntimeError
| ValueError
| TypeError
| AttributeError
| ConnectionError
| ServerSelectionTimeoutError
| WriteError
| DuplicateKeyError
| OtherError (name : string).

Record exn : Type := Raise { exn_kind : exn_class; exn_msg : string }.

(** ** Characters and strings

    A Python [str] is modelled by the Rocq [string] of its UTF-8
    encoding: a character below U+0080 is one byte, U+00A0 is the two
    bytes 194 160, U+2003 the three bytes 226 128 131. Searching,
    splitting and concatenating act on the bytes as they act on the
    characters. Exceptions are those derived from [Exception]. *)

Definition dq : ascii := "034"%char.
Definition sq : ascii := "039"%char.
Definition nl : string := String "010"%char EmptyString.

Definition chr (c : ascii) : string := String c EmptyString.

(** [str.isspace], the white space that [str.strip] removes, on a
    character of one byte: U+0009 to U+000D, U+001C to U+0020. *)
Definition isspace (c : ascii) : bool :=
  let n := nat_of_ascii c in
  (((9 <=? n) && (n <=? 13)) || ((28 <=? n) && (n <=? 32)))%nat.

(** On a character of two bytes: U+0085 and U+00A0. *)
Definition isspace2 (a b : ascii) : bool :=
  let m := nat_of_ascii a in
  let n := nat_of_ascii b in
  ((m =? 194) && ((n =? 133) || (n =? 160)))%nat.

(** On a character of three bytes: U+1680, U+2000 to U+200A, U+2028,
    U+2029, U+202F, U+205F and U+3000. No longer character is white
    space. *)
Definition isspace3 (a b c : ascii) : bool :=
  let l := nat_of_ascii a in
  let m := nat_of_ascii b in
  let n := nat_of_ascii c in
  (((l =? 225) && (m =? 154) && (n =? 128))
   || ((l =? 226) && (m =? 128)
       && (((128 <=? n) && (n <=? 138)) || (n =? 168) || (n =? 169) || (n =? 175)))
   || ((l =? 226) && (m =? 129) && (n =? 159))
   || ((l =? 227) && (m =? 128) && (n =? 128)))%nat.

(** [s.lstrip()] *)
Fixpoint lstrip (s : string) : string :=
  match s with
  | EmptyString => EmptyString
  | String a r1 =>
      if isspace a then lstrip r1
      else
        match r1 with
        | EmptyString => s
        | String b r2 =>
            if isspace2 a b then lstrip r2
            else
              match r2 with
              | EmptyString => s
              | String c r3 => if isspace3 a b c then lstrip r3 else s
              end
        end
  end.

(** [s.rstrip()]: the text is cut where what follows is white space
    only. *)
Fixpoint rstrip (s : string) : string :=
  match s with
  | EmptyString => EmptyString
  | String a r =>
      match lstrip s with
      | EmptyString => EmptyString
      | _ => String a (rstrip r)
      end
  end.

(** [s.strip()] *)
Definition strip (s : string) : string := lstrip (rstrip s).

(** One white-space character, by its bytes. *)
Inductive space_char : string -> Prop :=
| space_1 a : isspace a = true -> space_char (String a EmptyString)
| space_2 a b : isspace2 a b = true -> space_char (String a (String b EmptyString))
| space_3 a b c :
    isspace3 a b c = true -> space_char (String a (String b (String c EmptyString))).

(** A text of white-space characters only; the empty text is one. *)
Inductive white : string -> Prop :=
| white_nil : white EmptyString
| white_cons w s : space_char w -> white s -> white (w ++ s).

(** A text that neither begins nor ends with a white-space character. *)
Definition trimmed (s : string) : Prop :=
  (forall w r, space_char w -> s <> w ++ r)
  /\ (forall p w, space_char w -> s <> p ++ w).

(** [bool(s)] for a string *)
Definition nonempty (s : string) : bool :=
  match s with EmptyString => false | _ => true end.

Fixpoint has_char (c : ascii) (s : string) : bool :=
  match s with
  | EmptyString => false
  | String c' s' => Ascii.eqb c c' || has_char c s'
  end.

(** [sub in s] for two strings *)
Fixpoint contains (sub s : string) : bool :=
  String.prefix sub s ||
  match s with
  | EmptyString => false
  | String _ s' => contains sub s'
  end.

(** [sep.join(parts)] *)
Definition join (sep : string) (parts : list string) : string :=
  String.concat sep parts.

(** [str(n)] for an integer *)
Definition str_int (z : Z) : string := NilZero.string_of_int (Z.to_int z).

(** ** Dictionaries

    A [dict] with string keys, in insertion order. *)

Definition pydict (V : Type) : Type := list (string * V).

Section Dict.
Context {V : Type}.

(** [d.get(k)] *)
Fixpoint dict_get (k : string) (d : pydict V) : option V :=
  match d with
  | [] => None
  | (k', v) :: d' => if String.eqb k k' then Some v else dict_get k d'
  end.

(** [k in d] *)
Definition dict_mem (k : string) (d : pydict V) : bool :=
  match dict_get k d with Some _ => true | None => false end.

(** [d[k] = v]: an existing key keeps its position. *)
Fixpoint dict_set (k : string) (v : V) (d : pydict V) : pydict V :=
  match d with
  | [] => [(k, v)]
  | (k', v') :: d' =>
      if String.eqb k k' then (k, v) :: d' else (k', v') :: dict_set k v d'
  end.

(** [d.pop(k, None)], the result dropped *)
Definition dict_pop (k : string) (d : pydict V) : pydict V :=
  filter (fun kv => negb (String.eqb k (fst kv))) d.

(** [d.setdefault(k, v)], the result dropped *)
Definition dict_setdefault (k : string) (v : V) (d : pydict V) : pydict V :=
  if dict_mem k d then d else (d ++ [(k, v)])%list.

(** [d.values()] *)
Definition dict_values (d : pydict V) : list V := map snd d.

(** [d.keys()] *)
Definition dict_keys (d : pydict V) : list string := map fst d.

End Dict.

(** ** JSON values, as [json.loads] builds them

    A [float] is represented by the two observations the program makes
    of one: whether it is zero (its truth value) and its [str()] text. *)

Inductive json : Type :=
| JNull
| JBool (b : bool)
| JInt (z : Z)
| JFloat (is_zero : bool) (text : string)
| JStr (s : string)
| JList (l : list json)
| JDict (d : list (string * json)).

(** [bool(v)] *)
Definition truthy (v : json) : bool :=
  match v with
  | JNull => false
  | JBool b => b
  | JInt z => negb (z =? 0)%Z
  | JFloat is_zero _ => negb is_zero
  | JStr s => nonempty s
  | JList l => match l with [] => false | _ => true end
  | JDict d => match d with [] => false | _ => true end
  end.

(** [a or b] *)
Definition py_or (a b : json) : json := if truthy a then a else b.

(** [it.get(k)]: [None] when the key is absent *)
Definition get_or_none (k : string) (d : pydict json) : json :=
  match dict_get k d with Some v => v | None => JNull end.

(** [type(v).__name__] *)
Definition type_name (v : json) : string :=
  match v with
  | JNull => "NoneType"
  | JBool _ => "bool"
  | JInt _ => "int"
  | JFloat _ _ => "float"
  | JStr _ => "str"
  | JList _ => "list"
  | JDict _ => "dict"
  end.

Section Repr.

(** [repr(s)] of a text: quotes around the text, with the characters
    that the Unicode database of the interpreter does not hold for
    printable escaped. *)
Variable repr_str : string -> string.

(** [repr(v)] *)
Fixpoint py_repr (v : json) : string :=
  match v with
  | JNull => "None"
  | JBool true => "True"
  | JBool false => "False"
  | JInt z => str_int z
  | JFloat _ text => text
  | JStr s => repr_str s
  | JList l => "[" ++ join ", " (map py_repr l) ++ "]"
  | JDict d =>
      "{" ++ join ", " (map (fun kv => repr_str (fst kv) ++ ": " ++ py_repr (snd kv)) d) ++ "}"
  end.

(** [str(v)] *)
Definition py_str (v : json) : string :=
  match v with
  | JStr s => s
  | _ => py_repr v
  end.

End Repr.

End Py.

Import Py.

(* ================================================================== *)
(** * server.py *)
(* ================================================================== *)

Module Server.

(** One generated question: [{"question": ..., "ideal_answer_focus": ...}] *)
Record question_item : Type :=
  QuestionItem { question : string; ideal_answer_focus : string }.

(** What [resp.choices[0].message.content] does on a response object:
    it raises, or it yields the content, which the SDK types as an
    optional string. *)
Definition response : Type := (exn + option string)%type.

(** A configured Groq client: [chat.completions.create] on the prompt
    built from [tech_list] (the only varying part of the prompt; model,
    temperature and token limit are constants of the call). It raises or
    returns a response. *)
Definition client : Type := string -> (exn + response)%type.

(** What [json.loads(raw)] does: it returns the value, raises
    [json.JSONDecodeError], or raises something else (a [RecursionError]
    on deeply nested input). *)
Inductive loads_outcome : Type :=
| Loaded (parsed : json)
| DecodeError
| LoadsRaised (e : exn).

Section Generate.

(** The module-level [groq_client] ([None] when the SDK or the API key is
    missing), [json.loads], and [repr] of a text. *)
Variable groq_client : option client.
Variable json_loads : string -> loads_outcome.
Variable repr_str : string -> string.

Definition not_configured : exn :=
  Raise RuntimeError
    "Groq client not configured. Install `groq` and set GROQ_API_KEY environment variable.".

(** [_call_groq_for_questions(techs)] *)
Definition _call_groq_for_questions (techs : list string) : exn + option string :=
  match groq_client with
  | None => inl not_configured
  | Some create =>
      let tech_list := join ", " techs in
      match create tech_list with
      | inl e => inl e
      | inr resp =>
          match resp with
          | inl e => inl (Raise RuntimeError ("Groq response parsing failed: " ++ exn_msg e))
          | inr content => inr content
          end
      end
  end.

(** [tech in parsed]: membership for a dict, a list or a string, and a
    [TypeError] for the JSON values that are not containers (wording of
    CPython 3.11). *)
Definition py_in (tech : string) (parsed : json) : exn + bool :=
  match parsed with
  | JDict d => inr (dict_mem tech d)
  | JList l =>
      inr (existsb (fun x => match x with JStr s => String.eqb tech s | _ => false end) l)
  | JStr s => inr (contains tech s)
  | v => inl (Raise TypeError
                ("argument of type " ++ chr sq ++ type_name v ++ chr sq ++ " is not iterable"))
  end.

(** [parsed[tech]], evaluated only after [tech in parsed] held. *)
Definition py_getitem (parsed : json) (tech : string) : exn + json :=
  match parsed with
  | JDict d =>
      match dict_get tech d with
      | Some v => inr v
      | None => inl (Raise (OtherError "KeyError") (repr_str tech))
      end
  | JList _ => inl (Raise TypeError "list indices must be integers or slices, not str")
  | JStr _ =>
      inl (Raise TypeError ("string indices must be integers, not " ++ chr sq ++ "str" ++ chr sq))
  | v => inl (Raise TypeError (chr sq ++ type_name v ++ chr sq ++ " object is not subscriptable"))
  end.

(** The body of [for item in parsed[tech]]: what one element appends to
    [qs], if anything. *)
Definition question_of_item (item : json) : option question_item :=
  match item with
  | JDict d =>
      if dict_mem "question" d then
        let q_text :=
          strip (py_str repr_str
                   (match dict_get "question" d with Some v => v | None => JStr "" end)) in
        let focus :=
          match get_or_none "ideal_answer_focus" d with
          | JNull => ""
          | _ => strip (py_str repr_str
                          (match dict_get "ideal_answer_focus" d with
                           | Some v => v
                           | None => JStr ""
                           end))
          end in
        Some (QuestionItem q_text focus)
      else None
  | _ => None
  end.

(** [qs] after the inner loop *)
Fixpoint collect_questions (items : list json) : list question_item :=
  match items with
  | [] => []
  | item :: rest =>
      match question_of_item item with
      | Some q => q :: collect_questions rest
      | None => collect_questions rest
      end
  end.

Definition fewer_than_3 (tech : string) : exn :=
  Raise ValueError ("Groq returned fewer than 3 questions for " ++ repr_str tech).

Definition missing_key (tech : string) : exn :=
  Raise ValueError ("Groq JSON missing expected key for tech: " ++ repr_str tech).

(** One iteration of [for tech in techs_clean]: the value stored under
    [out[tech]], or the exception raised. *)
Definition check_tech (parsed : json) (tech : string) : exn + list question_item :=
  match py_in tech parsed with
  | inl e => inl e
  | inr false => inl (missing_key tech)
  | inr true =>
      match py_getitem parsed tech with
      | inl e => inl e
      | inr (JList items) =>
          let qs := collect_questions items in
          if (length qs <? 3)%nat then inl (fewer_than_3 tech)
          else inr (firstn 5 qs)
      | inr _ => inl (missing_key tech)
      end
  end.

(** The loop over [techs_clean], threading [out]. *)
Fixpoint check_all (parsed : json) (techs_clean : list string)
    (out : pydict (list question_item)) : exn + pydict (list question_item) :=
  match techs_clean with
  | [] => inr out
  | tech :: rest =>
      match check_tech parsed tech with
      | inl e => inl e
      | inr qs => check_all parsed rest (dict_set tech qs out)
      end
  end.

(** [[t.strip() for t in techs if t and t.strip()]] *)
Definition clean (techs : list string) : list string :=
  map strip (filter (fun t => nonempty t && nonempty (strip t)) techs).

(** The two handlers of the [try] block. *)
Definition invalid_json (raw : string) : exn :=
  Raise RuntimeError ("Groq did not return valid JSON. Raw output:" ++ nl ++ nl ++ raw).

Definition parse_failure (e : exn) (raw : string) : exn :=
  Raise RuntimeError
    ("Failed to parse Groq output: " ++ exn_msg e ++ nl ++ nl
       ++ "Raw output:" ++ nl ++ nl ++ raw).

Definition loads_none : exn :=
  Raise TypeError "the JSON object must be str, bytes or bytearray, not NoneType".

(** [generate_questions(techs)] *)
Definition generate_questions (techs : list string)
  : exn + pydict (list question_item) :=
  match techs with
  | [] => inr []
  | _ =>
      let techs_clean := clean techs in
      match techs_clean with
      | [] => inr []
      | _ =>
          match _call_groq_for_questions techs_clean with
          | inl e => inl e
          | inr None => inl (parse_failure loads_none "None")
          | inr (Some raw) =>
              match json_loads raw with
              | DecodeError => inl (invalid_json raw)
              | LoadsRaised e => inl (parse_failure e raw)
              | Loaded parsed =>
                  match check_all parsed techs_clean [] with
                  | inl e => inl (parse_failure e raw)
                  | inr out => inr out
                  end
              end
          end
      end
  end.

End Generate.

(** The technologies that a request asks for: its items that are not
    white space only, each without its surrounding white space, in the
    order of the request. *)
Inductive requests : list string -> list string -> Prop :=
| requests_nil : requests [] []
| requests_skip t ts names :
    white t -> requests ts names -> requests (t :: ts) names
| requests_keep t ts names :
    ~ white t -> requests ts names -> requests (t :: ts) (strip t :: names).

(** The upstream call for the technologies [names] returned the text
    [raw], and [json.loads] turned it into [parsed]. *)
Definition answered (groq_client : option client) (json_loads : string -> loads_outcome)
    (names : list string) (raw : string) (parsed : json) : Prop :=
  exists create : client,
    groq_client = Some create
    /\ create (join ", " names) = inr (inr (Some raw))
    /\ json_loads raw = Loaded parsed.

(** The elements of a list entry that the inner loop keeps: the
    mappings with a key "question". *)
Definition counted (item : json) : bool :=
  match item with
  | JDict d => dict_mem "question" d
  | _ => false
  end.

(** A plain string, or a mapping without the key "question" (whatever
    other keys it has). *)
Definition discarded (item : json) : Prop :=
  (exists s, item = JStr s) \/ (exists d, item = JDict d /\ dict_mem "question" d = false).

(** The response [d] supplies the technology with a list that holds at
    least 3 counted elements. *)
Definition well_supplied (d : pydict json) (tech : string) : Prop :=
  exists items,
    dict_get tech d = Some (JList items) /\ (3 <= length (filter counted items))%nat.

(** The record that stands for a counted element: the stripped text of
    its "question", and the stripped text of its "ideal_answer_focus",
    empty when that key is absent or null. *)
Definition renders_as (repr_str : string -> string) (item : json) (q : question_item)
  : Prop :=
  exists d v,
    item = JDict d
    /\ dict_get "question" d = Some v
    /\ question q = strip (py_str repr_str v)
    /\ ideal_answer_focus q
       = match dict_get "ideal_answer_focus" d with
         | None => ""
         | Some JNull => ""
         | Some f => strip (py_str repr_str f)
         end.

End Server.

(* ================================================================== *)
(** * app.py: the helper [normalize_q_map] *)
(* ================================================================== *)

Module App.

Import Server.

Section Normalize.

(** [repr] of a text, which [str] of a mapping or of a list applies to
    the texts inside. *)
Variable repr_str : string -> string.

Local Abbreviation py_str := (Py.py_str repr_str).

(** [x.strip()] on a value that need not be a string. *)
Definition strip_value (v : json) : exn + string :=
  match v with
  | JStr s => inr (strip s)
  | _ => inl (Raise AttributeError
                (chr sq ++ type_name v ++ chr sq ++ " object has no attribute "
                   ++ chr sq ++ "strip" ++ chr sq))
  end.

(** [next((str(v) for v in it.values() if isinstance(v, str)), str(it))] *)
Fixpoint first_str_value (values : list json) (default : string) : string :=
  match values with
  | [] => default
  | JStr s :: _ => s
  | _ :: rest => first_str_value rest default
  end.

(** [it.get("question") or it.get("q") or it.get("prompt") or ""] *)
Definition question_lookup (it : pydict json) : json :=
  py_or (py_or (py_or (get_or_none "question" it) (get_or_none "q" it))
               (get_or_none "prompt" it))
        (JStr "").

(** [it.get("ideal_answer_focus") or it.get("focus") or ""] *)
Definition focus_lookup (it : pydict json) : json :=
  py_or (py_or (get_or_none "ideal_answer_focus" it) (get_or_none "focus" it))
        (JStr "").

(** The [isinstance(it, dict)] branch of the inner loop. *)
Definition normalize_dict (it : pydict json) : exn + question_item :=
  let q := question_lookup it in
  let q := if truthy q then q
           else JStr (first_str_value (dict_values it) (py_str (JDict it))) in
  let focus := focus_lookup it in
  let focus := match focus with JStr s => s | _ => py_str focus end in
  match strip_value q with
  | inl e => inl e
  | inr q_text => inr (QuestionItem q_text (strip focus))
  end.

(** One element of a list entry. *)
Definition normalize_element (it : json) : exn + question_item :=
  match it with
  | JStr s => inr (QuestionItem (strip s) "")
  | JDict d => normalize_dict d
  | _ => inr (QuestionItem (strip (py_str it)) "")
  end.

Fixpoint normalize_elements (items : list json) : exn + list question_item :=
  match items with
  | [] => inr []
  | it :: rest =>
      match normalize_element it with
      | inl e => inl e
      | inr q =>
          match normalize_elements rest with
          | inl e => inl e
          | inr qs => inr (q :: qs)
          end
      end
  end.

(** [new_list] for one technology. *)
Definition normalize_entry (items : json) : exn + list question_item :=
  match items with
  | JStr s => inr [QuestionItem (strip s) ""]
  | JList l => normalize_elements l
  | _ => inr [QuestionItem (strip (py_str items)) ""]
  end.

(** The loop over [q_map.items()], threading [normalized]. *)
Fixpoint normalize_loop (entries : pydict json)
    (normalized : pydict (list question_item)) : exn + pydict (list question_item) :=
  match entries with
  | [] => inr normalized
  | (tech, items) :: rest =>
      match normalize_entry items with
      | inl e => inl e
      | inr new_list => normalize_loop rest (dict_set tech new_list normalized)
      end
  end.

(** [normalize_q_map(q_map)] *)
Definition normalize_q_map (q_map : pydict json) : exn + pydict (list question_item) :=
  normalize_loop q_map [].

(** ** The rule for a mapping element, in the words of the specification

    "Extract [question] from the first present key among [question], [q],
    [prompt]; if none present, fall back to the first string-valued field
    in the mapping, else stringify the whole mapping. Extract
    [ideal_answer_focus] from [ideal_answer_focus] or [focus], defaulting
    to empty string; non-string focus values are stringified." *)

Fixpoint first_present (keys : list string) (it : pydict json) : option json :=
  match keys with
  | [] => None
  | k :: ks =>
      match dict_get k it with
      | Some v => Some v
      | None => first_present ks it
      end
  end.

Definition is_str (v : json) : bool :=
  match v with JStr _ => true | _ => false end.

Definition spec_question (it : pydict json) : string :=
  match first_present ["question"; "q"; "prompt"] it with
  | Some v => py_str v
  | None =>
      match find is_str (dict_values it) with
      | Some v => py_str v
      | None => py_str (JDict it)
      end
  end.

Definition spec_focus (it : pydict json) : string :=
  match first_present ["ideal_answer_focus"; "focus"] it with
  | Some v => py_str v
  | None => ""
  end.

Definition spec_normalize_dict (it : pydict json) : question_item :=
  QuestionItem (strip (spec_question it)) (strip (spec_focus it)).

(** The value of the first of [keys] that [it] maps to a truthy value:
    what a chain of [it.get(k) or ...] selects. *)
Fixpoint first_truthy (keys : list string) (it : pydict json) : option json :=
  match keys with
  | [] => None
  | k :: ks =>
      if truthy (get_or_none k it) then Some (get_or_none k it)
      else first_truthy ks it
  end.

Definition question_keys : list string := ["question"; "q"; "prompt"].
Definition focus_keys : list string := ["ideal_answer_focus"; "focus"].

(** The question the lookup selects, if any, is a string: the case in
    which [q.strip()] is defined. *)
Definition question_is_text (it : pydict json) : Prop :=
  match first_truthy question_keys it with
  | Some (JStr _) => True
  | Some _ => False
  | None => True
  end.

(** The question text of a mapping element: the first truthy value
    among the question keys when it is a string; when no key holds a
    truthy value, the first string-valued field in the order of the
    mapping; when there is no such field either, the stringified
    mapping. *)
Inductive selects_question (it : pydict json) : string -> Prop :=
| by_key s :
    first_truthy question_keys it = Some (JStr s) ->
    selects_question it s
| by_first_string before s after :
    first_truthy question_keys it = None ->
    dict_values it = (before ++ JStr s :: after)%list ->
    Forall (fun v => is_str v = false) before ->
    selects_question it s
| by_stringified :
    first_truthy question_keys it = None ->
    Forall (fun v => is_str v = false) (dict_values it) ->
    selects_question it (py_str (JDict it)).

(** The focus text of a mapping element: the first truthy value among
    the focus keys, stringified unless it is a string, else empty. *)
Definition focus_text (it : pydict json) : string :=
  match first_truthy focus_keys it with
  | None => ""
  | Some (JStr s) => s
  | Some v => py_str v
  end.

End Normalize.

End App.

(* ================================================================== *)
(** * mongo.py *)
(* ================================================================== *)

Module Mongo.

(** ** Values stored in documents

    The values a candidate or answer dictionary can hold, plus the two
    the driver adds: [datetime] (a clock reading) and [ObjectId]. *)

Inductive bson : Type :=
| BNone
| BBool (b : bool)
| BInt (z : Z)
| BFloat (is_zero : bool) (text : string)
| BStr (s : string)
| BDate (t : Z)
| BOid (n : Z)
| BList (l : list bson)
| BDict (d : list (string * bson)).

Definition doc : Type := pydict bson.

(** [bool(v)] *)
Definition btruthy (v : bson) : bool :=
  match v with
  | BNone => false
  | BBool b => b
  | BInt z => negb (z =? 0)%Z
  | BFloat is_zero _ => negb is_zero
  | BStr s => nonempty s
  | BDate _ => true
  | BOid _ => true
  | BList l => match l with [] => false | _ => true end
  | BDict d => match d with [] => false | _ => true end
  end.

(** [a or b] *)
Definition bor (a b : bson) : bson := if btruthy a then a else b.

(** [d.get(k)] *)
Definition bget (k : string) (d : doc) : bson :=
  match dict_get k d with Some v => v | None => BNone end.

(** [d.get(k, default)] *)
Definition bget_default (k : string) (default : bson) (d : doc) : bson :=
  match dict_get k d with Some v => v | None => default end.

Definition btype_name (v : bson) : string :=
  match v with
  | BNone => "NoneType"
  | BBool _ => "bool"
  | BInt _ => "int"
  | BFloat _ _ => "float"
  | BStr _ => "str"
  | BDate _ => "datetime.datetime"
  | BOid _ => "ObjectId"
  | BList _ => "list"
  | BDict _ => "dict"
  end.

(** [x.strip()] on a value that need not be a string. *)
Definition bstrip (v : bson) : exn + string :=
  match v with
  | BStr s => inr (strip s)
  | _ => inl (Raise AttributeError
                (chr sq ++ btype_name v ++ chr sq ++ " object has no attribute "
                   ++ chr sq ++ "strip" ++ chr sq))
  end.

(** Equality of stored values, as the server compares them. *)
Fixpoint bson_eqb (a b : bson) : bool :=
  match a, b with
  | BNone, BNone => true
  | BBool x, BBool y => Bool.eqb x y
  | BInt x, BInt y => (x =? y)%Z
  | BFloat zx tx, BFloat zy ty => Bool.eqb zx zy && String.eqb tx ty
  | BStr x, BStr y => String.eqb x y
  | BDate x, BDate y => (x =? y)%Z
  | BOid x, BOid y => (x =? y)%Z
  | BList l, BList m =>
      (fix go (l m : list bson) : bool :=
         match l, m with
         | [], [] => true
         | x :: l', y :: m' => bson_eqb x y && go l' m'
         | _, _ => false
         end) l m
  | BDict d, BDict e =>
      (fix go (d e : list (string * bson)) : bool :=
         match d, e with
         | [], [] => true
         | (k, x) :: d', (k', y) :: e' => String.eqb k k' && bson_eqb x y && go d' e'
         | _, _ => false
         end) d e
  | _, _ => false
  end.

(** ** The update documents of [update_one] *)

Record update : Type :=
  Update {
    u_set : pydict bson;            (* "$set" *)
    u_set_on_insert : pydict bson;  (* "$setOnInsert" *)
    u_push : pydict bson            (* "$push": field and the value appended *)
  }.

(** Requests sent to the server. *)
Inductive call : Type :=
| ServerInfo
| CreateIndex
| UpdateOne (email : string) (u : update) (upsert : bool)
| FindOne (email : string).

(** ** The world: the [candidates] collection and the module globals *)

Record world : Type :=
  World {
    docs : list doc;        (* the collection, in insertion order *)
    email_index : bool;     (* the unique index on "email" exists *)
    next_oid : Z;           (* the next ObjectId the driver generates *)
    ticks : nat;            (* readings of the clock taken so far *)
    log : list call;        (* requests sent so far, oldest first *)
    db_instance : bool;     (* [_db_instance is not None] *)
    db_wrapper : bool       (* [_db_wrapper is not None] *)
  }.

Definition with_docs (ds : list doc) (n : Z) (w : world) : world :=
  World ds (email_index w) n (ticks w) (log w) (db_instance w) (db_wrapper w).

Definition with_index (b : bool) (w : world) : world :=
  World (docs w) b (next_oid w) (ticks w) (log w) (db_instance w) (db_wrapper w).

Definition with_tick (w : world) : world :=
  World (docs w) (email_index w) (next_oid w) (S (ticks w)) (log w)
        (db_instance w) (db_wrapper w).

(** The world with its count of clock readings set to [t]. *)
Definition ticked (t : nat) (w : world) : world :=
  World (docs w) (email_index w) (next_oid w) t (log w) (db_instance w) (db_wrapper w).

Definition with_call (c : call) (w : world) : world :=
  World (docs w) (email_index w) (next_oid w) (ticks w) (log w ++ [c])%list
        (db_instance w) (db_wrapper w).

Definition with_instance (w : world) : world :=
  World (docs w) (email_index w) (next_oid w) (ticks w) (log w) true (db_wrapper w).

Definition with_wrapper (w : world) : world :=
  World (docs w) (email_index w) (next_oid w) (ticks w) (log w) (db_instance w) true.

(** ** Computations: state passing with exceptions

    An exception leaves the world as it was when it was raised: nothing
    is rolled back. *)

Definition M (A : Type) : Type := world -> (exn + A) * world.

Definition ret {A : Type} (x : A) : M A := fun w => (inr x, w).

Definition raise {A : Type} (e : exn) : M A := fun w => (inl e, w).

Definition bind {A B : Type} (c : M A) (k : A -> M B) : M B :=
  fun w =>
    match c w with
    | (inl e, w') => (inl e, w')
    | (inr x, w') => k x w'
    end.

(** [try: c  except Exception as e: h e] *)
Definition try_except {A : Type} (c : M A) (h : exn -> M A) : M A :=
  fun w =>
    match c w with
    | (inl e, w') => h e w'
    | (inr x, w') => (inr x, w')
    end.

Notation "x <- c ;; k" := (bind c (fun x => k))
  (at level 61, c at next level, right associativity).
Notation "c ;;; k" := (bind c (fun _ => k))
  (at level 61, right associativity).

(** ** Server-side semantics of one update *)



(** Two operators of one update name the same field: the server rejects
    the update before looking at any document (MongoDB error 40,
    "Updating the path ... would create a conflict"). *)
Definition conflicting (u : update) : bool :=
  existsb (fun k => dict_mem k (u_set_on_insert u) || dict_mem k (u_push u))
          (dict_keys (u_set u))
  || existsb (fun k => dict_mem k (u_push u)) (dict_keys (u_set_on_insert u)).

(** ["$set"] and ["$setOnInsert"]: assign each field in turn. *)
Definition set_fields (fields : pydict bson) (d : doc) : doc :=
  fold_left (fun acc kv => dict_set (fst kv) (snd kv) acc) fields d.

(** ["$push"] of one value onto one field. *)
Definition push_field (k : string) (v : bson) (d : doc) : exn + doc :=
  match dict_get k d with
  | None => inr (dict_set k (BList [v]) d)
  | Some (BList l) => inr (dict_set k (BList (l ++ [v])%list) d)
  | Some other =>
      inl (Raise WriteError
             ("The field " ++ chr sq ++ k ++ chr sq
                ++ " must be an array but is of type " ++ btype_name other))
  end.

Fixpoint push_fields (pushes : pydict bson) (d : doc) : exn + doc :=
  match pushes with
  | [] => inr d
  | (k, v) :: rest =>
      match push_field k v d with
      | inl e => inl e
      | inr d' => push_fields rest d'
      end
  end.

(** The filter [{"email": email}]: the field equals the string. *)
Definition matches (email : string) (d : doc) : bool :=
  match dict_get "email" d with
  | Some (BStr e) => String.eqb e email
  | _ => false
  end.

(** The key a document has in the index on "email". *)
Definition email_key (d : doc) : bson := bget "email" d.

Definition has_email_key (v : bson) (ds : list doc) : bool :=
  existsb (fun d => bson_eqb (email_key d) v) ds.

Definition has_id (v : bson) (ds : list doc) : bool :=
  existsb (fun d => bson_eqb (bget "_id" d) v) ds.

Definition conflict_error : exn :=
  Raise WriteError "Updating the path would create a conflict".

Definition immutable_id_error : exn :=
  Raise WriteError
    "Performing an update on the path '_id' would modify the immutable field '_id'".

Definition duplicate_key_error : exn :=
  Raise DuplicateKeyError "E11000 duplicate key error".

(** The matched document after the update. *)
Definition modified (u : update) (d : doc) : exn + doc :=
  match push_fields (u_push u) (set_fields (u_set u) d) with
  | inl e => inl e
  | inr d' =>
      if dict_mem "_id" (u_set u) && negb (bson_eqb (bget "_id" d') (bget "_id" d))
      then inl immutable_id_error
      else inr d'
  end.

(** The document an upsert builds: the equality of the filter, then the
    operators, so that a ["$set"] of "email" overrides the email of the
    filter. *)
Definition inserted (email : string) (u : update) : exn + doc :=
  push_fields (u_push u)
    (set_fields (u_set_on_insert u)
       (set_fields (u_set u) [("email", BStr email)])).

(** Replace the first document the filter matches. *)
Fixpoint replace_first (email : string) (d' : doc) (ds : list doc) : list doc :=
  match ds with
  | [] => []
  | d :: rest =>
      if matches email d then d' :: rest else d :: replace_first email d' rest
  end.

(** [update_one] on the server: the new collection and ObjectId counter,
    or the error; an error changes nothing. *)
Definition update_docs (index : bool) (ds : list doc) (oid : Z)
    (email : string) (u : update) (upsert : bool) : exn + list doc * Z :=
  if conflicting u then inl conflict_error
  else
    match find (matches email) ds with
    | Some d =>
        match modified u d with
        | inl e => inl e
        | inr d' =>
            if index && negb (bson_eqb (email_key d') (email_key d))
                     && has_email_key (email_key d') ds
            then inl duplicate_key_error
            else inr (replace_first email d' ds, oid)
        end
    | None =>
        if upsert then
          match inserted email u with
          | inl e => inl e
          | inr d0 =>
              (* the driver's ObjectId unless the update supplies [_id] *)
              let supplied := dict_mem "_id" d0 in
              let d' := if supplied then d0 else ("_id", BOid oid) :: d0 in
              if (supplied && has_id (bget "_id" d0) ds)
                 || (index && has_email_key (email_key d') ds)
              then inl duplicate_key_error
              else inr ((ds ++ [d'])%list, if supplied then oid else (oid + 1)%Z)
          end
        else inr (ds, oid)
    end.

(** The "answers" array of a document: empty when the field is absent,
    undefined when the field holds something else. *)
Definition answers_of (d : doc) : option (list bson) :=
  match dict_get "answers" d with
  | None => Some []
  | Some (BList l) => Some l
  | Some _ => None
  end.

(** The answers stored for an email: those of the document the filter
    finds, none when it finds no document. *)
Definition stored_answers (email : string) (ds : list doc) : option (list bson) :=
  match find (matches email) ds with
  | Some d => answers_of d
  | None => Some []
  end.

(** The index can be built when no two documents share a key. *)
Fixpoint distinct_emails (ds : list doc) : bool :=
  match ds with
  | [] => true
  | d :: rest => negb (has_email_key (email_key d) rest) && distinct_emails rest
  end.

Section Gateway.

(** The environment: the [n]-th reading of [datetime.utcnow()], and the
    transport failure, if any, of the [n]-th request sent to the server. *)
Variable clock : nat -> Z.
Variable fault : nat -> option exn.

(** [datetime.utcnow()] *)
Definition utcnow : M Z :=
  fun w => (inr (clock (ticks w)), with_tick w).

(** Send one request: it is logged, and fails if the transport does. *)
Definition round_trip (c : call) : M unit :=
  fun w =>
    match fault (length (log w)) with
    | Some e => (inl e, with_call c w)
    | None => (inr tt, with_call c w)
    end.

(** [self._candidates.update_one(filter, update, upsert=...)] *)
Definition update_one (email : string) (u : update) (upsert : bool) : M unit :=
  round_trip (UpdateOne email u upsert) ;;;
  fun w =>
    match update_docs (email_index w) (docs w) (next_oid w) email u upsert with
    | inl e => (inl e, w)
    | inr (ds, n) => (inr tt, with_docs ds n w)
    end.

(** [self._candidates.find_one({"email": email})] *)
Definition find_one (email : string) : M (option doc) :=
  round_trip (FindOne email) ;;;
  fun w => (inr (find (matches email) (docs w)), w).

(** [MongoDB._ensure_indexes]: any failure is swallowed. *)
Definition _ensure_indexes : M unit :=
  try_except
    (round_trip CreateIndex ;;;
     fun w =>
       if distinct_emails (docs w) then (inr tt, with_index true w)
       else (inl duplicate_key_error, w))
    (fun _ => ret tt).

(** [MongoDB.__init__], that is [MongoDB.connect] on a new object. *)
Definition connect : M unit :=
  try_except
    (round_trip ServerInfo ;;; _ensure_indexes)
    (fun ex =>
       match exn_kind ex with
       | ServerSelectionTimeoutError =>
           raise (Raise ConnectionError ("Could not connect to MongoDB: " ++ exn_msg ex))
       | _ => raise ex
       end).

(** [MongoDB.upsert_candidate(email, profile)] *)
Definition upsert_candidate (email : string) (profile : doc) : M unit :=
  let p := dict_pop "answers" profile in
  now <- utcnow ;;
  let p := dict_set "updated_at" (BDate now) p in
  created <- utcnow ;;
  update_one email (Update p [("created_at", BDate created)] []) true.

(** [MongoDB.add_answer(email, answer, upsert_candidate_if_missing)] *)
Definition add_answer (email : string) (answer : doc)
    (upsert_candidate_if_missing : bool) : M unit :=
  stamp <- utcnow ;;
  let a := dict_setdefault "timestamp" (BDate stamp) answer in
  now <- utcnow ;;
  update_one email (Update [("updated_at", BDate now)] [] [("answers", BDict a)])
             upsert_candidate_if_missing.

(** The update documents that the two methods send when the clock has
    been read [t] times before the call. *)
Definition profile_update (t : nat) (profile : doc) : update :=
  Update (dict_set "updated_at" (BDate (clock t)) (dict_pop "answers" profile))
         [("created_at", BDate (clock (S t)))] [].

Definition stamped (t : nat) (answer : doc) : doc :=
  dict_setdefault "timestamp" (BDate (clock t)) answer.

Definition answer_update (t : nat) (answer : doc) : update :=
  Update [("updated_at", BDate (clock (S t)))] [] [("answers", BDict (stamped t answer))].

(** [add_answer] called once per answer, in order, with the default
    [upsert_candidate_if_missing=True]. *)
Fixpoint add_each (email : string) (answers : list doc) : M unit :=
  match answers with
  | [] => ret tt
  | a :: rest => add_answer email a true ;;; add_each email rest
  end.

(** The records those calls append when the clock has been read [t]
    times before the first: each call reads it twice. *)
Fixpoint stamped_from (t : nat) (answers : list doc) : list bson :=
  match answers with
  | [] => []
  | a :: rest => BDict (stamped t a) :: stamped_from (S (S t)) rest
  end.

(** [r] is the answer [a], with a "timestamp" added when it had none. *)
Definition timestamped (a : doc) (r : bson) : Prop :=
  (dict_mem "timestamp" a = true -> r = BDict a)
  /\ (dict_mem "timestamp" a = false ->
      exists t, r = BDict (a ++ [("timestamp", BDate (clock t))])%list).

(** [MongoDB.get_candidate_by_email(email)] *)
Definition get_candidate_by_email (email : string) : M (option doc) :=
  find_one email.

(** [get_db()] *)
Definition get_db : M unit :=
  fun w =>
    if db_instance w then (inr tt, w)
    else (connect ;;; fun w' => (inr tt, with_instance w')) w.

(** [init_mongo()] *)
Definition init_mongo : M unit :=
  fun w =>
    if db_wrapper w then (inr tt, w)
    else
      try_except
        (get_db ;;; fun w' => (inr tt, with_wrapper w'))
        (fun e =>
           raise (Raise RuntimeError ("Failed to initialize MongoDB: " ++ exn_msg e))) w.

(** The builtins the module applies to stored values and exceptions:
    [str(v)] and [traceback.format_exc()] for the exception being
    handled. *)
Variable py_str : bson -> string.
Variable format_exc : exn -> string.

(** The first five [setdefault] lines of [_normalize_answer_input]. *)
Definition default_fields (ans : doc) : doc :=
  let a := ans in
  let a := dict_setdefault "question_id" (bor (bor (bget "question_id" a) (bget "qid" a)) BNone) a in
  let a := dict_setdefault "question" (bor (bor (bget "question" a) (bget "q" a)) (BStr "")) a in
  let a := dict_setdefault "answer" (bor (bor (bget "answer" a) (bget "response" a)) (BStr "")) a in
  let a := dict_setdefault "tech" (bor (bget "tech" a) (BStr "General")) a in
  dict_setdefault "score" (bget_default "score" BNone a) a.

(** [_normalize_answer_input(ans)]: the clock is read only when the
    answer has no truthy "timestamp". *)
Definition _normalize_answer_input (ans : doc) : M doc :=
  let a := default_fields ans in
  stamp <- (if btruthy (bget "timestamp" a) then ret (bget "timestamp" a)
            else (now <- utcnow ;; ret (BDate now))) ;;
  ret (dict_setdefault "timestamp" stamp a).

(** The [ans_doc] literal built from the normalised answer. *)
Definition ans_doc (norm : doc) : doc :=
  [("question_id", bget "question_id" norm);
   ("question", bget "question" norm);
   ("answer", bget "answer" norm);
   ("tech", bget "tech" norm);
   ("score", bget "score" norm);
   ("timestamp", bget "timestamp" norm)].

(** The body of [for raw in answers_list]. *)
Definition push_answer (email : string) (raw : doc) : M unit :=
  norm <- _normalize_answer_input raw ;;
  add_answer email (ans_doc norm) true.

Fixpoint push_answers (email : string) (answers_list : list doc) : M unit :=
  match answers_list with
  | [] => ret tt
  | raw :: rest => push_answer email raw ;;; push_answers email rest
  end.

(** The normalised answer and the number of clock readings after it,
    when the clock had been read [t] times before. *)
Definition normalize_at (t : nat) (raw : doc) : doc * nat :=
  let a := default_fields raw in
  if btruthy (bget "timestamp" a)
  then (dict_setdefault "timestamp" (bget "timestamp" a) a, t)
  else (dict_setdefault "timestamp" (BDate (clock t)) a, S t).

(** The records and the requests of the loop over [answers_list], in
    input order: each iteration normalises, then [add_answer] reads the
    clock twice. *)
Fixpoint records_from (t : nat) (answers_list : list doc) : list bson :=
  match answers_list with
  | [] => []
  | raw :: rest =>
      BDict (ans_doc (fst (normalize_at t raw)))
        :: records_from (S (S (snd (normalize_at t raw)))) rest
  end.

Fixpoint push_calls (email : string) (t : nat) (answers_list : list doc) : list call :=
  match answers_list with
  | [] => []
  | raw :: rest =>
      UpdateOne email
        (answer_update (snd (normalize_at t raw)) (ans_doc (fst (normalize_at t raw)))) true
        :: push_calls email (S (S (snd (normalize_at t raw)))) rest
  end.

(** The email expression of [save_candidate_and_answers], before
    [.strip()]. *)
Definition email_lookup (candidate : doc) : bson :=
  bor (bor (bor (bget "email" candidate) (bget "Email" candidate))
           (bget "email_address" candidate))
      (BStr "").

Definition missing_email : exn :=
  Raise ValueError "Candidate must include an 'email' field to save to MongoDB.".

(** The [profile] literal; the two [.strip()] calls can raise. *)
Definition build_profile (candidate : doc) (email : string) : exn + doc :=
  match bstrip (bget_default "name" (bget_default "full_name" (BStr "") candidate) candidate) with
  | inl e => inl e
  | inr name =>
      match bstrip (bget_default "phone"
                      (bget_default "phone_number" (BStr "") candidate) candidate) with
      | inl e => inl e
      | inr phone =>
          inr [("name", BStr name);
               ("email", BStr email);
               ("phone", BStr phone);
               ("position",
                 bget_default "position"
                   (bget_default "desired_position" (BStr "") candidate) candidate);
               ("meta",
                 bget_default "meta" (BDict [("status", BStr "in_progress")]) candidate);
               ("tech_stack", bget_default "tech_stack" (BList []) candidate)]
      end
  end.

Definition lift {A : Type} (r : exn + A) : M A :=
  match r with
  | inl e => raise e
  | inr x => ret x
  end.

Definition save_failure (ex : exn) : exn :=
  Raise RuntimeError
    ("Failed to save candidate and answers: " ++ exn_msg ex ++ nl ++ nl ++ format_exc ex).

(** The [try] block of [save_candidate_and_answers]. *)
Definition save_body (email : string) (profile : doc) (answers_list : list doc)
  : M string :=
  upsert_candidate email profile ;;;
  push_answers email answers_list ;;;
  found <- get_candidate_by_email email ;;
  match found with
  | None => raise (Raise RuntimeError "Failed to retrieve candidate after save.")
  | Some [] => raise (Raise RuntimeError "Failed to retrieve candidate after save.")
  | Some d => ret (py_str (bget "_id" d))
  end.

(** [save_candidate_and_answers(candidate, answers_list)] *)
Definition save_candidate_and_answers (candidate : bson) (answers_list : list doc)
  : M string :=
  (fun w =>
     if db_wrapper w then (inr tt, w)
     else
       try_except init_mongo
         (fun e =>
            raise (Raise ConnectionError
                     ("MongoDB not initialized and auto-init failed: " ++ exn_msg e))) w) ;;;
  match candidate with
  | BDict c =>
      email <- lift (bstrip (email_lookup c)) ;;
      if nonempty email then
        profile <- lift (build_profile c email) ;;
        try_except (save_body email profile answers_list)
                   (fun ex => raise (save_failure ex))
      else raise missing_email
  | _ => raise (Raise ValueError "candidate must be a dict")
  end.

End Gateway.

(** A request of the connection phase, which touches no document. *)
Definition connection_call (c : call) : Prop := c = ServerInfo \/ c = CreateIndex.

(** ** Vocabulary of the statements about the save *)

(** The value of the first of [keys] that the candidate maps to a
    truthy value: what a chain of [candidate.get(k) or ...] selects. *)
Fixpoint first_truthy_field (keys : list string) (c : doc) : option bson :=
  match keys with
  | [] => None
  | k :: ks => if btruthy (bget k c) then Some (bget k c) else first_truthy_field ks c
  end.

Definition email_keys : list string := ["email"; "Email"; "email_address"].

(** The candidate gives the email [email]: the first truthy value under
    the email keys is a text, and [email] is that text stripped, which
    is not empty. *)
Definition has_email (c : doc) (email : string) : Prop :=
  exists s,
    first_truthy_field email_keys c = Some (BStr s) /\ strip s = email /\ email <> "".

(** The candidate gives no email: no email key holds a truthy value
    (each is absent, [None], empty, ...), or the first that does holds
    white space only. *)
Definition no_email (c : doc) : Prop :=
  first_truthy_field email_keys c = None
  \/ exists s, first_truthy_field email_keys c = Some (BStr s) /\ white s.

(** [c.get(k1, c.get(k2, default))] and [c.get(k, default)] *)
Definition either_field (k1 k2 : string) (default : bson) (c : doc) : bson :=
  match dict_get k1 c, dict_get k2 c with
  | Some v, _ => v
  | None, Some v => v
  | None, None => default
  end.

Definition field_or (k : string) (default : bson) (c : doc) : bson :=
  match dict_get k c with
  | Some v => v
  | None => default
  end.

(** The document [d] holds the profile of the candidate [c], whose name
    and phone are the texts [name] and [phone]. *)
Definition profile_stored (c : doc) (email name phone : string) (d : doc) : Prop :=
  dict_get "name" d = Some (BStr (strip name))
  /\ dict_get "email" d = Some (BStr email)
  /\ dict_get "phone" d = Some (BStr (strip phone))
  /\ dict_get "position" d = Some (either_field "position" "desired_position" (BStr "") c)
  /\ dict_get "meta" d = Some (field_or "meta" (BDict [("status", BStr "in_progress")]) c)
  /\ dict_get "tech_stack" d = Some (field_or "tech_stack" (BList []) c).

(** The ["$set"] document of the upsert of that profile, sent when the
    clock has been read [t] times. *)
Definition profile_set (clock : nat -> Z) (c : doc) (email name phone : string) (t : nat)
  : doc :=
  [("name", BStr (strip name));
   ("email", BStr email);
   ("phone", BStr (strip phone));
   ("position", either_field "position" "desired_position" (BStr "") c);
   ("meta", field_or "meta" (BDict [("status", BStr "in_progress")]) c);
   ("tech_stack", field_or "tech_stack" (BList []) c);
   ("updated_at", BDate (clock t))].

(** The record stored for the answer [raw], normalised when the clock
    has been read [t] times: each of the six fields is the one the
    answer supplies, and for a field it does not supply the alternate
    key or the default. *)
Definition expected_record (clock : nat -> Z) (t : nat) (raw : doc) : bson :=
  BDict
    [("question_id", field_or "question_id" (bor (bget "qid" raw) BNone) raw);
     ("question", field_or "question" (bor (bget "q" raw) (BStr "")) raw);
     ("answer", field_or "answer" (bor (bget "response" raw) (BStr "")) raw);
     ("tech", field_or "tech" (BStr "General") raw);
     ("score", field_or "score" BNone raw);
     ("timestamp", field_or "timestamp" (BDate (clock t)) raw)].

(** The clock is read for the "timestamp" of an answer that has none, or
    a falsy one. *)
Definition reads_clock (raw : doc) : nat :=
  if btruthy (bget "timestamp" raw) then 0 else 1.

(** The records of the answers, in input order: after an answer is
    normalised, [add_answer] reads the clock twice. *)
Fixpoint expected_records (clock : nat -> Z) (t : nat) (answers_list : list doc)
  : list bson :=
  match answers_list with
  | [] => []
  | raw :: rest =>
      expected_record clock t raw
        :: expected_records clock (t + reads_clock raw + 2) rest
  end.

(** The requests that append them: each pushes one record and sets
    "updated_at" to the second reading of [add_answer]. *)
Fixpoint expected_pushes (clock : nat -> Z) (email : string) (t : nat)
    (answers_list : list doc) : list call :=
  match answers_list with
  | [] => []
  | raw :: rest =>
      UpdateOne email
        (Update [("updated_at", BDate (clock (t + reads_clock raw + 1)))] []
                [("answers", expected_record clock t raw)]) true
        :: expected_pushes clock email (t + reads_clock raw + 2) rest
  end.

(** The requests of a save whose gateway is initialised: the upsert of
    the profile, the pushes, the re-read. *)
Definition expected_requests (clock : nat -> Z) (c : doc) (email name phone : string)
    (t : nat) (answers_list : list doc) : list call :=
  (UpdateOne email
     (Update (profile_set clock c email name phone t)
             [("created_at", BDate (clock (S t)))] []) true
     :: expected_pushes clock email (S (S t)) answers_list
     ++ [FindOne email])%list.

(** The lazy initialisation has nothing left to do, or its first request
    reaches the server. *)
Definition reachable (fault : nat -> option exn) (w : world) : Prop :=
  db_wrapper w = true \/ db_instance w = true \/ fault (length (log w)) = None.

(** The world once the gateway is initialised: as it is when the wrapper
    exists; with the wrapper set when only the instance exists; else
    after [server_info] and [create_index], the index being built when
    that request arrives and no two documents share an email. *)
Definition after_init (fault : nat -> option exn) (w : world) : world :=
  if db_wrapper w then w
  else if db_instance w then with_wrapper w
  else
    World (docs w)
          (match fault (S (length (log w))) with
           | Some _ => email_index w
           | None => if distinct_emails (docs w) then true else email_index w
           end)
          (next_oid w) (ticks w) (log w ++ [ServerInfo; CreateIndex])%list true true.

End Mongo.

(* ================================================================== *)
(** * Vocabulary for further properties of server.py *)
(* ================================================================== *)

Module ServerProps.

Import Server.

(** A record as [generate_questions] builds them: neither text begins
    or ends with white space. *)
Definition clean_item (q : question_item) : Prop :=
  trimmed (question q) /\ trimmed (ideal_answer_focus q).

End ServerProps.

(* ================================================================== *)
(** * app.py: the forms around [normalize_q_map] *)
(* ================================================================== *)

Module Form.

Import Server App Mongo.

(** ** The fallback [parse_tech_input] *)

(** One character matched by the pattern [",|\n|;"]. *)
Definition is_separator (c : ascii) : bool :=
  Ascii.eqb c ","%char || Ascii.eqb c "010"%char || Ascii.eqb c ";"%char.

(** The pieces between the characters that [sep] accepts: [re.split] for
    a pattern that matches one character, and [s.split(c)] for a
    one-character separator. The text without separator is one piece. *)
Fixpoint split_on (sep : ascii -> bool) (s : string) : list string :=
  match s with
  | EmptyString => [EmptyString]
  | String c s' =>
      if sep c then EmptyString :: split_on sep s'
      else
        match split_on sep s' with
        | [] => [chr c]
        | piece :: pieces => String c piece :: pieces
        end
  end.

(** [parse_tech_input(s)] *)
Definition parse_tech_input (s : string) : list string :=
  if nonempty s then
    map strip (filter (fun item => nonempty (strip item)) (split_on is_separator s))
  else [].

(** [techstack] after the loop over the four fields of the tech form. *)
Definition techstack (langs frameworks dbs tools : string) : list string :=
  (parse_tech_input langs ++ parse_tech_input frameworks
     ++ parse_tech_input dbs ++ parse_tech_input tools)%list.

(** No character of [p] is a separator. *)
Definition separator_free (sep : ascii -> bool) (p : string) : Prop :=
  forall c, sep c = true -> has_char c p = false.

(** A name that [parse_tech_input] can yield: not empty, no surrounding
    white space, no separator. *)
Definition tech_name (t : string) : Prop :=
  t <> "" /\ trimmed t /\ separator_free is_separator t.

(** ** From the generator to the normaliser

    The value [generate_questions] returns, as the Python object that
    [normalize_q_map] inspects: a dict of lists of two-key dicts. *)
Definition item_json (q : question_item) : json :=
  JDict [("question", JStr (question q));
         ("ideal_answer_focus", JStr (ideal_answer_focus q))].

Definition map_json (out : pydict (list question_item)) : pydict json :=
  map (fun kv => (fst kv, JList (map item_json (snd kv)))) out.

(** [raw_q_map] after the [try] around [generate_questions]: the empty
    dict when the call raised. *)
Definition raw_q_map (generated : exn + pydict (list question_item)) : pydict json :=
  match generated with
  | inl _ => []
  | inr out => map_json out
  end.

(** ** The two key schemes *)

(** [f"{tech}__q{idx}"], the key of [question_texts]. *)
Definition text_key (tech : string) (idx : nat) : string :=
  tech ++ "__q" ++ str_int (Z.of_nat idx).

(** [f"{tech} Question{idx}"], the key of [answers]. *)
Definition answer_key (tech : string) (idx : nat) : string :=
  tech ++ " Question" ++ str_int (Z.of_nat idx).

(** The inner loop that fills [question_texts], from index [idx]. *)
Fixpoint texts_of_items (tech : string) (items : list question_item) (idx : nat)
    (texts : pydict string) : pydict string :=
  match items with
  | [] => texts
  | item :: rest =>
      texts_of_items tech rest (S idx) (dict_set (text_key tech idx) (question item) texts)
  end.

Fixpoint texts_loop (norm_q_map : pydict (list question_item))
    (texts : pydict string) : pydict string :=
  match norm_q_map with
  | [] => texts
  | (tech, items) :: rest => texts_loop rest (texts_of_items tech items 1 texts)
  end.

(** [st.session_state.question_texts] after the tech form. *)
Definition question_texts (norm_q_map : pydict (list question_item)) : pydict string :=
  texts_loop norm_q_map [].

Section Display.

(** [st.text_area(..., value=prev, key=textarea_key)]: the text the
    widget holds, given its key and the value offered to it. *)
Variable text_area : string -> string -> string.

(** The inner loop of the display of the questions, from index [idx]:
    what it stores in [st.session_state.answers]. *)
Fixpoint answers_of_items (tech : string) (items : list question_item) (idx : nat)
    (answers : pydict string) : pydict string :=
  match items with
  | [] => answers
  | item :: rest =>
      let qkey := answer_key tech idx in
      let prev := match dict_get qkey answers with Some a => a | None => "" end in
      let ans := text_area (qkey ++ "_ta") prev in
      answers_of_items tech rest (S idx) (dict_set qkey ans answers)
  end.

Fixpoint display_loop (generated_questions : pydict (list question_item))
    (answers : pydict string) : pydict string :=
  match generated_questions with
  | [] => answers
  | (tech, items) :: rest => display_loop rest (answers_of_items tech items 1 answers)
  end.

End Display.

(** [key.split(sep, 1)[0]]: the text before the first [sep], the whole
    text when it has none. *)
Fixpoint split_head (sep s : string) : string :=
  match s with
  | EmptyString => EmptyString
  | String c s' => if String.prefix sep s then EmptyString else String c (split_head sep s')
  end.

(** [key.split("__", 1)[0] if "__" in key else "General"] *)
Definition tech_part (key : string) : string :=
  if contains "__" key then split_head "__" key else "General".

(** [answers_list], built when the answers are submitted. *)
Definition answers_list (answers texts : pydict string) : list doc :=
  map (fun kv =>
         [("tech", BStr (tech_part (fst kv)));
          ("question", BStr (match dict_get (fst kv) texts with Some q => q | None => "" end));
          ("answer", BStr (snd kv))])
      answers.

(** The keys of [answers] were made by the display of the questions,
    for technologies among [techs]. *)
Definition answer_keyed (techs : list string) (answers : pydict string) : Prop :=
  Forall (fun k => exists tech idx, In tech techs /\ k = answer_key tech idx)
         (dict_keys answers).

(** The last character of [s] that is not a decimal digit. *)
Fixpoint last_nondigit (s : string) : option ascii :=
  match s with
  | EmptyString => None
  | String c s' =>
      match last_nondigit s' with
      | Some d => Some d
      | None =>
          if ((48 <=? nat_of_ascii c) && (nat_of_ascii c <=? 57))%nat then None else Some c
      end
  end.

End Form.

(* ================================================================== *)
(** * Vocabulary for further properties of mongo.py *)
(* ================================================================== *)

Module MongoProps.

Import Mongo.

(** The documents that the filter on [email] does not match are the same
    in [w'] as in [w], at the same positions. *)
Definition others_kept (email : string) (w w' : world) : Prop :=
  forall i d,
    nth_error (docs w) i = Some d -> matches email d = false ->
    nth_error (docs w') i = Some d.

(** The fields that a save writes. *)
Definition saved_fields : list string :=
  ["name"; "email"; "phone"; "position"; "meta"; "tech_stack"; "updated_at"; "answers"].

(** The fields that [add_answer] writes. *)
Definition answer_fields : list string := ["updated_at"; "answers"].

(** A document found for [email] in [w] is still found in [w'], with
    every field outside [touched] as it was, and [w'] has as many
    documents as [w]. *)
Definition candidate_kept (touched : list string) (email : string) (w w' : world) : Prop :=
  forall d,
    find (matches email) (docs w) = Some d ->
    length (docs w') = length (docs w)
    /\ exists d',
         find (matches email) (docs w') = Some d'
         /\ forall k, ~ In k touched -> dict_get k d' = dict_get k d.

End MongoProps.

(* ================================================================== *)
(** * Inputs of the worked examples *)
(* ================================================================== *)

Module Examples.

Import Server.

(** The JSON text of a value whose strings need no escaping. *)
Fixpoint dumps (v : json) : string :=
  match v with
  | JNull => "null"
  | JBool true => "true"
  | JBool false => "false"
  | JInt z => str_int z
  | JFloat _ text => text
  | JStr s => chr dq ++ s ++ chr dq
  | JList l => "[" ++ join ", " (map dumps l) ++ "]"
  | JDict d =>
      "{" ++ join ", " (map (fun kv => chr dq ++ fst kv ++ chr dq ++ ": " ++ dumps (snd kv)) d)
          ++ "}"
  end.

(** A configured client whose answer is the JSON text of [parsed]. *)
Definition upstream (parsed : json) : option client :=
  Some (fun _ => inr (inr (Some (dumps parsed)))).

(** A [json.loads] that reads that text back and rejects any other. *)
Definition loads_of (parsed : json) : string -> loads_outcome :=
  fun raw => if String.eqb raw (dumps parsed) then Loaded parsed else DecodeError.

(** [repr] of a text of letters, digits and spaces, as the names in the
    examples are: the text between single quotes. *)
Definition quoted (s : string) : string := chr sq ++ s ++ chr sq.

(** U+00A0, NO-BREAK SPACE, and U+2003, EM SPACE, in UTF-8. *)
Definition nbsp : string := String (ascii_of_nat 194) (String (ascii_of_nat 160) "").

Definition em_space : string :=
  String (ascii_of_nat 226) (String (ascii_of_nat 128) (String (ascii_of_nat 131) "")).

Definition python_docker : list string := ["Python"; "Docker"].

(** The same request typed with a no-break space after Python, an item
    that is an em space, and a space after Docker. *)
Definition padded_python_docker : list string :=
  [" Python" ++ nbsp; em_space; "Docker "].

(** Three plain strings for Python, one question mapping for Docker. *)
Definition strings_then_one : pydict json :=
  [("Python", JList [JStr "Q1"; JStr "Q2"; JStr "Q3"]);
   ("Docker", JList [JDict [("question", JStr "Q1d"); ("focus", JStr "networking")]])].

(** Five elements for Python, of which one is a mapping with a key
    "question": two are plain strings and two use "q" and "prompt". *)
Definition mixed_entry : list json :=
  [JStr "Q1"; JDict [("question", JStr "Q2")]; JDict [("q", JStr "Q3")];
   JStr "Q4"; JDict [("prompt", JStr "Q5")]].

Definition mixed_map : pydict json := [("Python", JList mixed_entry)].

(** One question mapping for each of Python and Docker. *)
Definition python_entry : list json := [JDict [("question", JStr "Q1p")]].

Definition docker_entry : list json :=
  [JDict [("question", JStr "Q1d"); ("ideal_answer_focus", JStr "networking")]].

Definition one_each : pydict json :=
  [("Python", JList python_entry); ("Docker", JList docker_entry)].

(** One question for Python, nothing for Docker. *)
Definition python_only : pydict json :=
  [("Python", JList [JDict [("question", JStr "Q1")]])].

Definition numbered (n : Z) : json :=
  JDict [("question", JStr ("Q" ++ str_int n)); ("ideal_answer_focus", JStr "focus")].

(** Six question mappings for Go. *)
Definition six_for_go : pydict json :=
  [("Go", JList (map numbered [1; 2; 3; 4; 5; 6]%Z))].

(** A mapping element whose "question" is empty, whose "q" holds the
    text, and whose focus is the number 0. *)
Definition empty_question_element : pydict json :=
  [("question", JStr ""); ("q", JStr "What is a decorator?"); ("ideal_answer_focus", JInt 0)].

Definition decorator_map : pydict json :=
  [("Python", JList [JDict empty_question_element])].

(** A mapping element that uses the alternate keys. *)
Definition alternate_keys_element : pydict json :=
  [("prompt", JStr " What is a layer? "); ("focus", JStr "networking")].

(** A mapping element without question key, whose second field is the
    first that holds a string; and one without any string field. *)
Definition text_field_element : pydict json :=
  [("n", JInt 1); ("text", JStr " What is a volume? "); ("note", JStr "storage")].

Definition number_element : pydict json := [("n", JInt 1)].

Definition layer_map : pydict json :=
  [("Docker", JList [JStr "Q1"; JDict alternate_keys_element;
                     JDict text_field_element; JDict number_element])].

(** ** Persistence *)

Import Mongo.

(** A clock that advances by one at every reading, a transport that
    never fails, and one that cannot reach the server at the first
    request. *)
Definition tick_clock (n : nat) : Z := Z.of_nat n + 1.

Definition no_fault (n : nat) : option exn := None.

Definition unreachable (n : nat) : option exn :=
  match n with
  | O => Some (Raise ServerSelectionTimeoutError "localhost:27017: connection refused")
  | _ => None
  end.

(** [str] of an ObjectId, for the examples: its number in decimal. *)
Definition show_id (v : bson) : string :=
  match v with
  | BOid n => str_int n
  | _ => "?"
  end.

Definition no_traceback (e : exn) : string := "".

(** An empty collection behind an initialised gateway, and behind one
    that has not been initialised. *)
Definition ready_world : world := World [] true 1 0 [] true true.

Definition cold_world : world := World [] false 1 0 [] false false.

(** Ann's document, with one stored answer. *)
Definition ann_doc : doc :=
  [("_id", BOid 7); ("email", BStr "a@b.com"); ("name", BStr "Ann");
   ("updated_at", BDate 0); ("created_at", BDate 0);
   ("answers", BList [BDict [("question", BStr "Q0"); ("answer", BStr "A0")]])].

Definition ann_world : world := World [ann_doc] true 8 0 [] true true.



Definition plain_profile : doc := [("name", BStr "Ann B."); ("answers", BList [])].

Definition ann_candidate : doc := [("email", BStr "a@b.com"); ("full_name", BStr "Ann")].

Definition no_email_candidate : doc := [("full_name", BStr "Ann"); ("email", BStr "")].

(** The only email is a no-break space. *)
Definition nbsp_email_candidate : doc := [("full_name", BStr "Ann"); ("email", BStr nbsp)].

(** The email comes second and ends in a no-break space; the name is
    padded. *)
Definition padded_candidate : doc :=
  [("email", BStr ""); ("Email", BStr ("a@b.com" ++ nbsp)); ("name", BStr (" Ann" ++ em_space));
   ("phone_number", BStr "555"); ("tech_stack", BList [BStr "Go"])].

(** The request at position [k] fails in transport. *)
Definition fails_at (k n : nat) : option exn :=
  if (n =? k)%nat then Some (Raise (OtherError "AutoReconnect") "connection closed")
  else None.

(** An answer under the alternate keys, and one with a null timestamp. *)
Definition short_answer : doc := [("q", BStr "Q4"); ("response", BStr "A4")].

Definition unstamped_answer : doc :=
  [("question", BStr "Q5"); ("answer", BStr "A5"); ("score", BInt 3); ("timestamp", BNone)].

Definition answer_1 : doc := [("question", BStr "Q1"); ("answer", BStr "A1"); ("tech", BStr "Python")].
Definition answer_2 : doc := [("question", BStr "Q2"); ("answer", BStr "A2"); ("tech", BStr "Python")].
Definition answer_3 : doc := [("question", BStr "Q3"); ("answer", BStr "A3"); ("tech", BStr "Docker")].

End Examples.

(* ================================================================== *)
(** * Inputs of the further examples *)
(* ================================================================== *)

Module MoreExamples.

Import Server Mongo Examples.

(** U+200B, ZERO WIDTH SPACE, which Python does not count as white
    space, in UTF-8. *)
Definition zwsp : string :=
  String (ascii_of_nat 226) (String (ascii_of_nat 128) (String (ascii_of_nat 139) "")).

(** The text whose UTF-8 bytes are [bytes]. *)
Definition utf8 (bytes : list nat) : string :=
  string_of_list_ascii (map ascii_of_nat bytes).

(** The characters for which [str.isspace] holds in CPython 3.11, and
    some neighbours for which it does not (U+0008, U+000E, U+001B,
    U+0021, U+0084, U+00A1, U+180E, U+200B, U+200C, U+2060, U+FEFF). *)
Definition white_space_characters : list string :=
  map utf8
    [[9]; [10]; [11]; [12]; [13]; [28]; [29]; [30]; [31]; [32];
     [194; 133]; [194; 160]; [225; 154; 128];
     [226; 128; 128]; [226; 128; 129]; [226; 128; 130]; [226; 128; 131];
     [226; 128; 132]; [226; 128; 133]; [226; 128; 134]; [226; 128; 135];
     [226; 128; 136]; [226; 128; 137]; [226; 128; 138];
     [226; 128; 168]; [226; 128; 169]; [226; 128; 175]; [226; 129; 159];
     [227; 128; 128]]%nat.

Definition other_characters : list string :=
  map utf8
    [[8]; [14]; [27]; [33]; [194; 132]; [194; 161]; [225; 160; 142];
     [226; 128; 139]; [226; 128; 140]; [226; 129; 160]; [239; 187; 191]]%nat.

(** A request without a usable name. *)
Definition blank_request : list string := [""; "   "; nbsp; " " ++ em_space].

(** A client that answers in prose. *)
Definition prose : string := "Here are your questions.".

Definition prose_client : option client := Some (fun _ => inr (inr (Some prose))).

(** Go between a space and a no-break space, and two blank items. *)
Definition padded_go : list string := [" Go" ++ nbsp; ""; em_space].

(** A client and a reader for a response nested too deeply to parse. *)
Definition deep : string := "[[[[".

Definition deep_client : option client := Some (fun _ => inr (inr (Some deep))).

Definition loads_overflow : string -> loads_outcome :=
  fun _ => LoadsRaised (Raise (OtherError "RecursionError")
                          "maximum recursion depth exceeded while decoding a JSON array").

Definition numbered_item (n : Z) : question_item :=
  QuestionItem ("Q" ++ str_int n) "focus".

(** What [generate_questions] returns for [six_for_go]. *)
Definition five_for_go : pydict (list question_item) :=
  [("Go", map numbered_item [1; 2; 3; 4; 5]%Z)].

(** A response that is a list of names, not an object. *)
Definition listed_names : json := JList [JStr "Python"].

(** A response whose entry for Python is a single string. *)
Definition single_string : pydict json := [("Python", JStr "What is a decorator?")].

(** [six_for_go] with an entry for a technology nobody requested. *)
Definition go_and_rust : pydict json := (six_for_go ++ [("Rust", JList [])])%list.

(** A text area that holds the same answer for every question. *)
Definition typed (key prev : string) : string := "It depends.".

Definition go_questions : pydict (list question_item) :=
  [("Go", [QuestionItem "What is a goroutine?" "concurrency";
           QuestionItem "What is a channel?" ""])].

(** Bob's document, stored before Ann's. *)
Definition bob_doc : doc :=
  [("_id", BOid 3); ("email", BStr "bob@b.com"); ("name", BStr "Bob");
   ("answers", BList [])].

Definition two_world : world := World [bob_doc; ann_doc] true 8 0 [] true true.

(** A document whose "answers" is a text. *)
Definition odd_doc : doc :=
  [("_id", BOid 7); ("email", BStr "a@b.com"); ("answers", BStr "none yet")].

Definition odd_world : world := World [odd_doc] true 8 0 [] true true.

(** An answer whose "question" is empty while "q" holds a text, and
    whose answer text is under "response". *)
Definition empty_question_answer : doc :=
  [("question", BStr ""); ("q", BStr "What is a goroutine?");
   ("response", BStr "A light thread.")].

(** Candidates whose name is a number: one with an email of a no-break
    space only, one with a usable email. *)
Definition unnamed_blank_candidate : doc := [("email", BStr nbsp); ("name", BInt 7)].

Definition unnamed_candidate : doc := [("email", BStr "a@b.com"); ("name", BInt 7)].

End MoreExamples.

(* ================================================================== *)
(** * Facts about texts: [strip] *)
(* ================================================================== *)

Section StripFacts.

Lemma append_nil_r s : s ++ "" = s.
Proof. induction s as [|a s IH]; simpl; [reflexivity | now rewrite IH]. Qed.

Lemma append_assoc (a b c : string) : (a ++ b) ++ c = a ++ (b ++ c).
Proof. induction a as [|x a IH]; simpl; [reflexivity | now rewrite IH]. Qed.

Lemma append_length (a b : string) :
  String.length (a ++ b) = (String.length a + String.length b)%nat.
Proof. induction a as [|x a IH]; simpl; [reflexivity | now rewrite IH]. Qed.

Lemma space_char_nonempty w : space_char w -> w <> "".
Proof. now destruct 1. Qed.

(** A byte that begins a longer white-space character is not one by
    itself. *)
Lemma isspace2_lead a b : isspace2 a b = true -> isspace a = false.
Proof.
  unfold isspace2, isspace. intros H.
  apply andb_true_iff in H as [H _]. apply Nat.eqb_eq in H. now rewrite H.
Qed.

Lemma isspace3_lead a b c :
  isspace3 a b c = true -> isspace a = false /\ forall b', isspace2 a b' = false.
Proof.
  unfold isspace3, isspace2, isspace. intros H.
  assert (Hl : nat_of_ascii a = 225%nat \/ nat_of_ascii a = 226%nat
               \/ nat_of_ascii a = 227%nat).
  { repeat (apply orb_true_iff in H as [H|H]);
      repeat (apply andb_true_iff in H as [H ?]);
      apply Nat.eqb_eq in H; auto. }
  destruct Hl as [-> | [-> | ->]]; split; reflexivity.
Qed.

(** One step of [lstrip]: it removes a leading white-space character, or
    there is none and the text stays. *)
Lemma lstrip_cases s :
  (lstrip s = s /\ forall w r, space_char w -> s <> w ++ r)
  \/ (exists w r, space_char w /\ s = w ++ r /\ lstrip s = lstrip r).
Proof.
  destruct s as [|a r1].
  { left. split; [reflexivity|]. intros w r Hw H. destruct Hw; discriminate H. }
  destruct (isspace a) eqn:E1.
  { right. exists (String a ""), r1. simpl. rewrite E1.
    repeat split. now constructor. }
  destruct r1 as [|b r2].
  { left. simpl. rewrite E1. split; [reflexivity|].
    intros w r Hw H. destruct Hw; simpl in H; inversion H; subst; congruence. }
  destruct (isspace2 a b) eqn:E2.
  { right. exists (String a (String b "")), r2. simpl. rewrite E1, E2.
    repeat split. now constructor. }
  destruct r2 as [|c r3].
  { left. simpl. rewrite E1, E2. split; [reflexivity|].
    intros w r Hw H. destruct Hw; simpl in H; inversion H; subst; congruence. }
  destruct (isspace3 a b c) eqn:E3.
  { right. exists (String a (String b (String c ""))), r3. simpl. rewrite E1, E2, E3.
    repeat split. now constructor. }
  left. simpl. rewrite E1, E2, E3. split; [reflexivity|].
  intros w r Hw H. destruct Hw; simpl in H; inversion H; subst; congruence.
Qed.

(** [lstrip] removes a text of white space and leaves a text that does
    not begin with white space. *)
Lemma lstrip_split s :
  exists l,
    white l /\ s = l ++ lstrip s
    /\ forall w r, space_char w -> lstrip s <> w ++ r.
Proof.
  remember (String.length s) as n eqn:Hn. revert s Hn.
  induction n as [n IH] using lt_wf_ind. intros s Hn.
  destruct (lstrip_cases s) as [[Hs Hno]|(w & r & Hw & Hs & Hl)].
  - exists "". rewrite Hs. split; [constructor|]. split; [reflexivity | exact Hno].
  - destruct (IH (String.length r)) with (s := r) as (l & Hl1 & Hl2 & Hl3);
      [|reflexivity|].
    { subst s n. rewrite append_length. pose proof (space_char_nonempty _ Hw).
      destruct w; [congruence | simpl; lia]. }
    exists (w ++ l). rewrite Hl. split; [now constructor|].
    split; [|exact Hl3]. rewrite append_assoc, <- Hl2. exact Hs.
Qed.

Lemma white_lstrip s : white s -> lstrip s = "".
Proof.
  induction 1 as [|w s Hw _ IH]; [reflexivity|].
  destruct Hw as [a Ha|a b Hab|a b c Habc]; simpl.
  - now rewrite Ha.
  - now rewrite (isspace2_lead _ _ Hab), Hab.
  - destruct (isspace3_lead _ _ _ Habc) as [H1 H2]. now rewrite H1, H2, Habc.
Qed.

Lemma lstrip_white s : lstrip s = "" -> white s.
Proof.
  intros H. destruct (lstrip_split s) as (l & Hl & Hs & _).
  rewrite H, append_nil_r in Hs. now subst.
Qed.

Lemma white_app l r : white l -> white r -> white (l ++ r).
Proof.
  induction 1 as [|w s Hw _ IH]; intros Hr; [exact Hr|].
  rewrite append_assoc. constructor; auto.
Qed.

(** A non-empty text of white space ends with a white-space character. *)
Lemma white_last s : white s -> s <> "" -> exists p w, space_char w /\ s = p ++ w.
Proof.
  induction 1 as [|w s Hw Hs IH]; intros Hne; [now elim Hne|].
  destruct s as [|a s].
  - exists "", w. rewrite append_nil_r. now split.
  - destruct IH as (p & w' & Hw' & Heq); [discriminate|].
    exists (w ++ p), w'. split; [exact Hw'|]. now rewrite Heq, append_assoc.
Qed.

(** [rstrip] removes a text of white space and leaves a text that does
    not end with white space. *)
Lemma rstrip_split s :
  exists r,
    white r /\ s = rstrip s ++ r
    /\ forall p w, space_char w -> rstrip s <> p ++ w.
Proof.
  induction s as [|a t IH].
  - exists "". split; [constructor|]. split; [reflexivity|].
    intros p w Hw H. destruct p; destruct Hw; discriminate H.
  - cbn [rstrip]. destruct (lstrip (String a t)) as [|x y] eqn:E.
    + exists (String a t). split; [now apply lstrip_white|]. split; [reflexivity|].
      intros p w Hw H. destruct p; destruct Hw; discriminate H.
    + destruct IH as (r & Hr & Ht & Hno). exists r. split; [exact Hr|].
      split; [simpl; now rewrite <- Ht|].
      intros p w Hw H. destruct p as [|b p].
      * simpl in H.
        assert (Hwhite : white (String a t)).
        { rewrite Ht. change (String a (rstrip t ++ r)) with (String a (rstrip t) ++ r).
          rewrite H. constructor; assumption. }
        apply white_lstrip in Hwhite. congruence.
      * simpl in H. injection H as _ H. exact (Hno _ _ Hw H).
Qed.

(** The text that [strip] returns, told without [strip]: the text is
    white space, the result, white space, and the result neither begins
    nor ends with white space. *)
Lemma strip_spec s :
  exists l r, white l /\ white r /\ s = l ++ strip s ++ r /\ trimmed (strip s).
Proof.
  unfold strip.
  destruct (rstrip_split s) as (r & Hr & Hs & Hend).
  destruct (lstrip_split (rstrip s)) as (l & Hl & Hs' & Hstart).
  exists l, r. split; [exact Hl|]. split; [exact Hr|]. split.
  - rewrite <- append_assoc, <- Hs'. exact Hs.
  - split; [exact Hstart|]. intros p w Hw H.
    apply (Hend (l ++ p) w Hw). rewrite Hs' at 1. now rewrite H, append_assoc.
Qed.

Lemma lstrip_fixed s : (forall w r, space_char w -> s <> w ++ r) -> lstrip s = s.
Proof.
  intros Hno. destruct (lstrip_cases s) as [[Hs _]|(w & r & Hw & Hs & _)]; [exact Hs|].
  now elim (Hno w r Hw).
Qed.

Lemma rstrip_fixed s : (forall p w, space_char w -> s <> p ++ w) -> rstrip s = s.
Proof.
  induction s as [|a t IH]; intros Hno; [reflexivity|].
  cbn [rstrip]. destruct (lstrip (String a t)) as [|x y] eqn:E.
  - apply lstrip_white in E. destruct (white_last _ E) as (p & w & Hw & Heq);
      [discriminate|]. now elim (Hno p w Hw).
  - rewrite IH; [reflexivity|]. intros p w Hw H. apply (Hno (String a p) w Hw).
    simpl. now rewrite H.
Qed.

(** A trimmed text is what [strip] leaves unchanged. *)
Lemma strip_fixed s : trimmed s -> strip s = s.
Proof.
  intros [Hstart Hend]. unfold strip. rewrite (rstrip_fixed _ Hend).
  now apply lstrip_fixed.
Qed.

Lemma strip_trimmed s : trimmed (strip s).
Proof. destruct (strip_spec s) as (l & r & _ & _ & _ & H). exact H. Qed.

Lemma strip_idempotent s : strip (strip s) = strip s.
Proof. apply strip_fixed, strip_trimmed. Qed.

(** White space only, and nothing else, strips to the empty text. *)
Lemma white_strip s : white s <-> strip s = "".
Proof.
  split.
  - intros H. unfold strip. destruct s as [|a t]; [reflexivity|].
    cbn [rstrip]. now rewrite (white_lstrip _ H).
  - intros H. destruct (strip_spec s) as (l & r & Hl & Hr & Hs & _).
    rewrite H in Hs. simpl in Hs. subst s. now apply white_app.
Qed.

Lemma nonempty_neq s : nonempty s = true <-> s <> "".
Proof. destruct s; simpl; split; congruence. Qed.

Lemma has_char_app c a b : has_char c (a ++ b) = has_char c a || has_char c b.
Proof.
  induction a as [|x a IH]; simpl; [reflexivity|]. now rewrite IH, orb_assoc.
Qed.

(** [strip] adds no character. *)
Lemma has_char_strip c s : has_char c (strip s) = true -> has_char c s = true.
Proof.
  intros H. destruct (strip_spec s) as (l & r & _ & _ & Hs & _).
  rewrite Hs, !has_char_app, H. now rewrite orb_true_r.
Qed.

End StripFacts.

(* ================================================================== *)
(** * Facts about dictionaries *)
(* ================================================================== *)

Section DictFacts.
Context {V : Type}.
Implicit Types (d : pydict V) (k : string) (v : V).

Lemma dict_get_set_same k v d : dict_get k (dict_set k v d) = Some v.
Proof.
  induction d as [|[k' v'] d IH]; simpl.
  - now rewrite String.eqb_refl.
  - destruct (String.eqb k k') eqn:E; simpl.
    + now rewrite String.eqb_refl.
    + now rewrite E.
Qed.

Lemma dict_get_set_other k k' v d :
  k <> k' -> dict_get k (dict_set k' v d) = dict_get k d.
Proof.
  intros Hne. induction d as [|[k0 v0] d IH]; simpl.
  - destruct (String.eqb k k') eqn:E; [apply String.eqb_eq in E; contradiction | reflexivity].
  - destruct (String.eqb k' k0) eqn:E0; simpl.
    + apply String.eqb_eq in E0; subst k0.
      destruct (String.eqb k k') eqn:E; [apply String.eqb_eq in E; contradiction | reflexivity].
    + destruct (String.eqb k k0); [reflexivity | exact IH].
Qed.

Lemma dict_get_pop_same k d : dict_get k (dict_pop k d) = None.
Proof.
  induction d as [|[k' v'] d IH]; simpl; [reflexivity|].
  destruct (String.eqb k k') eqn:E; simpl; [exact IH | now rewrite E].
Qed.

Lemma dict_get_pop_other k k' d :
  k <> k' -> dict_get k (dict_pop k' d) = dict_get k d.
Proof.
  intros Hne. induction d as [|[k0 v0] d IH]; simpl; [reflexivity|].
  destruct (String.eqb k' k0) eqn:E0; simpl.
  - apply String.eqb_eq in E0; subst k0.
    destruct (String.eqb k k') eqn:E; [apply String.eqb_eq in E; contradiction | exact IH].
  - destruct (String.eqb k k0); [reflexivity | exact IH].
Qed.

Lemma dict_get_app_none k d d' :
  dict_get k d = None -> dict_get k (d ++ d')%list = dict_get k d'.
Proof.
  induction d as [|[k0 v0] d IH]; simpl; [reflexivity|].
  destruct (String.eqb k k0); [discriminate | exact IH].
Qed.

Lemma dict_get_app_some k v d d' :
  dict_get k d = Some v -> dict_get k (d ++ d')%list = Some v.
Proof.
  induction d as [|[k0 v0] d IH]; simpl; [discriminate|].
  destruct (String.eqb k k0); [trivial | exact IH].
Qed.

Lemma dict_mem_keys k d : dict_mem k d = true <-> In k (dict_keys d).
Proof.
  unfold dict_mem. induction d as [|[k0 v0] d IH]; simpl.
  - split; [discriminate | tauto].
  - destruct (String.eqb k k0) eqn:E.
    + apply String.eqb_eq in E. subst. split; auto.
    + rewrite IH. split; [auto | intros [H|H]; [|exact H]].
      subst. rewrite String.eqb_refl in E. discriminate.
Qed.

Lemma in_keys_set k v d x :
  In x (dict_keys (dict_set k v d)) <-> x = k \/ In x (dict_keys d).
Proof.
  induction d as [|[k0 v0] d IH]; simpl.
  - split; [intros [H|[]]; auto | intros [H|[]]; auto].
  - destruct (String.eqb k k0) eqn:E; simpl.
    + apply String.eqb_eq in E. subst.
      split; [intros [H|H]; auto | intros [H|[H|H]]; auto].
    + rewrite IH. tauto.
Qed.

Lemma nodup_keys_set k v d :
  NoDup (dict_keys d) -> NoDup (dict_keys (dict_set k v d)).
Proof.
  induction d as [|[k0 v0] d IH]; simpl; intros Hnd.
  - constructor; [tauto | constructor].
  - inversion Hnd as [|? ? Hnot Hnd']; subst.
    destruct (String.eqb k k0) eqn:E; simpl.
    + apply String.eqb_eq in E. subst. now constructor.
    + constructor; [|now apply IH].
      rewrite in_keys_set. intros [->|H]; [|contradiction].
      rewrite String.eqb_refl in E. discriminate.
Qed.

Lemma keys_pop k d :
  dict_keys (dict_pop k d) = filter (fun x => negb (String.eqb k x)) (dict_keys d).
Proof.
  unfold dict_pop, dict_keys. induction d as [|[k0 v0] d IH]; simpl; [reflexivity|].
  destruct (String.eqb k k0); simpl; now rewrite IH.
Qed.

Lemma nodup_keys_pop k d :
  NoDup (dict_keys d) -> NoDup (dict_keys (dict_pop k d)).
Proof. rewrite keys_pop. apply NoDup_filter. Qed.

Lemma not_in_keys_pop k d : ~ In k (dict_keys (dict_pop k d)).
Proof.
  rewrite keys_pop, filter_In. intros [_ H]. now rewrite String.eqb_refl in H.
Qed.

Lemma in_keys_pop k d x : In x (dict_keys (dict_pop k d)) -> In x (dict_keys d).
Proof. rewrite keys_pop, filter_In. tauto. Qed.

Lemma dict_get_none_keys k d : dict_get k d = None <-> ~ In k (dict_keys d).
Proof.
  rewrite <- dict_mem_keys. unfold dict_mem.
  destruct (dict_get k d); split; intros H;
    try discriminate; try reflexivity; try (now elim H).
Qed.

End DictFacts.

(* ================================================================== *)
(** * Facts about [generate_questions] *)
(* ================================================================== *)

Section ServerFacts.

Import Server.

Variable groq_client : option client.
Variable json_loads : string -> loads_outcome.
Variable repr_str : string -> string.

Local Abbreviation generate := (generate_questions groq_client json_loads repr_str).
Local Abbreviation responded techs := (answered groq_client json_loads (clean techs)).
Local Abbreviation check_tech := (Server.check_tech repr_str).
Local Abbreviation check_all := (Server.check_all repr_str).
Local Abbreviation collect_questions := (Server.collect_questions repr_str).
Local Abbreviation question_of_item := (Server.question_of_item repr_str).
Local Abbreviation fewer_than_3 := (Server.fewer_than_3 repr_str).
Local Abbreviation missing_key := (Server.missing_key repr_str).
Local Abbreviation renders_as := (Server.renders_as repr_str).

(** The list comprehension of the function yields the technologies that
    the request asks for, and nothing else does. *)
Lemma clean_step t ts :
  clean (t :: ts) = if nonempty (strip t) then strip t :: clean ts else clean ts.
Proof.
  unfold clean. simpl. destruct (nonempty (strip t)) eqn:E.
  - destruct t; [discriminate E|]. reflexivity.
  - now rewrite andb_false_r.
Qed.

Lemma requests_clean techs names : requests techs names -> clean techs = names.
Proof.
  induction 1 as [|t ts names Hw _ IH|t ts names Hw _ IH]; [reflexivity| |];
    rewrite clean_step.
  - apply white_strip in Hw. now rewrite Hw.
  - destruct (nonempty (strip t)) eqn:E; [now rewrite IH|].
    elim Hw. apply white_strip. destruct (strip t); [reflexivity | discriminate E].
Qed.

Lemma clean_requests techs : requests techs (clean techs).
Proof.
  induction techs as [|t ts IH]; [constructor|]. rewrite clean_step.
  destruct (nonempty (strip t)) eqn:E.
  - apply requests_keep; [|exact IH]. intros Hw. apply white_strip in Hw.
    rewrite Hw in E. discriminate E.
  - apply requests_skip; [|exact IH]. apply white_strip.
    destruct (strip t); [reflexivity | discriminate E].
Qed.

(** Once the upstream call has answered with parseable JSON, the result
    is decided by the validation loop alone. *)
Lemma generate_run techs raw parsed :
  responded techs raw parsed ->
  clean techs <> [] ->
  generate techs =
    match check_all parsed (clean techs) [] with
    | inl e => inl (parse_failure e raw)
    | inr out => inr out
    end.
Proof.
  intros (create & Hc & Hr & Hj) Hne.
  unfold generate_questions.
  destruct techs as [|t ts]; [now elim Hne|].
  destruct (clean (t :: ts)) as [|c cs] eqn:Ec; [now elim Hne|].
  unfold _call_groq_for_questions. rewrite Hc, Hr, Hj. reflexivity.
Qed.

(** The record that the inner loop makes of a counted element. *)
Lemma question_of_item_renders item :
  counted item = true ->
  exists q, question_of_item item = Some q /\ renders_as item q.
Proof.
  destruct item as [| | | | | |d]; try discriminate. simpl. unfold dict_mem.
  destruct (dict_get "question" d) as [v|] eqn:Ev; [|discriminate]. intros _.
  eexists. split; [reflexivity|]. exists d, v. split; [reflexivity|].
  split; [exact Ev|]. split; [reflexivity|]. simpl. unfold get_or_none.
  destruct (dict_get "ideal_answer_focus" d) as [[]|]; reflexivity.
Qed.

Lemma question_of_item_discards item :
  counted item = false -> question_of_item item = None.
Proof.
  destruct item; try reflexivity. simpl. now intros ->.
Qed.

(** The inner loop keeps the counted elements, in their order, each as
    its record. *)
Lemma collect_questions_renders items :
  Forall2 renders_as (filter counted items) (collect_questions items).
Proof.
  induction items as [|item items IH]; [constructor|].
  cbn [filter Server.collect_questions]. destruct (counted item) eqn:Ec.
  - destruct (question_of_item_renders item Ec) as (q & -> & Hq). now constructor.
  - now rewrite (question_of_item_discards item Ec).
Qed.

Lemma collect_questions_counted items :
  length (collect_questions items) = length (filter counted items).
Proof. symmetry. exact (Forall2_length (collect_questions_renders items)). Qed.

Lemma forall2_firstn {A B : Type} (R : A -> B -> Prop) n : forall l l',
  Forall2 R l l' -> Forall2 R (firstn n l) (firstn n l').
Proof.
  induction n as [|n IH]; intros l l' H; [constructor|].
  destruct H; [constructor|]. simpl. constructor; auto.
Qed.

(** The iteration for a technology whose entry is a list: it fails on
    fewer than 3 counted elements, and otherwise stores the records of
    the first 5. *)
Lemma check_tech_list d tech items :
  dict_get tech d = Some (JList items) ->
  if (length (filter counted items) <? 3)%nat
  then check_tech (JDict d) tech = inl (fewer_than_3 tech)
  else exists qs,
         check_tech (JDict d) tech = inr qs
         /\ Forall2 renders_as (firstn 5 (filter counted items)) qs.
Proof.
  intros H. unfold Server.check_tech, py_in, py_getitem, dict_mem. rewrite H.
  cbv zeta. rewrite collect_questions_counted.
  destruct (length (filter counted items) <? 3)%nat; [reflexivity|].
  eexists. split; [reflexivity|]. apply forall2_firstn, collect_questions_renders.
Qed.

Lemma check_tech_absent d tech :
  dict_get tech d = None -> check_tech (JDict d) tech = inl (missing_key tech).
Proof.
  intros H. unfold Server.check_tech, py_in, dict_mem. now rewrite H.
Qed.

Lemma well_supplied_check d tech :
  well_supplied d tech ->
  exists items qs,
    dict_get tech d = Some (JList items)
    /\ check_tech (JDict d) tech = inr qs
    /\ Forall2 renders_as (firstn 5 (filter counted items)) qs.
Proof.
  intros (items & Hd & Hlen). pose proof (check_tech_list _ _ _ Hd) as H.
  destruct (Nat.ltb_spec (length (filter counted items)) 3); [lia|].
  destruct H as (qs & Hq & Hr). now exists items, qs.
Qed.

(** The loop stops at the first technology that raises. *)
Lemma check_all_first_failure d before tech after e :
  Forall (well_supplied d) before ->
  check_tech (JDict d) tech = inl e ->
  forall out, check_all (JDict d) (before ++ tech :: after) out = inl e.
Proof.
  intros Hok He. induction Hok as [|t ts Ht _ IH]; intros out; simpl.
  - now rewrite He.
  - destruct (well_supplied_check _ _ Ht) as (items & qs & _ & -> & _). apply IH.
Qed.

(** Any technology that raises makes the loop raise. *)
Lemma check_all_some_failure parsed techs tech e :
  In tech techs ->
  check_tech parsed tech = inl e ->
  forall out, exists e', check_all parsed techs out = inl e'.
Proof.
  intros Hin He. induction techs as [|t ts IH]; intros out; [contradiction|].
  simpl. destruct (check_tech parsed t) as [e0|qs] eqn:Et; [eauto|].
  destruct Hin as [->|Hin]; [congruence | now apply IH].
Qed.

(** When every technology is well supplied, the loop returns a mapping
    that holds, for each of them, the entry its iteration computed. *)
Lemma check_all_success d techs :
  Forall (well_supplied d) techs ->
  forall out0, exists out,
    check_all (JDict d) techs out0 = inr out
    /\ (forall t qs, In t techs -> check_tech (JDict d) t = inr qs ->
                     dict_get t out = Some qs)
    /\ (forall t, ~ In t techs -> dict_get t out = dict_get t out0).
Proof.
  induction 1 as [|t ts Hw _ IH]; intros out0; simpl.
  - exists out0. split; [reflexivity|]. split; [intros; contradiction | reflexivity].
  - destruct (well_supplied_check _ _ Hw) as (items & qs & _ & Ht & _).
    rewrite Ht. destruct (IH (dict_set t qs out0)) as (out & Hrun & Hin & Hout).
    exists out. split; [exact Hrun|]. split.
    + intros t' qs' [->|Hin'] Ht'.
      * destruct (in_dec string_dec t' ts) as [Hi|Hni]; [now apply Hin|].
        rewrite (Hout _ Hni), dict_get_set_same. congruence.
      * now apply Hin.
    + intros t' Hn. rewrite Hout by tauto.
      apply dict_get_set_other. intros ->. apply Hn. now left.
Qed.

(** A technology whose iteration raises makes the call raise; the call
    raises that very failure, wrapped by the handler, when the
    technologies requested before it are well supplied. *)
Lemma offender_raises techs raw d before tech after e :
  responded techs raw (JDict d) ->
  clean techs = (before ++ tech :: after)%list ->
  check_tech (JDict d) tech = inl e ->
  (exists e', generate techs = inl e')
  /\ (Forall (well_supplied d) before -> generate techs = inl (parse_failure e raw)).
Proof.
  intros Hr Hc Ht.
  assert (Hne : clean techs <> []) by (rewrite Hc; now destruct before).
  rewrite (generate_run _ _ _ Hr Hne), Hc. split.
  - destruct (check_all_some_failure (JDict d) (before ++ tech :: after) tech _
                (in_elt tech before after) Ht []) as [e' ->].
    eauto.
  - intros Hok. now rewrite (check_all_first_failure _ _ _ after _ Hok Ht).
Qed.

(** The entry of a well-supplied technology in the mapping returned. *)
Lemma supplied_entry techs raw d tech items :
  responded techs raw (JDict d) ->
  Forall (well_supplied d) (clean techs) ->
  In tech (clean techs) ->
  dict_get tech d = Some (JList items) ->
  exists out qs,
    generate techs = inr out
    /\ dict_get tech out = Some qs
    /\ Forall2 renders_as (firstn 5 (filter counted items)) qs.
Proof.
  intros Hr Hok Hin Hd.
  assert (Hne : clean techs <> []) by (intros E; rewrite E in Hin; contradiction).
  rewrite (generate_run _ _ _ Hr Hne).
  destruct (check_all_success _ _ Hok []) as (out & -> & Hget & _).
  rewrite Forall_forall in Hok.
  destruct (well_supplied_check _ _ (Hok _ Hin)) as (items' & qs & Hd' & Ht & Hren).
  assert (items' = items) by congruence. subst items'.
  exists out, qs. split; [reflexivity|]. split; [now apply Hget | exact Hren].
Qed.

(** ** The claims about [generate_questions] *)

(** C2 (as amended). When the entry of a technology that the request
    asks for (an item that is not white space only, stripped) is a list
    with fewer than 3 elements that count as questions (mappings with a
    key "question"), question generation raises and returns no mapping
    at all; the exception is the "fewer than 3 questions" failure naming
    that technology, wrapped with the raw output, whenever the
    technologies requested before it are well supplied (the loop raises
    at the first offender in request order). *)
Theorem undersupply_raises techs raw d before tech after items :
  requests techs (before ++ tech :: after) ->
  answered groq_client json_loads (before ++ tech :: after) raw (JDict d) ->
  dict_get tech d = Some (JList items) ->
  (length (filter counted items) < 3)%nat ->
  (exists e, generate techs = inl e)
  /\ (Forall (well_supplied d) before ->
      generate techs
      = inl (Raise RuntimeError
               ("Failed to parse Groq output: Groq returned fewer than 3 questions for "
                  ++ repr_str tech ++ nl ++ nl ++ "Raw output:" ++ nl ++ nl ++ raw))).
Proof.
  intros Hreq Hans Hd Hlen.
  pose proof (requests_clean _ _ Hreq) as Hc.
  assert (Hr : responded techs raw (JDict d)) by (rewrite Hc; exact Hans).
  assert (Ht : check_tech (JDict d) tech = inl (fewer_than_3 tech)).
  { pose proof (check_tech_list _ _ _ Hd) as H.
    apply Nat.ltb_lt in Hlen. now rewrite Hlen in H. }
  destruct (offender_raises techs raw d before tech after _ Hr Hc Ht) as [Hfail Hfirst].
  split; [exact Hfail|]. intros Hok. rewrite (Hfirst Hok).
  unfold parse_failure, Server.fewer_than_3. simpl. now rewrite ?append_assoc.
Qed.

(** C3 (as amended). When a technology that the request asks for (an
    item that is not white space only, stripped) is absent from the
    parsed response, question generation raises instead of returning;
    the exception is the "missing expected key" failure naming that
    technology, wrapped with the raw output, whenever the technologies
    requested before it are well supplied, and its message tells it
    apart from the invalid-JSON failure and from the failures of the
    upstream call that the module raises itself. *)
Theorem missing_technology_raises techs raw d before tech after :
  requests techs (before ++ tech :: after) ->
  answered groq_client json_loads (before ++ tech :: after) raw (JDict d) ->
  dict_get tech d = None ->
  (exists e, generate techs = inl e)
  /\ (Forall (well_supplied d) before ->
      generate techs
      = inl (Raise RuntimeError
               ("Failed to parse Groq output: Groq JSON missing expected key for tech: "
                  ++ repr_str tech ++ nl ++ nl ++ "Raw output:" ++ nl ++ nl ++ raw)))
  /\ (forall raw' m,
        Raise RuntimeError
          ("Failed to parse Groq output: Groq JSON missing expected key for tech: "
             ++ repr_str tech ++ nl ++ nl ++ "Raw output:" ++ nl ++ nl ++ raw)
        <> Raise RuntimeError ("Groq did not return valid JSON. Raw output:" ++ nl ++ nl ++ raw')
        /\ Raise RuntimeError
             ("Failed to parse Groq output: Groq JSON missing expected key for tech: "
                ++ repr_str tech ++ nl ++ nl ++ "Raw output:" ++ nl ++ nl ++ raw)
           <> Raise RuntimeError
                "Groq client not configured. Install `groq` and set GROQ_API_KEY environment variable."
        /\ Raise RuntimeError
             ("Failed to parse Groq output: Groq JSON missing expected key for tech: "
                ++ repr_str tech ++ nl ++ nl ++ "Raw output:" ++ nl ++ nl ++ raw)
           <> Raise RuntimeError ("Groq response parsing failed: " ++ m)).
Proof.
  intros Hreq Hans Hd.
  pose proof (requests_clean _ _ Hreq) as Hc.
  assert (Hr : responded techs raw (JDict d)) by (rewrite Hc; exact Hans).
  pose proof (check_tech_absent _ _ Hd) as Ht.
  destruct (offender_raises techs raw d before tech after _ Hr Hc Ht) as [Hfail Hfirst].
  split; [exact Hfail|]. split.
  - intros Hok. rewrite (Hfirst Hok).
    unfold parse_failure, Server.missing_key. simpl. now rewrite ?append_assoc.
  - intros raw' m. repeat split; intro H; discriminate H.
Qed.

(** C4. When every requested technology is well supplied and the entry
    of one of them holds more than 5 elements that count as questions,
    the returned mapping has, for that technology, exactly 5 records:
    those of the first 5 counted elements, in their original order, each
    with the stripped texts of its element. *)
Theorem oversupply_truncated techs names raw d tech items :
  requests techs names ->
  answered groq_client json_loads names raw (JDict d) ->
  Forall (well_supplied d) names ->
  In tech names ->
  dict_get tech d = Some (JList items) ->
  (5 < length (filter counted items))%nat ->
  exists out qs,
    generate techs = inr out
    /\ dict_get tech out = Some qs
    /\ length qs = 5%nat
    /\ Forall2 renders_as (firstn 5 (filter counted items)) qs.
Proof.
  intros Hreq Hr Hok Hin Hd Hlen.
  apply requests_clean in Hreq. subst names.
  destruct (supplied_entry techs raw d tech items Hr Hok Hin Hd)
    as (out & qs & Hrun & Hget & Hren).
  exists out, qs. split; [exact Hrun|]. split; [exact Hget|]. split; [|exact Hren].
  rewrite <- (Forall2_length Hren), length_firstn. lia.
Qed.

(** C10. Only the elements of an entry that are mappings with a key
    "question" are counted: a plain string and a mapping without that
    key (whatever else it holds, such as "q" or "prompt") are not. So an
    entry with fewer than 3 counted elements fails as having fewer than
    3 questions however many other elements it mixes in, in particular
    when all its elements are plain strings; and the records of an entry
    that passes are those of its counted elements alone. *)
Theorem plain_strings_discarded techs raw d before tech after items :
  requests techs (before ++ tech :: after) ->
  answered groq_client json_loads (before ++ tech :: after) raw (JDict d) ->
  dict_get tech d = Some (JList items) ->
  Forall (well_supplied d) before ->
  (forall item, discarded item -> counted item = false)
  /\ ((length (filter counted items) < 3)%nat ->
      generate techs
      = inl (Raise RuntimeError
               ("Failed to parse Groq output: Groq returned fewer than 3 questions for "
                  ++ repr_str tech ++ nl ++ nl ++ "Raw output:" ++ nl ++ nl ++ raw)))
  /\ (Forall discarded items ->
      filter counted items = []
      /\ generate techs
         = inl (Raise RuntimeError
                  ("Failed to parse Groq output: Groq returned fewer than 3 questions for "
                     ++ repr_str tech ++ nl ++ nl ++ "Raw output:" ++ nl ++ nl ++ raw)))
  /\ ((3 <= length (filter counted items))%nat ->
      Forall (well_supplied d) after ->
      exists out qs,
        generate techs = inr out
        /\ dict_get tech out = Some qs
        /\ Forall2 renders_as (firstn 5 (filter counted items)) qs).
Proof.
  intros Hreq Hans Hd Hok.
  pose proof (requests_clean _ _ Hreq) as Hc.
  assert (Hr : responded techs raw (JDict d)) by (rewrite Hc; exact Hans).
  assert (Hdis : forall item, discarded item -> counted item = false).
  { intros item [[s ->]|(d0 & -> & H)]; [reflexivity | exact H]. }
  assert (Hshort : (length (filter counted items) < 3)%nat ->
            generate techs
            = inl (Raise RuntimeError
                     ("Failed to parse Groq output: Groq returned fewer than 3 questions for "
                        ++ repr_str tech ++ nl ++ nl ++ "Raw output:" ++ nl ++ nl ++ raw))).
  { intros Hlen.
    assert (Ht : check_tech (JDict d) tech = inl (fewer_than_3 tech)).
    { pose proof (check_tech_list _ _ _ Hd) as H.
      apply Nat.ltb_lt in Hlen. now rewrite Hlen in H. }
    rewrite (proj2 (offender_raises techs raw d before tech after _ Hr Hc Ht) Hok).
    unfold parse_failure, Server.fewer_than_3. simpl. now rewrite ?append_assoc. }
  split; [exact Hdis|]. split; [exact Hshort|]. split.
  - intros Hall.
    assert (Hnil : filter counted items = []).
    { clear - Hall Hdis. induction Hall as [|item rest Hi _ IH]; [reflexivity|].
      simpl. now rewrite (Hdis _ Hi). }
    split; [exact Hnil|]. apply Hshort. rewrite Hnil. simpl. lia.
  - intros Hlen Hafter.
    apply (supplied_entry techs raw d tech items Hr); [|rewrite Hc; apply in_elt|exact Hd].
    rewrite Hc. apply Forall_app. split; [exact Hok|].
    constructor; [|exact Hafter]. now exists items.
Qed.

End ServerFacts.
(* ================================================================== *)
(** * Worked examples for [generate_questions] *)
(* ================================================================== *)

Section ServerExamples.

Import Server Examples.

Lemma upstream_answers names parsed :
  answered (upstream parsed) (loads_of parsed) names (dumps parsed) parsed.
Proof.
  eexists. split; [reflexivity|]. split; [reflexivity|].
  unfold loads_of. now rewrite String.eqb_refl.
Qed.

(** Python is requested first, with a no-break space after its name,
    and has a single question: the failure names Python. *)
Lemma undersupply_raises_witness :
  generate_questions (upstream (JDict one_each)) (loads_of (JDict one_each)) quoted
    padded_python_docker
  = inl (Raise RuntimeError
           ("Failed to parse Groq output: Groq returned fewer than 3 questions for "
              ++ quoted "Python" ++ nl ++ nl ++ "Raw output:" ++ nl ++ nl
              ++ dumps (JDict one_each))).
Proof.
  apply (proj2 (undersupply_raises _ _ quoted padded_python_docker (dumps (JDict one_each))
                  one_each [] "Python" ["Docker"] python_entry
                  (clean_requests padded_python_docker) (upstream_answers _ _) eq_refl
                  ltac:(vm_compute; lia))).
  constructor.
Defined.

(** C2 as stated fails: Docker is requested and its entry is a list with
    a single question, yet the failure raised names Python, which was
    requested before it and is undersupplied too. *)
Lemma undersupply_names_first_offender :
  requests python_docker ["Python"; "Docker"]
  /\ answered (upstream (JDict one_each)) (loads_of (JDict one_each))
       ["Python"; "Docker"] (dumps (JDict one_each)) (JDict one_each)
  /\ dict_get "Docker" one_each = Some (JList docker_entry)
  /\ (length (filter counted docker_entry) < 3)%nat
  /\ generate_questions (upstream (JDict one_each)) (loads_of (JDict one_each)) quoted
       python_docker
     = inl (Raise RuntimeError
              ("Failed to parse Groq output: Groq returned fewer than 3 questions for "
                 ++ quoted "Python" ++ nl ++ nl ++ "Raw output:" ++ nl ++ nl
                 ++ dumps (JDict one_each)))
  /\ generate_questions (upstream (JDict one_each)) (loads_of (JDict one_each)) quoted
       python_docker
     <> inl (Raise RuntimeError
               ("Failed to parse Groq output: Groq returned fewer than 3 questions for "
                  ++ quoted "Docker" ++ nl ++ nl ++ "Raw output:" ++ nl ++ nl
                  ++ dumps (JDict one_each))).
Proof.
  split; [exact (clean_requests python_docker)|].
  split; [apply upstream_answers|].
  split; [reflexivity|].
  split; [vm_compute; lia|].
  split; [vm_compute; reflexivity|].
  vm_compute. intro H. discriminate H.
Qed.

(** Python is requested and the response only has an entry for Go. *)
Lemma missing_technology_raises_witness :
  generate_questions (upstream (JDict six_for_go)) (loads_of (JDict six_for_go)) quoted
    ["Python"]
  = inl (Raise RuntimeError
           ("Failed to parse Groq output: Groq JSON missing expected key for tech: "
              ++ quoted "Python" ++ nl ++ nl ++ "Raw output:" ++ nl ++ nl
              ++ dumps (JDict six_for_go))).
Proof.
  apply (proj1 (proj2 (missing_technology_raises _ _ quoted ["Python"]
                         (dumps (JDict six_for_go)) six_for_go [] "Python" []
                         (clean_requests ["Python"]) (upstream_answers _ _) eq_refl))).
  constructor.
Defined.

(** C3 as stated fails: Docker is absent from the response, yet the
    failure raised is the undersupply of Python, requested before it. *)
Lemma missing_technology_not_named :
  requests python_docker ["Python"; "Docker"]
  /\ answered (upstream (JDict python_only)) (loads_of (JDict python_only))
       ["Python"; "Docker"] (dumps (JDict python_only)) (JDict python_only)
  /\ dict_get "Docker" python_only = None
  /\ generate_questions (upstream (JDict python_only)) (loads_of (JDict python_only))
       quoted python_docker
     = inl (Raise RuntimeError
              ("Failed to parse Groq output: Groq returned fewer than 3 questions for "
                 ++ quoted "Python" ++ nl ++ nl ++ "Raw output:" ++ nl ++ nl
                 ++ dumps (JDict python_only)))
  /\ generate_questions (upstream (JDict python_only)) (loads_of (JDict python_only))
       quoted python_docker
     <> inl (Raise RuntimeError
               ("Failed to parse Groq output: Groq JSON missing expected key for tech: "
                  ++ quoted "Docker" ++ nl ++ nl ++ "Raw output:" ++ nl ++ nl
                  ++ dumps (JDict python_only))).
Proof.
  split; [exact (clean_requests python_docker)|].
  split; [apply upstream_answers|].
  split; [reflexivity|].
  split; [vm_compute; reflexivity|].
  vm_compute. intro H. discriminate H.
Qed.

(** Six questions for Go: the records of the first five are returned,
    in order. *)
Lemma oversupply_truncated_witness :
  exists out qs,
    generate_questions (upstream (JDict six_for_go)) (loads_of (JDict six_for_go)) quoted
      ["Go"] = inr out
    /\ dict_get "Go" out = Some qs
    /\ length qs = 5%nat
    /\ Forall2 (renders_as quoted)
         (firstn 5 (filter counted (map numbered [1; 2; 3; 4; 5; 6]%Z))) qs.
Proof.
  apply (oversupply_truncated _ _ quoted ["Go"] ["Go"] (dumps (JDict six_for_go)) six_for_go
           "Go" (map numbered [1; 2; 3; 4; 5; 6]%Z) (clean_requests ["Go"])
           (upstream_answers _ _)).
  - apply Forall_cons; [|apply Forall_nil].
    exists (map numbered [1; 2; 3; 4; 5; 6]%Z). split; [reflexivity|]. vm_compute. lia.
  - now left.
  - reflexivity.
  - vm_compute. lia.
Defined.

(** The mapping returned for the six questions. *)
Lemma six_for_go_truncated :
  generate_questions (upstream (JDict six_for_go)) (loads_of (JDict six_for_go)) quoted
    ["Go"]
  = inr [("Go", [QuestionItem "Q1" "focus"; QuestionItem "Q2" "focus";
                 QuestionItem "Q3" "focus"; QuestionItem "Q4" "focus";
                 QuestionItem "Q5" "focus"])].
Proof. vm_compute. reflexivity. Qed.

(** Three plain strings for Python are all discarded; five elements of
    which one is counted fail alike. *)
Lemma plain_strings_discarded_witness :
  (filter counted [JStr "Q1"; JStr "Q2"; JStr "Q3"] = []
   /\ generate_questions (upstream (JDict strings_then_one))
        (loads_of (JDict strings_then_one)) quoted python_docker
      = inl (Raise RuntimeError
               ("Failed to parse Groq output: Groq returned fewer than 3 questions for "
                  ++ quoted "Python" ++ nl ++ nl ++ "Raw output:" ++ nl ++ nl
                  ++ dumps (JDict strings_then_one))))
  /\ generate_questions (upstream (JDict mixed_map)) (loads_of (JDict mixed_map)) quoted
       ["Python"]
     = inl (Raise RuntimeError
              ("Failed to parse Groq output: Groq returned fewer than 3 questions for "
                 ++ quoted "Python" ++ nl ++ nl ++ "Raw output:" ++ nl ++ nl
                 ++ dumps (JDict mixed_map))).
Proof.
  split.
  - apply (proj1 (proj2 (proj2
             (plain_strings_discarded (upstream (JDict strings_then_one))
                (loads_of (JDict strings_then_one)) quoted python_docker
                (dumps (JDict strings_then_one)) strings_then_one [] "Python" ["Docker"]
                [JStr "Q1"; JStr "Q2"; JStr "Q3"] (clean_requests python_docker)
                (upstream_answers _ _) eq_refl (Forall_nil _))))).
    repeat (apply Forall_cons; [left; eexists; reflexivity|]). apply Forall_nil.
  - apply (proj1 (proj2
             (plain_strings_discarded (upstream (JDict mixed_map))
                (loads_of (JDict mixed_map)) quoted ["Python"]
                (dumps (JDict mixed_map)) mixed_map [] "Python" []
                mixed_entry (clean_requests ["Python"]) (upstream_answers _ _) eq_refl
                (Forall_nil _)))).
    vm_compute. lia.
Defined.

End ServerExamples.
(* ================================================================== *)
(** * Facts about [normalize_q_map] *)
(* ================================================================== *)

Section AppFacts.

Import Server App.

Variable repr_str : string -> string.

Local Abbreviation py_str := (Py.py_str repr_str).
Local Abbreviation normalize_dict := (App.normalize_dict repr_str).
Local Abbreviation normalize_element := (App.normalize_element repr_str).
Local Abbreviation normalize_elements := (App.normalize_elements repr_str).
Local Abbreviation normalize_entry := (App.normalize_entry repr_str).
Local Abbreviation normalize_loop := (App.normalize_loop repr_str).
Local Abbreviation normalize_q_map := (App.normalize_q_map repr_str).
Local Abbreviation selects_question := (App.selects_question repr_str).
Local Abbreviation focus_text := (App.focus_text repr_str).

Lemma question_lookup_first_truthy it :
  question_lookup it =
    match first_truthy question_keys it with Some v => v | None => JStr "" end.
Proof.
  unfold question_lookup, question_keys, py_or; simpl.
  destruct (truthy (get_or_none "question" it)) eqn:E1;
    [repeat (simpl; rewrite ?E1); reflexivity|].
  destruct (truthy (get_or_none "q" it)) eqn:E2;
    [repeat (simpl; rewrite ?E2); reflexivity|].
  destruct (truthy (get_or_none "prompt" it)) eqn:E3;
    [repeat (simpl; rewrite ?E3); reflexivity|].
  reflexivity.
Qed.

Lemma focus_lookup_first_truthy it :
  focus_lookup it =
    match first_truthy focus_keys it with Some v => v | None => JStr "" end.
Proof.
  unfold focus_lookup, focus_keys, py_or; simpl.
  destruct (truthy (get_or_none "ideal_answer_focus" it)) eqn:E1;
    [repeat (simpl; rewrite ?E1); reflexivity|].
  destruct (truthy (get_or_none "focus" it)) eqn:E2;
    [repeat (simpl; rewrite ?E2); reflexivity|].
  reflexivity.
Qed.

Lemma first_truthy_truthy keys it v :
  first_truthy keys it = Some v -> truthy v = true.
Proof.
  induction keys as [|k ks IH]; simpl; [discriminate|].
  destruct (truthy (get_or_none k it)) eqn:E; [|exact IH].
  intros [= <-]. exact E.
Qed.

(** What the generator expression of the fallback yields: the first
    string among the values, the default when there is none. *)
Lemma first_str_value_spec values default :
  (exists before s after,
      values = (before ++ JStr s :: after)%list
      /\ Forall (fun v => is_str v = false) before
      /\ first_str_value values default = s)
  \/ (Forall (fun v => is_str v = false) values
      /\ first_str_value values default = default).
Proof.
  induction values as [|v values IH].
  - right. split; [constructor | reflexivity].
  - destruct (is_str v) eqn:Ev.
    + destruct v; try discriminate. left. exists [], s, values.
      split; [reflexivity|]. split; [constructor | reflexivity].
    + assert (Hstep : first_str_value (v :: values) default
                      = first_str_value values default) by (now destruct v).
      rewrite Hstep. destruct IH as [(before & s & after & -> & Hb & Hs)|[Hall Hs]].
      * left. exists (v :: before), s, after. split; [reflexivity|].
        split; [now constructor | exact Hs].
      * right. split; [now constructor | exact Hs].
Qed.

(** The mapping branch, when the selected question is a string (or no
    key selects one). *)
Lemma normalize_dict_text it :
  question_is_text it ->
  exists q,
    selects_question it q
    /\ normalize_dict it = inr (QuestionItem (strip q) (strip (focus_text it))).
Proof.
  unfold question_is_text, App.normalize_dict, App.focus_text.
  rewrite question_lookup_first_truthy, focus_lookup_first_truthy.
  destruct (first_truthy question_keys it) as [v|] eqn:Eq; intros Htext.
  - rewrite (first_truthy_truthy _ _ _ Eq). destruct v; try contradiction.
    exists s. split; [now apply by_key|].
    destruct (first_truthy focus_keys it) as [[]|]; reflexivity.
  - cbn [truthy nonempty].
    destruct (first_str_value_spec (dict_values it) (py_str (JDict it)))
      as [(before & s & after & Hv & Hb & Hs)|[Hall Hs]]; rewrite Hs.
    + exists s. split; [now apply (by_first_string _ _ before s after)|].
      destruct (first_truthy focus_keys it) as [[]|]; reflexivity.
    + exists (py_str (JDict it)). split; [now apply by_stringified|].
      destruct (first_truthy focus_keys it) as [[]|]; reflexivity.
Qed.

Lemma normalize_elements_text items :
  (forall it, In (JDict it) items -> question_is_text it) ->
  exists qs,
    normalize_elements items = inr qs
    /\ forall i el, nth_error items i = Some el ->
         exists q, nth_error qs i = Some q /\ normalize_element el = inr q.
Proof.
  induction items as [|el items IH]; intros Hok; simpl.
  - exists []. split; [reflexivity|]. intros [|i] el; discriminate.
  - assert (Hel : exists q, normalize_element el = inr q).
    { destruct el; simpl; eauto.
      destruct (normalize_dict_text d) as (q & _ & Hq); [|eauto]. apply Hok. now left. }
    destruct Hel as [q Hq]. rewrite Hq.
    destruct IH as (qs & -> & Hnth); [intros it Hin; apply Hok; now right|].
    exists (q :: qs). split; [reflexivity|].
    intros [|i] el'; simpl.
    + intros [= <-]. eauto.
    + apply Hnth.
Qed.

Lemma normalize_loop_text entries :
  (forall tech items it,
      In (tech, JList items) entries -> In (JDict it) items -> question_is_text it) ->
  forall acc, exists out,
    normalize_loop entries acc = inr out
    /\ (forall k, ~ In k (dict_keys entries) -> dict_get k out = dict_get k acc)
    /\ (NoDup (dict_keys entries) ->
        forall tech entry, In (tech, entry) entries ->
          exists qs, normalize_entry entry = inr qs /\ dict_get tech out = Some qs).
Proof.
  induction entries as [|[t e] rest IH]; intros Hok acc; simpl.
  - exists acc. split; [reflexivity|]. split; [reflexivity|]. intros _ ? ? [].
  - assert (He : exists nl, normalize_entry e = inr nl).
    { destruct e; simpl; eauto.
      destruct (normalize_elements_text l) as (qs & Hqs & _); [|eauto].
      intros it Hin. apply (Hok t l it); [now left | exact Hin]. }
    destruct He as [nl Hnl]. rewrite Hnl.
    destruct (IH (fun tech items it Hi => Hok tech items it (or_intror Hi))
                 (dict_set t nl acc)) as (out & Hrun & Hout & Hin).
    exists out. split; [exact Hrun|]. split.
    + intros k Hk. rewrite Hout by tauto.
      apply dict_get_set_other. intros ->. apply Hk. now left.
    + intros Hnd tech entry [Heq|Hi].
      * injection Heq as <- <-. exists nl. split; [exact Hnl|].
        inversion Hnd; subst. rewrite Hout by assumption.
        apply dict_get_set_same.
      * inversion Hnd; subst. now apply Hin.
Qed.

(** ** The claim about mapping elements *)

(** C1 (as amended). For every raw question mapping whose mapping
    elements select a string as question (or select nothing), the
    normalizer returns, and a mapping element of a technology's list
    becomes, at the same position of that technology's output, the record
    whose question is the stripped value of the first key among
    "question", "q", "prompt" that holds a truthy (non-empty) value, or,
    when none does, the stripped first string-valued field of the
    mapping, or else the stripped stringified mapping; and whose focus is
    the stripped value of the first of "ideal_answer_focus", "focus" that
    holds a truthy value, stringified when it is not a string, and empty
    when neither does. *)
Theorem mapping_element_normalized (q_map : pydict json) :
  NoDup (dict_keys q_map) ->
  (forall tech items it,
      In (tech, JList items) q_map -> In (JDict it) items -> question_is_text it) ->
  exists out,
    normalize_q_map q_map = inr out
    /\ forall tech items i it,
         In (tech, JList items) q_map ->
         nth_error items i = Some (JDict it) ->
         exists qs q,
           dict_get tech out = Some qs
           /\ selects_question it q
           /\ nth_error qs i = Some (QuestionItem (strip q) (strip (focus_text it))).
Proof.
  intros Hnd Hok.
  destruct (normalize_loop_text q_map Hok []) as (out & Hrun & _ & Hin).
  exists out. split; [exact Hrun|].
  intros tech items i it Hentry Hnth.
  destruct (Hin Hnd _ _ Hentry) as (qs & Hqs & Hget).
  simpl in Hqs.
  destruct (normalize_elements_text items) as (qs' & Hqs' & Hel).
  { intros it' Hi. exact (Hok tech items it' Hentry Hi). }
  rewrite Hqs' in Hqs. injection Hqs as <-.
  destruct (Hel _ _ Hnth) as (q & Hq & Hnorm).
  destruct (normalize_dict_text it) as (qt & Hsel & Hdict).
  { apply (Hok tech items it Hentry). eapply nth_error_In; eauto. }
  exists qs', qt. split; [exact Hget|]. split; [exact Hsel|].
  rewrite Hq. f_equal. simpl in Hnorm. rewrite Hdict in Hnorm. now injection Hnorm.
Qed.

End AppFacts.

(* ================================================================== *)
(** * Worked examples for [normalize_q_map] *)
(* ================================================================== *)

Section AppExamples.

Import Server App Examples.

(** Docker's list holds a string, an element that uses "prompt" and
    "focus", an element without question key whose first string-valued
    field is "text", and an element without any string. *)
Lemma mapping_element_normalized_witness :
  exists out,
    normalize_q_map quoted layer_map = inr out
    /\ (exists qs q,
          dict_get "Docker" out = Some qs
          /\ selects_question quoted alternate_keys_element q
          /\ nth_error qs 1
             = Some (QuestionItem (strip q)
                       (strip (focus_text quoted alternate_keys_element))))
    /\ (exists qs q,
          dict_get "Docker" out = Some qs
          /\ selects_question quoted text_field_element q
          /\ nth_error qs 2
             = Some (QuestionItem (strip q)
                       (strip (focus_text quoted text_field_element))))
    /\ (exists qs q,
          dict_get "Docker" out = Some qs
          /\ selects_question quoted number_element q
          /\ nth_error qs 3
             = Some (QuestionItem (strip q)
                       (strip (focus_text quoted number_element)))).
Proof.
  destruct (mapping_element_normalized quoted layer_map) as (out & Hrun & Hel).
  - repeat constructor. simpl. tauto.
  - intros tech items it [[= <- <-]|[]] [Hin|[[= <-]|[[= <-]|[[= <-]|[]]]]];
      [discriminate Hin| | |]; vm_compute; exact I.
  - exists out. split; [exact Hrun|].
    split; [|split].
    + exact (Hel "Docker" _ 1%nat alternate_keys_element (or_introl eq_refl) eq_refl).
    + exact (Hel "Docker" _ 2%nat text_field_element (or_introl eq_refl) eq_refl).
    + exact (Hel "Docker" _ 3%nat number_element (or_introl eq_refl) eq_refl).
Defined.

(** The three selections of that example, and the mapping returned. *)
Lemma layer_map_selections :
  selects_question quoted alternate_keys_element " What is a layer? "
  /\ selects_question quoted text_field_element " What is a volume? "
  /\ selects_question quoted number_element "{'n': 1}".
Proof.
  split; [now apply by_key|]. split.
  - apply (by_first_string quoted _ [JInt 1] _ [JStr "storage"]); [reflexivity..|].
    now repeat constructor.
  - apply (by_stringified quoted number_element); [reflexivity|]. now repeat constructor.
Qed.

Lemma layer_map_normalized :
  normalize_q_map quoted layer_map
  = inr [("Docker", [QuestionItem "Q1" "";
                     QuestionItem "What is a layer?" "networking";
                     QuestionItem "What is a volume?" "";
                     QuestionItem "{'n': 1}" ""])].
Proof. vm_compute. reflexivity. Qed.

(** C1 as stated fails: "question" is the first present key, and it is
    empty, so the rule of the specification gives an empty question; the
    focus 0 is not a string, so the rule gives "0". The normalizer takes
    the question from "q" and leaves the focus empty. *)
Lemma first_present_key_not_used :
  first_present ["question"; "q"; "prompt"] empty_question_element = Some (JStr "")
  /\ spec_normalize_dict quoted empty_question_element = QuestionItem "" "0"
  /\ normalize_q_map quoted decorator_map
     = inr [("Python", [QuestionItem "What is a decorator?" ""])]
  /\ normalize_q_map quoted decorator_map
     <> inr [("Python", [spec_normalize_dict quoted empty_question_element])].
Proof.
  split; [reflexivity|]. split; [reflexivity|]. split; [reflexivity|].
  vm_compute. intro H. discriminate H.
Qed.

End AppExamples.

(* ================================================================== *)
(** * Facts about the collection *)
(* ================================================================== *)

Section StoreFacts.

Import Mongo.

Implicit Types (d : doc) (ds : list doc) (u : update) (email k : string).

Lemma set_fields_get_other fields : forall d k,
  ~ In k (dict_keys fields) -> dict_get k (set_fields fields d) = dict_get k d.
Proof.
  unfold set_fields.
  induction fields as [|[k0 v0] fields IH]; intros d k Hk; simpl; [reflexivity|].
  rewrite IH by (intros H; apply Hk; now right).
  apply dict_get_set_other. intros ->. apply Hk. now left.
Qed.

Lemma set_fields_get_in fields : forall d k v,
  NoDup (dict_keys fields) ->
  dict_get k fields = Some v -> dict_get k (set_fields fields d) = Some v.
Proof.
  unfold set_fields.
  induction fields as [|[k0 v0] fields IH]; intros d k v Hnd Hget; simpl in *; [discriminate|].
  inversion Hnd as [|? ? Hnot Hnd']; subst.
  destruct (String.eqb k k0) eqn:E.
  - apply String.eqb_eq in E. subst k0. injection Hget as ->.
    change (dict_get k (set_fields fields (dict_set k v d)) = Some v).
    rewrite set_fields_get_other by exact Hnot. apply dict_get_set_same.
  - now apply IH.
Qed.

Lemma push_fields_get_other pushes : forall d d' k,
  push_fields pushes d = inr d' ->
  ~ In k (dict_keys pushes) -> dict_get k d' = dict_get k d.
Proof.
  induction pushes as [|[k0 v0] pushes IH]; intros d d' k Hrun Hk; simpl in *.
  - now injection Hrun as <-.
  - destruct (push_field k0 v0 d) as [e|d1] eqn:E1; [discriminate|].
    rewrite (IH _ _ _ Hrun) by (intros H; apply Hk; now right).
    unfold push_field in E1.
    assert (Hne : k <> k0) by (intros ->; apply Hk; now left).
    destruct (dict_get k0 d) as [[]|]; try discriminate;
      injection E1 as <-; now apply dict_get_set_other.
Qed.

(** The filter agrees with the key comparison of the index. *)
Lemma matches_email_key email d :
  matches email d = bson_eqb (email_key d) (BStr email).
Proof.
  unfold matches, email_key, bget.
  destruct (dict_get "email" d) as [[]|]; reflexivity.
Qed.

Lemma matches_get email d :
  matches email d = true <-> dict_get "email" d = Some (BStr email).
Proof.
  unfold matches. destruct (dict_get "email" d) as [[]|]; split; try discriminate.
  - intros H. apply String.eqb_eq in H. now subst.
  - intros [= ->]. apply String.eqb_refl.
Qed.

Lemma find_none_has_email_key email ds :
  find (matches email) ds = None -> has_email_key (BStr email) ds = false.
Proof.
  unfold has_email_key. induction ds as [|d ds IH]; simpl; [reflexivity|].
  rewrite <- matches_email_key. destruct (matches email d); [discriminate | exact IH].
Qed.

Lemma find_replace_first email d' ds d :
  find (matches email) ds = Some d ->
  matches email d' = true ->
  find (matches email) (replace_first email d' ds) = Some d'.
Proof.
  intros Hf Hm. induction ds as [|d0 ds IH]; simpl in *; [discriminate|].
  destruct (matches email d0) eqn:E; simpl.
  - now rewrite Hm.
  - rewrite E. now apply IH.
Qed.

Lemma find_app_none email ds d' :
  find (matches email) ds = None ->
  matches email d' = true ->
  find (matches email) (ds ++ [d'])%list = Some d'.
Proof.
  intros Hf Hm. induction ds as [|d0 ds IH]; simpl in *; [now rewrite Hm|].
  destruct (matches email d0); [discriminate | now apply IH].
Qed.


Lemma length_replace_first email d' ds :
  length (replace_first email d' ds) = length ds.
Proof.
  induction ds as [|d0 ds IH]; simpl; [reflexivity|].
  destruct (matches email d0); simpl; [reflexivity | now rewrite IH].
Qed.


(** An update that is not rejected for conflicting operators does not
    name in ["$set"] a field of its ["$setOnInsert"]. *)
Lemma not_conflicting_set u k :
  conflicting u = false ->
  In k (dict_keys (u_set_on_insert u)) -> ~ In k (dict_keys (u_set u)).
Proof.
  unfold conflicting. intros Hc Hk Hs.
  apply orb_false_elim in Hc as [Hc _].
  assert (existsb (fun k => dict_mem k (u_set_on_insert u) || dict_mem k (u_push u))
                  (dict_keys (u_set u)) = true) as Habs; [|congruence].
  apply existsb_exists. exists k. split; [exact Hs|].
  apply orb_true_intro. left. now apply dict_mem_keys.
Qed.

Lemma update_docs_ok_not_conflicting index ds oid email u upsert r :
  update_docs index ds oid email u upsert = inr r -> conflicting u = false.
Proof.
  unfold update_docs. destruct (conflicting u); [discriminate | reflexivity].
Qed.

(** A profile upsert that the server accepts: the document the filter
    finds afterwards is the one the update wrote. *)
Lemma update_docs_profile index ds oid email p c ds' oid' now :
  update_docs index ds oid email (Update p [("created_at", c)] []) true = inr (ds', oid') ->
  (forall d, dict_get "email" d = Some (BStr email) ->
             dict_get "email" (set_fields p d) = Some (BStr email)) ->
  (forall d, dict_get "updated_at" (set_fields p d) = Some now) ->
  exists d1,
    find (matches email) ds' = Some d1
    /\ dict_get "updated_at" d1 = Some now
    /\ (forall d0, find (matches email) ds = Some d0 -> d1 = set_fields p d0)
    /\ (find (matches email) ds = None -> ~ In "answers" (dict_keys p) ->
        dict_get "answers" d1 = None).
Proof.
  unfold update_docs. intros Hrun Hemail Hnow.
  destruct (conflicting _); [discriminate|].
  destruct (find (matches email) ds) as [d0|] eqn:Ef.
  - unfold modified in Hrun. simpl in Hrun.
    destruct (_ && _); [discriminate|].
    destruct (_ && _ && _); [discriminate|]. injection Hrun as <- <-.
    exists (set_fields p d0). split; [|split; [|split]].
    + apply (find_replace_first _ _ _ d0 Ef). apply matches_get, Hemail.
      apply matches_get. exact (proj2 (find_some _ _ Ef)).
    + apply Hnow.
    + now intros d [= <-].
    + discriminate.
  - unfold inserted in Hrun. simpl in Hrun.
    destruct (_ || _); [discriminate|]. injection Hrun as <- <-.
    set (d0 := dict_set "created_at" c (set_fields p [("email", BStr email)])).
    assert (He : dict_get "email" d0 = Some (BStr email)).
    { unfold d0. rewrite dict_get_set_other by discriminate.
      apply Hemail. reflexivity. }
    assert (Hu : dict_get "updated_at" d0 = Some now).
    { unfold d0. rewrite dict_get_set_other by discriminate. apply Hnow. }
    exists (if dict_mem "_id" d0 then d0 else ("_id", BOid oid) :: d0).
    split; [|split; [|split]].
    + apply find_app_none; [exact Ef|]. apply matches_get.
      destruct (dict_mem "_id" d0); [exact He | exact He].
    + destruct (dict_mem "_id" d0); [exact Hu | exact Hu].
    + discriminate.
    + intros _ Hno.
      assert (Ha : dict_get "answers" d0 = None).
      { unfold d0. rewrite dict_get_set_other by discriminate.
        now rewrite set_fields_get_other by exact Hno. }
      destruct (dict_mem "_id" d0); [exact Ha | exact Ha].
Qed.

(** The server accepts a profile upsert whose ["$set"] names neither
    "created_at" nor "_id" and keeps the email of the filter. *)
Lemma update_docs_profile_accepted index ds oid email p c :
  ~ In "created_at" (dict_keys p) ->
  ~ In "_id" (dict_keys p) ->
  (forall d, dict_get "email" d = Some (BStr email) ->
             dict_get "email" (set_fields p d) = Some (BStr email)) ->
  exists r, update_docs index ds oid email (Update p [("created_at", c)] []) true = inr r.
Proof.
  intros Hc Hid Hemail. unfold update_docs.
  assert (Hconf : conflicting (Update p [("created_at", c)] []) = false).
  { unfold conflicting. simpl. rewrite orb_false_r.
    destruct (existsb _ (dict_keys p)) eqn:E; [|reflexivity].
    apply existsb_exists in E as (k & Hk & Hf). rewrite orb_false_r in Hf.
    unfold dict_mem in Hf. simpl in Hf.
    destruct (String.eqb k "created_at") eqn:Ek; [|discriminate].
    apply String.eqb_eq in Ek. subst. contradiction. }
  rewrite Hconf.
  assert (Hmem : dict_mem "_id" p = false).
  { destruct (dict_mem "_id" p) eqn:E; [|reflexivity].
    apply dict_mem_keys in E. contradiction. }
  destruct (find (matches email) ds) as [d0|] eqn:Ef.
  - unfold modified. simpl. rewrite Hmem. simpl.
    assert (Hm : dict_get "email" d0 = Some (BStr email)).
    { apply matches_get. exact (proj2 (find_some _ _ Ef)). }
    unfold email_key, bget. rewrite (Hemail _ Hm), Hm. simpl.
    rewrite String.eqb_refl. simpl. rewrite andb_false_r. simpl. eauto.
  - unfold inserted. simpl.
    set (d0 := dict_set "created_at" c (set_fields p [("email", BStr email)])).
    assert (Hno : dict_mem "_id" d0 = false).
    { unfold dict_mem, d0. rewrite dict_get_set_other by discriminate.
      rewrite set_fields_get_other by exact Hid. reflexivity. }
    rewrite Hno. simpl.
    assert (He : dict_get "email" d0 = Some (BStr email)).
    { unfold d0. rewrite dict_get_set_other by discriminate.
      apply Hemail. reflexivity. }
    unfold email_key, bget. simpl. rewrite He.
    rewrite (find_none_has_email_key _ _ Ef), andb_false_r. eauto.
Qed.

(** The update of [add_answer] on a document that exists. *)
Lemma update_docs_push_existing index ds oid email t r flag d old :
  find (matches email) ds = Some d ->
  answers_of d = Some old ->
  update_docs index ds oid email (Update [("updated_at", t)] [] [("answers", r)]) flag
    = inr (replace_first email
             (dict_set "answers" (BList (old ++ [r])%list) (dict_set "updated_at" t d)) ds,
           oid).
Proof.
  intros Hf Ha. unfold update_docs. simpl. rewrite Hf.
  unfold modified. simpl. unfold push_field.
  rewrite dict_get_set_other by discriminate.
  assert (Hm : dict_get "email" d = Some (BStr email)).
  { apply matches_get. exact (proj2 (find_some _ _ Hf)). }
  assert (Hk : forall v : bson,
             email_key (dict_set "answers" v (dict_set "updated_at" t d)) = BStr email).
  { intros v. unfold email_key, bget.
    now rewrite !dict_get_set_other, Hm by discriminate. }
  unfold answers_of in Ha.
  destruct (dict_get "answers" d) as [[]|]; try discriminate; injection Ha as <-;
    rewrite Hk; unfold email_key, bget; rewrite Hm; simpl;
    rewrite String.eqb_refl; simpl; rewrite andb_false_r; reflexivity.
Qed.

(** The update of [add_answer] when no document has that email. *)
Lemma update_docs_push_missing index ds oid email t r :
  find (matches email) ds = None ->
  update_docs index ds oid email (Update [("updated_at", t)] [] [("answers", r)]) true
    = inr ((ds ++ [[("_id", BOid oid); ("email", BStr email); ("updated_at", t);
                    ("answers", BList [r])]])%list, (oid + 1)%Z)
  /\ update_docs index ds oid email (Update [("updated_at", t)] [] [("answers", r)]) false
    = inr (ds, oid).
Proof.
  intros Hf. unfold update_docs. simpl. rewrite Hf. split; [|reflexivity].
  unfold inserted. simpl. unfold email_key, bget. simpl.
  now rewrite (find_none_has_email_key _ _ Hf), andb_false_r.
Qed.

End StoreFacts.

(* ================================================================== *)
(** * Facts about the gateway *)
(* ================================================================== *)

Section GatewayFacts.

Import Mongo.

Variable clock : nat -> Z.
Variable fault : nat -> option exn.

Local Abbreviation update_one := (Mongo.update_one fault).
Local Abbreviation upsert_candidate := (Mongo.upsert_candidate clock fault).
Local Abbreviation add_answer := (Mongo.add_answer clock fault).
Local Abbreviation profile_update := (Mongo.profile_update clock).
Local Abbreviation answer_update := (Mongo.answer_update clock).
Local Abbreviation stamped := (Mongo.stamped clock).

Implicit Types (w : world) (d : doc) (email : string).

Lemma update_one_run email u upsert w :
  update_one email u upsert w =
    match fault (length (log w)) with
    | Some e => (inl e, with_call (UpdateOne email u upsert) w)
    | None =>
        match update_docs (email_index w) (docs w) (next_oid w) email u upsert with
        | inl e => (inl e, with_call (UpdateOne email u upsert) w)
        | inr (ds, n) => (inr tt, with_docs ds n (with_call (UpdateOne email u upsert) w))
        end
    end.
Proof.
  unfold Mongo.update_one, bind, round_trip.
  destruct (fault (length (log w))); [reflexivity|]. simpl.
  destruct (update_docs _ _ _ _ _ _) as [e|[ds n]]; reflexivity.
Qed.

Lemma upsert_candidate_run email profile w :
  upsert_candidate email profile w =
    update_one email (profile_update (ticks w) profile) true (with_tick (with_tick w)).
Proof. reflexivity. Qed.

Lemma add_answer_run email answer flag w :
  add_answer email answer flag w =
    update_one email (answer_update (ticks w) answer) flag (with_tick (with_tick w)).
Proof. reflexivity. Qed.

(** The collection after a call of [update_one] is the one before, or
    the result of the update on the server. *)
Lemma update_one_docs email u upsert w :
  docs (snd (update_one email u upsert w)) = docs w
  \/ exists n, update_docs (email_index w) (docs w) (next_oid w) email u upsert
               = inr (docs (snd (update_one email u upsert w)), n).
Proof.
  rewrite update_one_run. destruct (fault (length (log w))); [now left|].
  destruct (update_docs _ _ _ _ _ _) as [e|[ds n]] eqn:E; [now left|].
  right. exists n. reflexivity.
Qed.

Lemma profile_update_keys t profile k :
  In k (dict_keys (u_set (profile_update t profile))) ->
  k = "updated_at" \/ (k <> "answers" /\ In k (dict_keys profile)).
Proof.
  simpl. rewrite in_keys_set. intros [->|H]; [now left|]. right. split.
  - intros ->. exact (not_in_keys_pop _ _ H).
  - exact (in_keys_pop _ _ _ H).
Qed.


(** The payload carries no other email than the one of the filter. *)
Lemma profile_keeps_email t profile email :
  NoDup (dict_keys profile) ->
  bget_default "email" (BStr email) profile = BStr email ->
  forall d, dict_get "email" d = Some (BStr email) ->
    dict_get "email" (set_fields (u_set (profile_update t profile)) d) = Some (BStr email).
Proof.
  intros Hnd He d Hd. simpl.
  set (p := dict_set "updated_at" (BDate (clock t)) (dict_pop "answers" profile)).
  assert (Hp : dict_get "email" p = dict_get "email" profile).
  { unfold p. rewrite dict_get_set_other by discriminate.
    apply dict_get_pop_other. discriminate. }
  unfold bget_default in He. destruct (dict_get "email" profile) as [v|] eqn:E.
  - subst v. apply set_fields_get_in; [|exact Hp].
    apply nodup_keys_set, nodup_keys_pop, Hnd.
  - rewrite set_fields_get_other; [exact Hd|]. now apply dict_get_none_keys.
Qed.

Lemma profile_sets_updated_at t profile :
  NoDup (dict_keys profile) ->
  forall d, dict_get "updated_at" (set_fields (u_set (profile_update t profile)) d)
            = Some (BDate (clock t)).
Proof.
  intros Hnd d. apply set_fields_get_in.
  - apply nodup_keys_set, nodup_keys_pop, Hnd.
  - apply dict_get_set_same.
Qed.

(** A call of [upsert_candidate] that returns: the document of that
    email now carries the reading of the clock taken by this call, and
    keeps the "answers" and "created_at" it had, if it existed. *)
Lemma upsert_candidate_accepted email profile w w1 :
  NoDup (dict_keys profile) ->
  bget_default "email" (BStr email) profile = BStr email ->
  upsert_candidate email profile w = (inr tt, w1) ->
  ticks w1 = S (S (ticks w))
  /\ exists d1,
       find (matches email) (docs w1) = Some d1
       /\ dict_get "updated_at" d1 = Some (BDate (clock (ticks w)))
       /\ (forall d0, find (matches email) (docs w) = Some d0 ->
             dict_get "answers" d1 = dict_get "answers" d0
             /\ dict_get "created_at" d1 = dict_get "created_at" d0)
       /\ stored_answers email (docs w1) = stored_answers email (docs w)
       /\ log w1 = (log w ++ [UpdateOne email (profile_update (ticks w) profile) true])%list.
Proof.
  intros Hnd He. rewrite upsert_candidate_run, update_one_run. simpl.
  destruct (fault (length (log w))); [discriminate|].
  destruct (update_docs _ _ _ _ _ _) as [e|[ds n]] eqn:Hrun; [discriminate|].
  intros [= <-]. simpl. split; [reflexivity|].
  pose proof (update_docs_ok_not_conflicting _ _ _ _ _ _ _ Hrun) as Hconf.
  destruct (update_docs_profile _ _ _ _ _ _ _ _ _ Hrun
              (profile_keeps_email (ticks w) profile email Hnd He)
              (profile_sets_updated_at (ticks w) profile Hnd))
    as (d1 & Hf & Hu & Hd0 & Hnew).
  assert (Hans : ~ In "answers" (dict_keys (u_set (profile_update (ticks w) profile)))).
  { intros H. apply profile_update_keys in H as [H|[H _]]; [discriminate | now elim H]. }
  exists d1. split; [exact Hf|]. split; [exact Hu|]. split; [|split; [|reflexivity]].
  - intros d0 Hd. rewrite (Hd0 _ Hd). split; apply set_fields_get_other.
    + exact Hans.
    + apply (not_conflicting_set (profile_update (ticks w) profile) "created_at" Hconf).
      simpl. now left.
  - unfold stored_answers. rewrite Hf.
    destruct (find (matches email) (docs w)) as [d0|] eqn:Ef.
    + unfold answers_of. rewrite (Hd0 _ eq_refl).
      now rewrite set_fields_get_other by exact Hans.
    + unfold answers_of. now rewrite (Hnew eq_refl Hans).
Qed.

(** A payload without "created_at" and "_id" that keeps the email is
    accepted when the request reaches the server. *)
Lemma upsert_candidate_returns email profile w :
  NoDup (dict_keys profile) ->
  dict_mem "created_at" profile = false ->
  dict_mem "_id" profile = false ->
  bget_default "email" (BStr email) profile = BStr email ->
  fault (length (log w)) = None ->
  exists w1, upsert_candidate email profile w = (inr tt, w1).
Proof.
  intros Hnd Hc Hid He Hf. rewrite upsert_candidate_run, update_one_run. simpl. rewrite Hf.
  set (p := dict_set "updated_at" (BDate (clock (ticks w))) (dict_pop "answers" profile)).
  change (Mongo.profile_update clock (ticks w) profile)
    with (Update p [("created_at", BDate (clock (S (ticks w))))] []).
  assert (Hkeys : forall k, In k (dict_keys p) -> k = "updated_at" \/ In k (dict_keys profile)).
  { intros k H. apply (profile_update_keys (ticks w) profile) in H. tauto. }
  destruct (update_docs_profile_accepted (email_index w) (docs w) (next_oid w) email
              p (BDate (clock (S (ticks w))))) as [[ds n] Hr].
  - intros H. apply Hkeys in H as [H|H]; [discriminate|].
    apply dict_mem_keys in H. congruence.
  - intros H. apply Hkeys in H as [H|H]; [discriminate|].
    apply dict_mem_keys in H. congruence.
  - exact (profile_keeps_email (ticks w) profile email Hnd He).
  - rewrite Hr. eauto.
Qed.

(** One call of [add_answer] with the default flag, when the request
    reaches the server: the record is appended after the stored ones. *)
Lemma add_answer_appends email a w old :
  fault (length (log w)) = None ->
  stored_answers email (docs w) = Some old ->
  exists w' d',
    add_answer email a true w = (inr tt, w')
    /\ find (matches email) (docs w') = Some d'
    /\ dict_get "answers" d' = Some (BList (old ++ [BDict (stamped (ticks w) a)])%list)
    /\ dict_get "updated_at" d' = Some (BDate (clock (S (ticks w))))
    /\ ticks w' = S (S (ticks w))
    /\ log w' = (log w ++ [UpdateOne email (answer_update (ticks w) a) true])%list.
Proof.
  intros Hf Hs. rewrite add_answer_run, update_one_run. simpl. rewrite Hf.
  unfold Mongo.answer_update at 1. unfold stored_answers in Hs.
  destruct (find (matches email) (docs w)) as [d|] eqn:Ef.
  - rewrite (update_docs_push_existing _ _ _ _ _ _ _ _ _ Ef Hs).
    eexists.
    exists (dict_set "answers" (BList (old ++ [BDict (stamped (ticks w) a)])%list)
              (dict_set "updated_at" (BDate (clock (S (ticks w)))) d)).
    split; [reflexivity|]. simpl.
    split; [|split; [|split; [|split]]]; try reflexivity.
    + apply (find_replace_first _ _ _ d Ef). apply matches_get.
      rewrite !dict_get_set_other by discriminate.
      apply matches_get. exact (proj2 (find_some _ _ Ef)).
    + apply dict_get_set_same.
    + rewrite dict_get_set_other by discriminate. apply dict_get_set_same.
  - injection Hs as <-.
    rewrite (proj1 (update_docs_push_missing _ _ _ _ _ _ Ef)).
    eexists.
    exists [("_id", BOid (next_oid w)); ("email", BStr email);
            ("updated_at", BDate (clock (S (ticks w))));
            ("answers", BList [BDict (stamped (ticks w) a)])].
    split; [reflexivity|]. simpl.
    split; [|split; [|split; [|split]]]; try reflexivity.
    apply find_app_none; [exact Ef|]. unfold matches. simpl. apply String.eqb_refl.
Qed.

(** A call whose request does not reach the server changes no document. *)
Lemma add_answer_fault email a flag w e :
  fault (length (log w)) = Some e ->
  exists w',
    add_answer email a flag w = (inl e, w')
    /\ docs w' = docs w
    /\ log w' = (log w ++ [UpdateOne email (answer_update (ticks w) a) flag])%list.
Proof.
  intros Hf. rewrite add_answer_run, update_one_run. simpl. rewrite Hf.
  eexists. split; [reflexivity|]. split; reflexivity.
Qed.

Lemma stamped_timestamped t a : Mongo.timestamped clock a (BDict (stamped t a)).
Proof.
  unfold Mongo.timestamped, Mongo.stamped, dict_setdefault.
  split; intros ->; eauto.
Qed.

Lemma stamped_from_spec answers : forall t,
  length (Mongo.stamped_from clock t answers) = length answers
  /\ Forall2 (Mongo.timestamped clock) answers (Mongo.stamped_from clock t answers).
Proof.
  induction answers as [|a rest IH]; intros t; simpl.
  - split; [reflexivity | constructor].
  - destruct (IH (S (S t))) as [Hl Hf]. split; [now rewrite Hl|].
    constructor; [apply stamped_timestamped | exact Hf].
Qed.

(** [add_answer] called once per answer: the records are appended after
    the stored ones, in call order. *)
Lemma add_each_appends email answers : forall w old,
  (forall n, fault n = None) ->
  stored_answers email (docs w) = Some old ->
  exists w',
    Mongo.add_each clock fault email answers w = (inr tt, w')
    /\ stored_answers email (docs w')
       = Some (old ++ Mongo.stamped_from clock (ticks w) answers)%list
    /\ (answers <> [] ->
        exists d',
          find (matches email) (docs w') = Some d'
          /\ dict_get "answers" d'
             = Some (BList (old ++ Mongo.stamped_from clock (ticks w) answers)%list)
          /\ dict_get "updated_at" d'
             = Some (BDate (clock (ticks w + 2 * length answers - 1)))).
Proof.
  induction answers as [|a rest IH]; intros w old Hnf Hs.
  - exists w. simpl. rewrite app_nil_r. split; [reflexivity|]. split; [exact Hs|].
    intros H. now elim H.
  - destruct (add_answer_appends email a w old (Hnf _) Hs)
      as (w1 & d1 & Hrun & Hf1 & Ha1 & Hu1 & Ht1 & _).
    assert (Hs1 : stored_answers email (docs w1)
                  = Some (old ++ [BDict (stamped (ticks w) a)])%list).
    { unfold stored_answers, answers_of. now rewrite Hf1, Ha1. }
    destruct (IH w1 _ Hnf Hs1) as (w' & Hrun' & Hs' & Hd').
    exists w'. simpl. unfold bind. rewrite Hrun.
    split; [exact Hrun'|]. split.
    + rewrite Hs', Ht1, <- app_assoc. reflexivity.
    + intros _. destruct rest as [|b rest'].
      * simpl in Hrun'. injection Hrun' as <-.
        exists d1. split; [exact Hf1|]. split; [exact Ha1|].
        rewrite Hu1. do 2 f_equal. f_equal. simpl. lia.
      * destruct Hd' as (d' & Hf' & Ha' & Hu'); [discriminate|].
        exists d'. split; [exact Hf'|]. split.
        -- rewrite Ha', Ht1, <- app_assoc. reflexivity.
        -- rewrite Hu', Ht1. do 2 f_equal. f_equal. simpl length. lia.
Qed.

(** ** The claims about the low-level methods *)


(** C6 (as amended). When no document has the email and the request
    reaches the server, appending an answer with the auto-create flag
    disabled returns normally and leaves the collection as it was: no
    error is raised and the answer is dropped. With the flag true (the
    default) the parent document is created and holds the answer. *)
Theorem add_answer_to_missing_candidate email answer w :
  fault (length (log w)) = None ->
  find (matches email) (docs w) = None ->
  (exists w', add_answer email answer false w = (inr tt, w') /\ docs w' = docs w)
  /\ (exists w' d,
        add_answer email answer true w = (inr tt, w')
        /\ docs w' = (docs w ++ [d])%list
        /\ matches email d = true
        /\ dict_get "answers" d = Some (BList [BDict (stamped (ticks w) answer)])).
Proof.
  intros Hf Hn. split.
  - rewrite add_answer_run, update_one_run. simpl. rewrite Hf.
    unfold Mongo.answer_update.
    rewrite (proj2 (update_docs_push_missing _ _ _ _ _ _ Hn)).
    eexists. split; reflexivity.
  - rewrite add_answer_run, update_one_run. simpl. rewrite Hf.
    unfold Mongo.answer_update.
    rewrite (proj1 (update_docs_push_missing _ _ _ _ _ _ Hn)).
    eexists. eexists. split; [reflexivity|]. simpl. split; [reflexivity|].
    split; [|reflexivity]. unfold matches. simpl. apply String.eqb_refl.
Qed.

(** C8. For every email whose stored "answers", if any, are an array,
    calling [add_answer] once for each of N payloads (requests reaching
    the server) appends N records after the stored ones, in call order,
    so that "answers" has length N when none were stored; each record is
    its payload, with a "timestamp" read from the clock at that call when
    the payload had none; and each call sets "updated_at" of the
    document, which ends as the reading of the last call. *)
Theorem add_answer_accumulates email answers w old :
  (forall n, fault n = None) ->
  stored_answers email (docs w) = Some old ->
  exists w',
    Mongo.add_each clock fault email answers w = (inr tt, w')
    /\ stored_answers email (docs w')
       = Some (old ++ Mongo.stamped_from clock (ticks w) answers)%list
    /\ length (Mongo.stamped_from clock (ticks w) answers) = length answers
    /\ (old = [] ->
        length (old ++ Mongo.stamped_from clock (ticks w) answers)%list = length answers)
    /\ Forall2 (Mongo.timestamped clock) answers (Mongo.stamped_from clock (ticks w) answers)
    /\ (answers <> [] ->
        exists d,
          find (matches email) (docs w') = Some d
          /\ dict_get "answers" d
             = Some (BList (old ++ Mongo.stamped_from clock (ticks w) answers)%list)
          /\ dict_get "updated_at" d
             = Some (BDate (clock (ticks w + 2 * length answers - 1)))).
Proof.
  intros Hnf Hs.
  destruct (add_each_appends email answers w old Hnf Hs) as (w' & Hrun & Hs' & Hd).
  destruct (stamped_from_spec answers (ticks w)) as [Hlen Hall].
  exists w'. split; [exact Hrun|]. split; [exact Hs'|]. split; [exact Hlen|].
  split; [now intros ->|]. split; [exact Hall | exact Hd].
Qed.

End GatewayFacts.

(* ================================================================== *)
(** * Facts about [save_candidate_and_answers] *)
(* ================================================================== *)

Section SaveFacts.

Import Mongo.

Variable clock : nat -> Z.
Variable fault : nat -> option exn.
Variable py_str : bson -> string.
Variable format_exc : exn -> string.

Local Abbreviation upsert_candidate := (Mongo.upsert_candidate clock fault).
Local Abbreviation add_answer := (Mongo.add_answer clock fault).
Local Abbreviation profile_update := (Mongo.profile_update clock).
Local Abbreviation answer_update := (Mongo.answer_update clock).
Local Abbreviation normalize_at := (Mongo.normalize_at clock).
Local Abbreviation records_from := (Mongo.records_from clock).
Local Abbreviation push_calls := (Mongo.push_calls clock).
Local Abbreviation push_answer := (Mongo.push_answer clock fault).
Local Abbreviation push_answers := (Mongo.push_answers clock fault).
Local Abbreviation save_body := (Mongo.save_body clock fault py_str).
Local Abbreviation save := (Mongo.save_candidate_and_answers clock fault py_str format_exc).
Local Abbreviation save_failure := (Mongo.save_failure format_exc).

Implicit Types (w : world) (d : doc) (email : string).

Lemma normalize_run raw w :
  _normalize_answer_input clock raw w
  = (inr (fst (normalize_at (ticks w) raw)), ticked (snd (normalize_at (ticks w) raw)) w).
Proof.
  unfold _normalize_answer_input, Mongo.normalize_at, bind, ret, utcnow.
  destruct (btruthy (bget "timestamp" (default_fields raw))); simpl;
    destruct w; reflexivity.
Qed.

Lemma stamped_ans_doc t norm : Mongo.stamped clock t (ans_doc norm) = ans_doc norm.
Proof. reflexivity. Qed.

(** One iteration of the loop whose request reaches the server. *)
Lemma push_answer_ok email raw w d old :
  fault (length (log w)) = None ->
  find (matches email) (docs w) = Some d ->
  answers_of d = Some old ->
  exists w' d',
    push_answer email raw w = (inr tt, w')
    /\ find (matches email) (docs w') = Some d'
    /\ answers_of d' = Some (old ++ [BDict (ans_doc (fst (normalize_at (ticks w) raw)))])%list
    /\ ticks w' = S (S (snd (normalize_at (ticks w) raw)))
    /\ log w'
       = (log w ++ [UpdateOne email
                      (answer_update (snd (normalize_at (ticks w) raw))
                                     (ans_doc (fst (normalize_at (ticks w) raw)))) true])%list.
Proof.
  intros Hf Hd Ha. unfold Mongo.push_answer, bind. rewrite normalize_run.
  set (norm := fst (normalize_at (ticks w) raw)).
  set (t := snd (normalize_at (ticks w) raw)).
  destruct (add_answer_appends clock fault email (ans_doc norm) (ticked t w) old)
    as (w' & d' & Hrun & Hf' & Ha' & _ & Ht' & Hl').
  - exact Hf.
  - unfold stored_answers. simpl. now rewrite Hd.
  - exists w', d'. split; [exact Hrun|]. split; [exact Hf'|].
    split; [|split; [exact Ht' | exact Hl']].
    unfold answers_of. rewrite Ha'. reflexivity.
Qed.

(** One iteration whose request fails in transport. *)
Lemma push_answer_fault email raw w e :
  fault (length (log w)) = Some e ->
  exists w',
    push_answer email raw w = (inl e, w')
    /\ docs w' = docs w
    /\ log w'
       = (log w ++ [UpdateOne email
                      (answer_update (snd (normalize_at (ticks w) raw))
                                     (ans_doc (fst (normalize_at (ticks w) raw)))) true])%list.
Proof.
  intros Hf. unfold Mongo.push_answer, bind. rewrite normalize_run.
  destruct (add_answer_fault clock fault email
              (ans_doc (fst (normalize_at (ticks w) raw))) true
              (ticked (snd (normalize_at (ticks w) raw)) w) e Hf)
    as (w' & Hrun & Hd & Hl).
  exists w'. split; [exact Hrun|]. split; [exact Hd | exact Hl].
Qed.

(** The whole loop, when every request reaches the server. *)
Lemma push_answers_ok email answers_list : forall w d old,
  (forall i, (i < length answers_list)%nat -> fault (length (log w) + i) = None) ->
  find (matches email) (docs w) = Some d ->
  answers_of d = Some old ->
  exists w' d',
    push_answers email answers_list w = (inr tt, w')
    /\ find (matches email) (docs w') = Some d'
    /\ answers_of d' = Some (old ++ records_from (ticks w) answers_list)%list
    /\ log w' = (log w ++ push_calls email (ticks w) answers_list)%list.
Proof.
  induction answers_list as [|raw rest IH]; intros w d old Hnf Hd Ha; simpl.
  - exists w, d. rewrite !app_nil_r. auto.
  - destruct (push_answer_ok email raw w d old) as (w1 & d1 & Hrun & Hf1 & Ha1 & Ht1 & Hl1).
    { rewrite <- (Nat.add_0_r (length (log w))). apply Hnf. simpl. lia. }
    { exact Hd. } { exact Ha. }
    unfold bind. rewrite Hrun.
    assert (Hnf1 : forall i, (i < length rest)%nat -> fault (length (log w1) + i) = None).
    { intros i Hi. rewrite Hl1, length_app. simpl.
      replace (length (log w) + 1 + i)%nat with (length (log w) + S i)%nat by lia.
      apply Hnf. simpl. lia. }
    destruct (IH w1 d1 _ Hnf1 Hf1 Ha1) as (w' & d' & Hrun' & Hf' & Ha' & Hl').
    exists w', d'. split; [exact Hrun'|]. split; [exact Hf'|]. split.
    + rewrite Ha', Ht1, <- app_assoc. reflexivity.
    + rewrite Hl', Hl1, Ht1, <- app_assoc. reflexivity.
Qed.

(** The loop when the request of the answer at position [k] fails in
    transport: the [k] answers before it stay appended. *)
Lemma push_answers_fault email answers_list : forall w d old k e,
  (k < length answers_list)%nat ->
  (forall i, (i < k)%nat -> fault (length (log w) + i) = None) ->
  fault (length (log w) + k) = Some e ->
  find (matches email) (docs w) = Some d ->
  answers_of d = Some old ->
  exists w' d',
    push_answers email answers_list w = (inl e, w')
    /\ find (matches email) (docs w') = Some d'
    /\ answers_of d' = Some (old ++ firstn k (records_from (ticks w) answers_list))%list
    /\ log w' = (log w ++ firstn (S k) (push_calls email (ticks w) answers_list))%list.
Proof.
  induction answers_list as [|raw rest IH]; intros w d old k e Hk Hnf He Hd Ha;
    [simpl in Hk; lia|].
  destruct k as [|k].
  - rewrite Nat.add_0_r in He.
    destruct (push_answer_fault email raw w e He) as (w1 & Hrun & Hd1 & Hl1).
    simpl. unfold bind. rewrite Hrun.
    exists w1, d. rewrite Hd1, app_nil_r. auto.
  - destruct (push_answer_ok email raw w d old) as (w1 & d1 & Hrun & Hf1 & Ha1 & Ht1 & Hl1).
    { rewrite <- (Nat.add_0_r (length (log w))). apply Hnf. lia. }
    { exact Hd. } { exact Ha. }
    simpl push_answers. unfold bind. rewrite Hrun.
    assert (Hk1 : (k < length rest)%nat) by (simpl in Hk; lia).
    assert (Hnf1 : forall i, (i < k)%nat -> fault (length (log w1) + i) = None).
    { intros i Hi. rewrite Hl1, length_app. simpl.
      replace (length (log w) + 1 + i)%nat with (length (log w) + S i)%nat by lia.
      apply Hnf. lia. }
    assert (He1 : fault (length (log w1) + k) = Some e).
    { rewrite Hl1, length_app. simpl.
      replace (length (log w) + 1 + k)%nat with (length (log w) + S k)%nat by lia.
      exact He. }
    destruct (IH w1 d1 _ k e Hk1 Hnf1 He1 Hf1 Ha1) as (w' & d' & Hrun' & Hf' & Ha' & Hl').
    exists w', d'. split; [exact Hrun'|]. split; [exact Hf'|]. split.
    + rewrite Ha', Ht1, <- app_assoc. reflexivity.
    + rewrite Hl', Hl1, Ht1, <- app_assoc. reflexivity.
Qed.

Lemma build_profile_shape c email profile :
  build_profile c email = inr profile ->
  exists name phone position meta tech,
    profile = [("name", BStr name); ("email", BStr email); ("phone", BStr phone);
               ("position", position); ("meta", meta); ("tech_stack", tech)].
Proof.
  unfold build_profile.
  destruct (bstrip _) as [e|name]; [discriminate|].
  destruct (bstrip _) as [e|phone]; [discriminate|].
  intros [= <-]. eauto 6.
Qed.

Lemma find_one_run email w :
  find_one fault email w =
    match fault (length (log w)) with
    | Some e => (inl e, with_call (FindOne email) w)
    | None => (inr (find (matches email) (docs w)), with_call (FindOne email) w)
    end.
Proof.
  unfold find_one, bind, round_trip. destruct (fault (length (log w))); reflexivity.
Qed.

(** With the gateway initialised and a usable email, the function is its
    [try] block under the wrapping handler. *)
Lemma save_initialised c email profile answers_list w :
  db_wrapper w = true ->
  bstrip (email_lookup c) = inr email ->
  nonempty email = true ->
  build_profile c email = inr profile ->
  save (BDict c) answers_list w =
    try_except (save_body email profile answers_list)
               (fun ex => raise (save_failure ex)) w.
Proof.
  intros Hw He Hn Hp. unfold Mongo.save_candidate_and_answers, bind.
  rewrite Hw, He. simpl. rewrite Hn, Hp. reflexivity.
Qed.

(** What the lazy initialisation does to the world: it sends requests of
    the connection phase only, starting with [server_info] when no
    instance exists yet, and every failure is a [RuntimeError]. *)
Lemma init_mongo_effect w :
  db_wrapper w = false ->
  exists calls,
    log (snd (init_mongo fault w)) = (log w ++ calls)%list
    /\ Forall connection_call calls
    /\ docs (snd (init_mongo fault w)) = docs w
    /\ (db_instance w = false -> exists rest, calls = ServerInfo :: rest)
    /\ (db_instance w = false ->
        forall e, fault (length (log w)) = Some e ->
          exists m, fst (init_mongo fault w) = inl (Raise RuntimeError m))
    /\ (forall e, fst (init_mongo fault w) = inl e -> exn_kind e = RuntimeError).
Proof.
  intros Hw. destruct w as [ds idx oid t lg inst wr]. simpl in Hw. subst wr.
  cbv [init_mongo get_db connect _ensure_indexes round_trip try_except bind raise ret
       with_call with_instance with_wrapper with_index
       docs log db_instance db_wrapper email_index next_oid ticks].
  destruct inst.
  - exists []. rewrite app_nil_r. repeat split; auto; discriminate.
  - destruct (fault (length lg)) as [e|] eqn:Ef.
    + exists [ServerInfo].
      destruct e as [[] m]; cbn;
        (split; [reflexivity|]; split; [apply Forall_cons; [now left|]; apply Forall_nil|];
         split; [reflexivity|]; split; [eauto|];
         split; [intros _ e' [= <-]; eauto | now intros e' [= <-]]).
    + destruct (fault (length (lg ++ [ServerInfo])%list)) as [e|].
      * exists [ServerInfo; CreateIndex]. cbn. rewrite <- app_assoc.
        split; [reflexivity|].
        split; [apply Forall_cons; [now left|]; apply Forall_cons; [now right|]; apply Forall_nil|].
        split; [reflexivity|]. split; [eauto|]. split; discriminate.
      * destruct (distinct_emails ds);
          exists [ServerInfo; CreateIndex]; cbn; rewrite <- app_assoc;
          (split; [reflexivity|];
           split; [apply Forall_cons; [now left|]; apply Forall_cons; [now right|]; apply Forall_nil|];
           split; [reflexivity|]; split; [eauto|]; split; discriminate).
Qed.

End SaveFacts.

(* ================================================================== *)
(** * Frames of the persistence gateway *)
(* ================================================================== *)

Section StoreMore.

Import Mongo MongoProps.

Lemma replace_first_other email d' ds : forall i d,
  nth_error ds i = Some d -> matches email d = false ->
  nth_error (replace_first email d' ds) i = Some d.
Proof.
  induction ds as [|d0 ds IH]; intros i d Hi Hm; [now destruct i|].
  simpl. destruct (matches email d0) eqn:E0.
  - destruct i as [|i]; simpl in *; [congruence | exact Hi].
  - destruct i as [|i]; simpl in *; [exact Hi | now apply IH].
Qed.

Lemma update_docs_others index ds oid email u upsert ds' oid' :
  update_docs index ds oid email u upsert = inr (ds', oid') ->
  forall i d, nth_error ds i = Some d -> matches email d = false ->
    nth_error ds' i = Some d.
Proof.
  unfold update_docs. destruct (conflicting u); [discriminate|].
  destruct (find (matches email) ds) as [d0|].
  - destruct (modified u d0) as [e|d1]; [discriminate|].
    destruct (_ && _ && _); [discriminate|]. intros [= <- <-] i d Hi Hm.
    now apply replace_first_other.
  - destruct upsert.
    + destruct (inserted email u) as [e|d0]; [discriminate|].
      destruct (_ || _); [discriminate|]. intros [= <- <-] i d Hi _.
      rewrite nth_error_app1; [exact Hi|]. apply nth_error_Some. congruence.
    + now intros [= <- <-].
Qed.

Lemma update_docs_found index ds oid email u upsert ds' oid' d :
  update_docs index ds oid email u upsert = inr (ds', oid') ->
  find (matches email) ds = Some d ->
  exists d', modified u d = inr d' /\ ds' = replace_first email d' ds.
Proof.
  unfold update_docs. destruct (conflicting u); [discriminate|].
  intros H Hd. rewrite Hd in H.
  destruct (modified u d) as [e|d1]; [discriminate|].
  destruct (_ && _ && _); [discriminate|]. injection H as <- <-. eauto.
Qed.

Lemma modified_fields u d d' :
  modified u d = inr d' ->
  forall k, ~ In k (dict_keys (u_set u)) -> ~ In k (dict_keys (u_push u)) ->
    dict_get k d' = dict_get k d.
Proof.
  unfold modified. destruct (push_fields (u_push u) (set_fields (u_set u) d)) as [e|d1] eqn:E;
    [discriminate|].
  destruct (_ && _); [discriminate|]. intros [= <-] k Hs Hp.
  rewrite (push_fields_get_other _ _ _ _ E Hp). now apply set_fields_get_other.
Qed.

End StoreMore.

Section KeepFacts.

Import Mongo MongoProps.

Variable clock : nat -> Z.
Variable fault : nat -> option exn.
Variable py_str : bson -> string.
Variable format_exc : exn -> string.

Local Abbreviation update_one := (Mongo.update_one fault).
Local Abbreviation upsert_candidate := (Mongo.upsert_candidate clock fault).
Local Abbreviation add_answer := (Mongo.add_answer clock fault).
Local Abbreviation push_answer := (Mongo.push_answer clock fault).
Local Abbreviation push_answers := (Mongo.push_answers clock fault).
Local Abbreviation save_body := (Mongo.save_body clock fault py_str).
Local Abbreviation save := (Mongo.save_candidate_and_answers clock fault py_str format_exc).

(** A relation between the world before and after a computation that
    only looks at the documents and composes. *)
Variable R : world -> world -> Prop.
Hypothesis R_docs : forall w w', docs w' = docs w -> R w w'.
Hypothesis R_trans : forall w1 w2 w3, R w1 w2 -> R w2 w3 -> R w1 w3.

Lemma bind_keeps {A B : Type} (c : M A) (k : A -> M B) :
  (forall w, R w (snd (c w))) ->
  (forall x w, R w (snd (k x w))) ->
  forall w, R w (snd (bind c k w)).
Proof.
  intros Hc Hk w. unfold bind. specialize (Hc w).
  destruct (c w) as [[e|x] w1]; simpl in *; [exact Hc|].
  exact (R_trans _ _ _ Hc (Hk x w1)).
Qed.

Lemma try_keeps {A : Type} (c : M A) (h : exn -> M A) :
  (forall w, R w (snd (c w))) ->
  (forall e w, R w (snd (h e w))) ->
  forall w, R w (snd (try_except c h w)).
Proof.
  intros Hc Hh w. unfold try_except. specialize (Hc w).
  destruct (c w) as [[e|x] w1]; simpl in *; [|exact Hc].
  exact (R_trans _ _ _ Hc (Hh e w1)).
Qed.

Lemma bind_ret {A B : Type} (x : A) (k : A -> M B) w : bind (ret x) k w = k x w.
Proof. reflexivity. Qed.

Lemma bind_raise {A B : Type} e (k : A -> M B) w : bind (raise e) k w = (inl e, w).
Proof. reflexivity. Qed.

Lemma ret_keeps {A : Type} (x : A) w : R w (snd (ret x w)).
Proof. now apply R_docs. Qed.

Lemma raise_keeps {A : Type} e w : R w (snd (@raise A e w)).
Proof. now apply R_docs. Qed.

Lemma lift_keeps {A : Type} (r : exn + A) w : R w (snd (lift r w)).
Proof. destruct r; now apply R_docs. Qed.

Lemma utcnow_keeps w : R w (snd (utcnow clock w)).
Proof. apply R_docs. now destruct w. Qed.

Lemma find_one_keeps email w : R w (snd (find_one fault email w)).
Proof.
  apply R_docs. rewrite find_one_run. destruct (fault (length (log w))); now destruct w.
Qed.

Lemma normalize_keeps raw w : R w (snd (_normalize_answer_input clock raw w)).
Proof. apply R_docs. rewrite normalize_run. now destruct w. Qed.

Lemma init_step_keeps w :
  R w (snd ((fun w =>
              if db_wrapper w then (inr tt, w)
              else
                try_except (init_mongo fault)
                  (fun e =>
                     raise (Raise ConnectionError
                              ("MongoDB not initialized and auto-init failed: "
                                 ++ exn_msg e))) w) w)).
Proof.
  apply R_docs. simpl. destruct (db_wrapper w) eqn:Hw; [reflexivity|].
  destruct (init_mongo_effect fault w Hw) as (calls & _ & _ & Hd & _).
  unfold try_except. destruct (init_mongo fault w) as [[e|[]] w1]; exact Hd.
Qed.

Section ForEmail.

Variable email : string.

(** The two updates that a save sends keep [R]. *)
Hypothesis R_answer : forall t a flag w,
  R w (snd (update_one email (answer_update clock t a) flag w)).

Lemma add_answer_keeps a flag w : R w (snd (add_answer email a flag w)).
Proof.
  rewrite add_answer_run.
  apply (R_trans _ (with_tick (with_tick w))); [apply R_docs; now destruct w|].
  apply R_answer.
Qed.

Lemma push_answer_keeps raw w : R w (snd (push_answer email raw w)).
Proof.
  unfold Mongo.push_answer. apply bind_keeps.
  - apply normalize_keeps.
  - intros norm w1. apply add_answer_keeps.
Qed.

Lemma push_answers_keeps answers_list : forall w,
  R w (snd (push_answers email answers_list w)).
Proof.
  induction answers_list as [|raw rest IH]; intros w; cbn [Mongo.push_answers].
  - apply ret_keeps.
  - apply bind_keeps; [apply push_answer_keeps | intros _; exact IH].
Qed.

Hypothesis R_profile : forall c profile t w,
  build_profile c email = inr profile ->
  R w (snd (update_one email (profile_update clock t profile) true w)).

Lemma upsert_candidate_keeps c profile w :
  build_profile c email = inr profile ->
  R w (snd (upsert_candidate email profile w)).
Proof.
  intros Hp. rewrite upsert_candidate_run.
  apply (R_trans _ (with_tick (with_tick w))); [apply R_docs; now destruct w|].
  now apply (R_profile c).
Qed.

Lemma save_tail_keeps answers_list w :
  R w (snd ((push_answers email answers_list ;;;
             found <- get_candidate_by_email fault email ;;
             match found with
             | None => raise (Raise RuntimeError "Failed to retrieve candidate after save.")
             | Some [] => raise (Raise RuntimeError "Failed to retrieve candidate after save.")
             | Some d => ret (py_str (bget "_id" d))
             end) w)).
Proof.
  apply bind_keeps; [apply push_answers_keeps|].
  intros _ w2. apply bind_keeps; [apply find_one_keeps|].
  intros [[|kv d]|] w3; first [apply raise_keeps | apply ret_keeps].
Qed.

Lemma save_body_keeps c profile answers_list w :
  build_profile c email = inr profile ->
  R w (snd (save_body email profile answers_list w)).
Proof.
  intros Hp. unfold Mongo.save_body. apply bind_keeps.
  - intros w0. now apply (upsert_candidate_keeps c).
  - intros _ w1. apply save_tail_keeps.
Qed.

Lemma save_keeps c answers_list w :
  bstrip (email_lookup c) = inr email ->
  R w (snd (save (BDict c) answers_list w)).
Proof.
  intros He. unfold Mongo.save_candidate_and_answers.
  apply bind_keeps; [apply init_step_keeps|]. intros _ w1.
  rewrite He. change (lift (inr email)) with (@ret string email).
  rewrite bind_ret. destruct (nonempty email); [|apply raise_keeps].
  destruct (build_profile c email) as [e|profile] eqn:Hp.
  - change (lift (inl e)) with (@raise doc e). rewrite bind_raise. apply raise_keeps.
  - change (lift (inr profile)) with (@ret doc profile). rewrite bind_ret.
    apply try_keeps; [|intros ex w2; apply raise_keeps].
    intros w2. now apply (save_body_keeps c).
Qed.

End ForEmail.

End KeepFacts.

Section SaveFrames.

Import Mongo MongoProps.

Variable clock : nat -> Z.
Variable fault : nat -> option exn.
Variable py_str : bson -> string.
Variable format_exc : exn -> string.

Local Abbreviation update_one := (Mongo.update_one fault).
Local Abbreviation save_body := (Mongo.save_body clock fault py_str).
Local Abbreviation save := (Mongo.save_candidate_and_answers clock fault py_str format_exc).

Lemma others_kept_docs email w w' : docs w' = docs w -> others_kept email w w'.
Proof. intros H i d Hi _. now rewrite H. Qed.

Lemma others_kept_trans email w1 w2 w3 :
  others_kept email w1 w2 -> others_kept email w2 w3 -> others_kept email w1 w3.
Proof. intros H12 H23 i d Hi Hm. apply H23; [|exact Hm]. now apply H12. Qed.

Lemma update_one_others email u upsert w :
  others_kept email w (snd (update_one email u upsert w)).
Proof.
  destruct (update_one_docs fault email u upsert w) as [H|[n H]].
  - now apply others_kept_docs.
  - intros i d Hi Hm. exact (update_docs_others _ _ _ _ _ _ _ _ H i d Hi Hm).
Qed.

Lemma candidate_kept_docs touched email w w' :
  docs w' = docs w -> candidate_kept touched email w w'.
Proof. intros H d Hd. rewrite H. split; [reflexivity|]. exists d. now split. Qed.

Lemma candidate_kept_trans touched email w1 w2 w3 :
  candidate_kept touched email w1 w2 -> candidate_kept touched email w2 w3 ->
  candidate_kept touched email w1 w3.
Proof.
  intros H12 H23 d Hd. destruct (H12 d Hd) as (Hl & d2 & Hd2 & Hk2).
  destruct (H23 d2 Hd2) as (Hl' & d3 & Hd3 & Hk3).
  split; [congruence|]. exists d3. split; [exact Hd3|].
  intros k Hk. now rewrite Hk3, Hk2.
Qed.

Lemma candidate_kept_more touched touched' email w w' :
  incl touched touched' ->
  candidate_kept touched email w w' -> candidate_kept touched' email w w'.
Proof.
  intros Hincl H d Hd. destruct (H d Hd) as (Hl & d' & Hd' & Hk).
  split; [exact Hl|]. exists d'. split; [exact Hd'|].
  intros k Hn. apply Hk. intros Hin. apply Hn, Hincl, Hin.
Qed.

Lemma update_one_candidate_kept touched email u upsert w :
  (forall k, In k (dict_keys (u_set u)) \/ In k (dict_keys (u_push u)) -> In k touched) ->
  (forall d d', dict_get "email" d = Some (BStr email) -> modified u d = inr d' ->
                dict_get "email" d' = Some (BStr email)) ->
  candidate_kept touched email w (snd (update_one email u upsert w)).
Proof.
  intros Hkeys Hemail.
  destruct (update_one_docs fault email u upsert w) as [H|[n H]].
  - now apply candidate_kept_docs.
  - intros d Hd. destruct (update_docs_found _ _ _ _ _ _ _ _ _ H Hd) as (d' & Hm & Hds).
    rewrite Hds, length_replace_first. split; [reflexivity|]. exists d'.
    assert (Hmd : matches email d = true) by (apply find_some in Hd; tauto).
    split.
    + apply (find_replace_first _ _ _ d Hd). apply matches_get.
      apply (Hemail d); [now apply matches_get | exact Hm].
    + intros k Hk. apply (modified_fields _ _ _ Hm); intros Hin; apply Hk, Hkeys; tauto.
Qed.

Lemma answer_update_kept email t a flag w :
  candidate_kept answer_fields email w
    (snd (update_one email (answer_update clock t a) flag w)).
Proof.
  apply update_one_candidate_kept.
  - simpl. unfold answer_fields. simpl. tauto.
  - intros d d' Hd Hm. rewrite <- Hd. apply (modified_fields _ _ _ Hm); simpl;
      intros [H|[]]; discriminate H.
Qed.

Lemma profile_update_kept email c profile t w :
  build_profile c email = inr profile ->
  candidate_kept saved_fields email w
    (snd (update_one email (profile_update clock t profile) true w)).
Proof.
  intros Hp.
  destruct (build_profile_shape _ _ _ Hp) as (name & phone & position & meta & tech & ->).
  apply update_one_candidate_kept.
  - simpl. unfold saved_fields. simpl. tauto.
  - intros d d' _. unfold modified. simpl. intros [= <-].
    rewrite !dict_get_set_other by discriminate.
    apply dict_get_set_same.
Qed.

Lemma save_candidate_kept c answers_list w email :
  bstrip (email_lookup c) = inr email ->
  candidate_kept saved_fields email w (snd (save (BDict c) answers_list w)).
Proof.
  apply (save_keeps clock fault py_str format_exc (candidate_kept saved_fields email)).
  - apply candidate_kept_docs.
  - apply candidate_kept_trans.
  - intros t a flag w0. apply (candidate_kept_more answer_fields).
    + intros k [<-|[<-|[]]]; unfold saved_fields; simpl; tauto.
    + apply answer_update_kept.
  - intros c0 profile t w0 Hp. now apply (profile_update_kept _ c0).
Qed.

Lemma save_body_result email profile answers_list w s w' :
  save_body email profile answers_list w = (inr s, w') ->
  exists d, find (matches email) (docs w') = Some d /\ s = py_str (bget "_id" d).
Proof.
  unfold Mongo.save_body, bind.
  destruct (Mongo.upsert_candidate clock fault email profile w) as [[e|[]] w1];
    [discriminate|].
  destruct (Mongo.push_answers clock fault email answers_list w1) as [[e|[]] w2];
    [discriminate|].
  unfold get_candidate_by_email. rewrite find_one_run.
  destruct (fault (length (log w2))); [discriminate|].
  destruct (find (matches email) (docs w2)) as [[|kv d]|] eqn:F; try discriminate.
  unfold ret. intros [= <- <-]. exists (kv :: d). split; [|reflexivity].
  destruct w2; exact F.
Qed.

Lemma save_result c answers_list w email s w' :
  bstrip (email_lookup c) = inr email ->
  save (BDict c) answers_list w = (inr s, w') ->
  exists d, find (matches email) (docs w') = Some d /\ s = py_str (bget "_id" d).
Proof.
  intros He. unfold Mongo.save_candidate_and_answers. unfold bind at 1.
  match goal with |- context [if db_wrapper w then ?a else ?b] =>
    destruct (if db_wrapper w then a else b) as [[e|[]] w1] end; [discriminate|].
  rewrite He. change (lift (inr email)) with (@ret string email). rewrite bind_ret.
  destruct (nonempty email); [|discriminate].
  destruct (build_profile c email) as [e|profile]; [discriminate|].
  change (lift (inr profile)) with (@ret doc profile). rewrite bind_ret.
  unfold try_except.
  destruct (save_body email profile answers_list w1) as [[e|s'] w2] eqn:Hb;
    [discriminate|].
  intros [= <- <-]. exact (save_body_result _ _ _ _ _ _ Hb).
Qed.

End SaveFrames.

Section GatewayLemmas.

Import Mongo MongoProps.

Variable clock : nat -> Z.
Variable fault : nat -> option exn.

Local Abbreviation upsert_candidate := (Mongo.upsert_candidate clock fault).
Local Abbreviation profile_update := (Mongo.profile_update clock).

Lemma setdefault_keeps {V : Type} k k' (v v' : V) d :
  dict_get k d = Some v -> dict_get k (dict_setdefault k' v' d) = Some v.
Proof.
  intros H. unfold dict_setdefault. destruct (dict_mem k' d); [exact H|].
  now apply dict_get_app_some.
Qed.

Lemma setdefault_get_same {V : Type} k (v : V) d :
  dict_get k (dict_setdefault k v d)
  = match dict_get k d with Some x => Some x | None => Some v end.
Proof.
  unfold dict_setdefault, dict_mem. destruct (dict_get k d) eqn:E; [exact E|].
  rewrite (dict_get_app_none _ _ _ E). simpl. now rewrite String.eqb_refl.
Qed.

Lemma setdefault_get_other {V : Type} k k' (v : V) d :
  k <> k' -> dict_get k (dict_setdefault k' v d) = dict_get k d.
Proof.
  intros Hne. unfold dict_setdefault. destruct (dict_mem k' d); [reflexivity|].
  destruct (dict_get k d) eqn:E.
  - now apply dict_get_app_some.
  - rewrite (dict_get_app_none _ _ _ E). simpl.
    destruct (String.eqb k k') eqn:E'; [|reflexivity].
    apply String.eqb_eq in E'. contradiction.
Qed.

Lemma default_fields_keeps raw k v :
  dict_get k raw = Some v -> dict_get k (default_fields raw) = Some v.
Proof. intros H. unfold default_fields. now repeat apply setdefault_keeps. Qed.

Lemma upsert_missing email name phone position meta tech w :
  fault (length (log w)) = None ->
  find (matches email) (docs w) = None ->
  upsert_candidate email
    [("name", BStr name); ("email", BStr email); ("phone", BStr phone);
     ("position", position); ("meta", meta); ("tech_stack", tech)] w
  = (inr tt,
     with_docs
       (docs w ++ [[("_id", BOid (next_oid w)); ("email", BStr email);
                    ("name", BStr name); ("phone", BStr phone);
                    ("position", position); ("meta", meta); ("tech_stack", tech);
                    ("updated_at", BDate (clock (ticks w)));
                    ("created_at", BDate (clock (S (ticks w))))]])%list
       (next_oid w + 1)%Z
       (with_call
          (UpdateOne email
             (profile_update (ticks w)
                [("name", BStr name); ("email", BStr email); ("phone", BStr phone);
                 ("position", position); ("meta", meta); ("tech_stack", tech)]) true)
          (with_tick (with_tick w)))).
Proof.
  intros Hf Hd. rewrite upsert_candidate_run, update_one_run.
  replace (fault (length (log (with_tick (with_tick w))))) with (@None exn)
    by (now destruct w).
  replace (docs (with_tick (with_tick w))) with (docs w) by (now destruct w).
  replace (next_oid (with_tick (with_tick w))) with (next_oid w) by (now destruct w).
  unfold update_docs. rewrite Hd.
  cbn -[has_email_key Z.add].
  rewrite (find_none_has_email_key _ _ Hd), andb_false_r. reflexivity.
Qed.

End GatewayLemmas.

(* ================================================================== *)
(** * The claims about [save_candidate_and_answers] *)
(* ================================================================== *)

Section SaveClaims.

Import Mongo MongoProps.

Variable clock : nat -> Z.
Variable fault : nat -> option exn.
Variable py_str : bson -> string.
Variable format_exc : exn -> string.

Local Abbreviation upsert_candidate := (Mongo.upsert_candidate clock fault).
Local Abbreviation profile_update := (Mongo.profile_update clock).
Local Abbreviation normalize_at := (Mongo.normalize_at clock).
Local Abbreviation records_from := (Mongo.records_from clock).
Local Abbreviation push_calls := (Mongo.push_calls clock).
Local Abbreviation push_answers := (Mongo.push_answers clock fault).
Local Abbreviation save_body := (Mongo.save_body clock fault py_str).
Local Abbreviation save := (Mongo.save_candidate_and_answers clock fault py_str format_exc).
Local Abbreviation save_failure := (Mongo.save_failure format_exc).
Local Abbreviation expected_record := (Mongo.expected_record clock).
Local Abbreviation expected_records := (Mongo.expected_records clock).
Local Abbreviation expected_pushes := (Mongo.expected_pushes clock).
Local Abbreviation expected_requests := (Mongo.expected_requests clock).
Local Abbreviation profile_set := (Mongo.profile_set clock).
Local Abbreviation after_init := (Mongo.after_init fault).
Local Abbreviation reachable := (Mongo.reachable fault).

Implicit Types (w : world) (d : doc) (email : string).

(** ** The email and the profile *)

Lemma email_lookup_first c :
  email_lookup c
  = match first_truthy_field email_keys c with Some v => v | None => BStr "" end.
Proof.
  unfold email_lookup, email_keys, bor; simpl.
  destruct (btruthy (bget "email" c)) eqn:E1;
    [repeat (simpl; rewrite ?E1); reflexivity|].
  destruct (btruthy (bget "Email" c)) eqn:E2;
    [repeat (simpl; rewrite ?E2); reflexivity|].
  destruct (btruthy (bget "email_address" c)) eqn:E3;
    [repeat (simpl; rewrite ?E3); reflexivity|].
  reflexivity.
Qed.

Lemma has_email_lookup c email :
  has_email c email -> bstrip (email_lookup c) = inr email /\ nonempty email = true.
Proof.
  intros (s & Hs & <- & Hne). rewrite email_lookup_first, Hs. split; [reflexivity|].
  now apply nonempty_neq.
Qed.

Lemma no_email_lookup c : no_email c -> bstrip (email_lookup c) = inr "".
Proof.
  intros [H|(s & H & Hw)]; rewrite email_lookup_first, H; simpl; [reflexivity|].
  apply white_strip in Hw. now rewrite Hw.
Qed.

Lemma either_field_get k1 k2 default c :
  bget_default k1 (bget_default k2 default c) c = either_field k1 k2 default c.
Proof.
  unfold bget_default, either_field.
  destruct (dict_get k1 c), (dict_get k2 c); reflexivity.
Qed.

Lemma build_profile_explicit c email name phone :
  either_field "name" "full_name" (BStr "") c = BStr name ->
  either_field "phone" "phone_number" (BStr "") c = BStr phone ->
  build_profile c email
  = inr [("name", BStr (strip name));
         ("email", BStr email);
         ("phone", BStr (strip phone));
         ("position", either_field "position" "desired_position" (BStr "") c);
         ("meta", field_or "meta" (BDict [("status", BStr "in_progress")]) c);
         ("tech_stack", field_or "tech_stack" (BList []) c)].
Proof.
  intros Hn Hp. unfold build_profile. rewrite !either_field_get, Hn, Hp. reflexivity.
Qed.

(** ** The records *)

Lemma default_fields_get raw :
  bget "question_id" (default_fields raw)
    = field_or "question_id" (bor (bget "qid" raw) BNone) raw
  /\ bget "question" (default_fields raw)
     = field_or "question" (bor (bget "q" raw) (BStr "")) raw
  /\ bget "answer" (default_fields raw)
     = field_or "answer" (bor (bget "response" raw) (BStr "")) raw
  /\ bget "tech" (default_fields raw) = field_or "tech" (BStr "General") raw
  /\ bget "score" (default_fields raw) = field_or "score" BNone raw
  /\ dict_get "timestamp" (default_fields raw) = dict_get "timestamp" raw.
Proof.
  unfold default_fields, bget, bget_default, field_or. repeat split.
  - rewrite !(setdefault_get_other "question_id") by discriminate.
    rewrite setdefault_get_same.
    destruct (dict_get "question_id" raw); [reflexivity|]. reflexivity.
  - rewrite !(setdefault_get_other "question") by discriminate.
    rewrite setdefault_get_same.
    rewrite !(setdefault_get_other "question") by discriminate.
    rewrite !(setdefault_get_other "q") by discriminate.
    destruct (dict_get "question" raw); reflexivity.
  - rewrite !(setdefault_get_other "answer") by discriminate.
    rewrite setdefault_get_same.
    rewrite !(setdefault_get_other "answer") by discriminate.
    rewrite !(setdefault_get_other "response") by discriminate.
    destruct (dict_get "answer" raw); reflexivity.
  - rewrite !(setdefault_get_other "tech") by discriminate.
    rewrite setdefault_get_same.
    rewrite !(setdefault_get_other "tech") by discriminate.
    destruct (dict_get "tech" raw); reflexivity.
  - rewrite setdefault_get_same.
    rewrite !(setdefault_get_other "score") by discriminate.
    destruct (dict_get "score" raw); reflexivity.
  - now rewrite !(setdefault_get_other "timestamp") by discriminate.
Qed.

(** The record made of one answer, and the readings of the clock that
    its normalisation takes. *)
Lemma normalized_record t raw :
  BDict (ans_doc (fst (normalize_at t raw))) = expected_record t raw
  /\ snd (normalize_at t raw) = (t + reads_clock raw)%nat.
Proof.
  destruct (default_fields_get raw) as (H1 & H2 & H3 & H4 & H5 & H6).
  assert (Hts : bget "timestamp" (default_fields raw) = bget "timestamp" raw).
  { unfold bget. now rewrite H6. }
  unfold Mongo.normalize_at, reads_clock. rewrite Hts.
  assert (Hother : forall k v,
            k <> "timestamp" ->
            bget k (dict_setdefault "timestamp" v (default_fields raw))
            = bget k (default_fields raw)).
  { intros k v Hk. unfold bget. now rewrite setdefault_get_other. }
  destruct (btruthy (bget "timestamp" raw)) eqn:Et; cbn [fst snd]; (split; [|lia]);
    unfold Mongo.expected_record, ans_doc;
    rewrite !Hother by discriminate; rewrite H1, H2, H3, H4, H5;
    do 2 f_equal; repeat f_equal;
    unfold bget at 1; rewrite setdefault_get_same, H6; unfold field_or, bget in *;
    destruct (dict_get "timestamp" raw); try reflexivity; discriminate Et.
Qed.

Lemma records_expected answers_list : forall t,
  records_from t answers_list = expected_records t answers_list.
Proof.
  induction answers_list as [|raw rest IH]; intros t; [reflexivity|].
  cbn [Mongo.records_from Mongo.expected_records].
  destruct (normalized_record t raw) as [-> ->]. f_equal.
  rewrite IH. f_equal. lia.
Qed.

Lemma pushes_expected email answers_list : forall t,
  push_calls email t answers_list = expected_pushes email t answers_list.
Proof.
  induction answers_list as [|raw rest IH]; intros t; [reflexivity|].
  cbn [Mongo.push_calls Mongo.expected_pushes].
  destruct (normalized_record t raw) as [Hr Ht]. rewrite Ht. f_equal.
  - unfold answer_update. rewrite stamped_ans_doc, Hr. do 3 f_equal.
    repeat f_equal. lia.
  - rewrite IH. f_equal. lia.
Qed.

Lemma length_expected_records answers_list : forall t,
  length (expected_records t answers_list) = length answers_list.
Proof.
  induction answers_list as [|raw rest IH]; intros t; simpl; [reflexivity|].
  now rewrite IH.
Qed.

Lemma length_expected_pushes email answers_list : forall t,
  length (expected_pushes email t answers_list) = length answers_list.
Proof.
  induction answers_list as [|raw rest IH]; intros t; simpl; [reflexivity|].
  now rewrite IH.
Qed.

(** ** The lazy initialisation *)

Local Abbreviation init_step :=
  (fun w =>
     if db_wrapper w then (inr tt, w)
     else
       try_except (init_mongo fault)
         (fun e =>
            raise (Raise ConnectionError
                     ("MongoDB not initialized and auto-init failed: " ++ exn_msg e))) w).

Lemma init_step_reachable w : reachable w -> init_step w = (inr tt, after_init w).
Proof.
  destruct w as [ds idx oid t lg inst wr].
  unfold Mongo.reachable, Mongo.after_init. simpl.
  destruct wr; [reflexivity|]. destruct inst; [reflexivity|].
  intros [H|[H|H]]; try discriminate.
  cbv [init_mongo get_db connect _ensure_indexes round_trip try_except bind raise ret
       with_call with_instance with_wrapper with_index
       docs log db_instance db_wrapper email_index next_oid ticks].
  rewrite H. rewrite length_app, Nat.add_1_r. simpl.
  destruct (fault (S (length lg))); [now rewrite <- app_assoc|].
  destruct (distinct_emails ds); now rewrite <- app_assoc.
Qed.

Lemma init_step_unreachable w e :
  db_wrapper w = false -> db_instance w = false ->
  fault (length (log w)) = Some e ->
  exists m,
    init_step w = (inl (Raise ConnectionError m), with_call ServerInfo w)
    /\ m = "MongoDB not initialized and auto-init failed: Failed to initialize MongoDB: "
             ++ (match exn_kind e with
                 | ServerSelectionTimeoutError => "Could not connect to MongoDB: " ++ exn_msg e
                 | _ => exn_msg e
                 end).
Proof.
  destruct w as [ds idx oid t lg inst wr]. simpl. intros -> -> Hf.
  cbv [init_mongo get_db connect _ensure_indexes round_trip try_except bind raise ret
       with_call with_instance with_wrapper with_index
       docs log db_instance db_wrapper email_index next_oid ticks].
  rewrite Hf. destruct e as [[] m]; cbn; eexists; split; reflexivity.
Qed.

Lemma after_init_fields w :
  db_wrapper (after_init w) = true
  /\ docs (after_init w) = docs w
  /\ ticks (after_init w) = ticks w
  /\ next_oid (after_init w) = next_oid w
  /\ exists calls, log (after_init w) = (log w ++ calls)%list /\ Forall connection_call calls.
Proof.
  unfold Mongo.after_init. destruct (db_wrapper w) eqn:Hw.
  - repeat split; auto. exists []. now rewrite app_nil_r.
  - destruct (db_instance w); simpl.
    + repeat split; auto. exists []. now rewrite app_nil_r.
    + repeat split; auto. exists [ServerInfo; CreateIndex]. split; [reflexivity|].
      apply Forall_cons; [now left|]. apply Forall_cons; [now right|]. apply Forall_nil.
Qed.

Lemma after_init_initialised w : db_wrapper w = true -> after_init w = w.
Proof. unfold Mongo.after_init. now intros ->. Qed.

(** A save whose initialisation succeeds goes on as a save that starts
    initialised. *)
Lemma save_after_init candidate answers_list w :
  reachable w ->
  save candidate answers_list w = save candidate answers_list (after_init w).
Proof.
  intros Hr. unfold Mongo.save_candidate_and_answers, bind.
  rewrite (init_step_reachable w Hr).
  destruct (after_init_fields w) as (Hw & _). now rewrite Hw.
Qed.

(** ** The three phases *)

Local Abbreviation profile_of c email name phone :=
  [("name", BStr (strip name));
   ("email", BStr email);
   ("phone", BStr (strip phone));
   ("position", either_field "position" "desired_position" (BStr "") c);
   ("meta", field_or "meta" (BDict [("status", BStr "in_progress")]) c);
   ("tech_stack", field_or "tech_stack" (BList []) c)].

Local Abbreviation profile_request c email name phone t :=
  (UpdateOne email
     (Update (profile_set c email name phone t) [("created_at", BDate (clock (S t)))] [])
     true).

Lemma profile_of_nodup c email name phone :
  NoDup (dict_keys (profile_of c email name phone)).
Proof. simpl. repeat (constructor; [simpl; intuition discriminate|]). constructor. Qed.

Lemma upsert_profile_fault c email name phone w e :
  fault (length (log w)) = Some e ->
  upsert_candidate email (profile_of c email name phone) w
  = (inl e, with_call (profile_request c email name phone (ticks w)) (with_tick (with_tick w))).
Proof.
  intros Hf. rewrite upsert_candidate_run, update_one_run. simpl. now rewrite Hf.
Qed.

(** The upsert that reaches the server: the document found afterwards
    holds the profile, and the stored answers are as they were. *)
Lemma upsert_profile_ok c email name phone w :
  fault (length (log w)) = None ->
  exists w1 d1,
    upsert_candidate email (profile_of c email name phone) w = (inr tt, w1)
    /\ ticks w1 = S (S (ticks w))
    /\ find (matches email) (docs w1) = Some d1
    /\ profile_stored c email name phone d1
    /\ stored_answers email (docs w1) = stored_answers email (docs w)
    /\ log w1 = (log w ++ [profile_request c email name phone (ticks w)])%list.
Proof.
  intros Hf.
  pose proof (profile_of_nodup c email name phone) as Hnd.
  assert (He : bget_default "email" (BStr email) (profile_of c email name phone)
               = BStr email) by reflexivity.
  destruct (upsert_candidate_returns clock fault email _ w Hnd eq_refl eq_refl He Hf)
    as [w1 Hrun].
  destruct (upsert_candidate_accepted clock fault email _ w w1 Hnd He Hrun)
    as (Ht & d1 & Hf1 & _ & _ & Hs & Hl).
  exists w1, d1. split; [exact Hrun|]. split; [exact Ht|]. split; [exact Hf1|].
  split; [|split; [exact Hs | exact Hl]].
  destruct (find (matches email) (docs w)) as [d0|] eqn:E0.
  - revert Hrun. rewrite upsert_candidate_run, update_one_run. simpl. rewrite Hf.
    destruct (update_docs _ _ _ _ _ _) as [e|[ds n]] eqn:Hud; [discriminate|].
    intros [= <-]. simpl in Hf1.
    destruct (update_docs_profile _ _ _ _ _ _ _ _ _ Hud
                (profile_keeps_email clock (ticks w) _ email Hnd He)
                (profile_sets_updated_at clock (ticks w) _ Hnd))
      as (d1' & Hf1' & _ & Hd0 & _).
    rewrite Hf1 in Hf1'. injection Hf1' as <-. rewrite (Hd0 d0 E0).
    assert (Hnd' : NoDup (dict_keys (profile_set c email name phone (ticks w)))).
    { simpl. repeat (constructor; [simpl; intuition discriminate|]). constructor. }
    unfold profile_stored.
    repeat split; apply set_fields_get_in; try exact Hnd'; reflexivity.
  - rewrite (upsert_missing clock fault email _ _ _ _ _ w Hf E0) in Hrun.
    injection Hrun as <-. simpl in Hf1.
    rewrite find_app_none in Hf1; [|exact E0|].
    + injection Hf1 as <-. unfold profile_stored. repeat split; reflexivity.
    + apply matches_get. reflexivity.
Qed.

(** The pushes leave the profile of the document as it is. *)
Lemma push_answers_profile c email name phone answers_list w d d' :
  find (matches email) (docs w) = Some d ->
  profile_stored c email name phone d ->
  find (matches email) (docs (snd (push_answers email answers_list w))) = Some d' ->
  profile_stored c email name phone d'.
Proof.
  intros Hd Hp Hd'.
  pose proof (push_answers_keeps clock fault
                (candidate_kept answer_fields email)
                (candidate_kept_docs answer_fields email)
                (candidate_kept_trans answer_fields email) email
                (fun t a flag w => answer_update_kept clock fault email t a flag w)
                answers_list w d Hd) as (_ & d2 & Hd2 & Hsame).
  rewrite Hd' in Hd2. injection Hd2 as <-.
  unfold profile_stored in *.
  rewrite !Hsame by (unfold answer_fields; simpl; intuition discriminate).
  exact Hp.
Qed.

(** The [try] block when every request reaches the server. *)
Lemma save_body_success c email name phone answers_list w old :
  stored_answers email (docs w) = Some old ->
  (forall i, (i < length answers_list + 2)%nat -> fault (length (log w) + i) = None) ->
  exists w' d,
    save_body email (profile_of c email name phone) answers_list w
    = (inr (py_str (bget "_id" d)), w')
    /\ find (matches email) (docs w') = Some d
    /\ answers_of d = Some (old ++ expected_records (S (S (ticks w))) answers_list)%list
    /\ profile_stored c email name phone d
    /\ log w' = (log w ++ expected_requests c email name phone (ticks w) answers_list)%list.
Proof.
  intros Hs Hnf.
  destruct (upsert_profile_ok c email name phone w)
    as (w1 & d1 & Hrun1 & Ht1 & Hf1 & Hp1 & Hs1 & Hl1).
  { rewrite <- (Nat.add_0_r (length (log w))). apply Hnf. lia. }
  assert (Ha1 : answers_of d1 = Some old).
  { rewrite Hs in Hs1. unfold stored_answers in Hs1. now rewrite Hf1 in Hs1. }
  assert (Hnf1 : forall i, (i < length answers_list)%nat ->
                           fault (length (log w1) + i) = None).
  { intros i Hi. rewrite Hl1, length_app. simpl.
    replace (length (log w) + 1 + i)%nat with (length (log w) + S i)%nat by lia.
    apply Hnf. lia. }
  destruct (push_answers_ok clock fault email answers_list w1 d1 old Hnf1 Hf1 Ha1)
    as (w2 & d2 & Hrun2 & Hf2 & Ha2 & Hl2).
  assert (Hp2 : profile_stored c email name phone d2).
  { apply (push_answers_profile c email name phone answers_list w1 d1 d2 Hf1 Hp1).
    now rewrite Hrun2. }
  unfold Mongo.save_body, bind. rewrite Hrun1, Hrun2.
  unfold get_candidate_by_email. rewrite find_one_run.
  assert (Hlen : length (log w2) = (length (log w) + S (length answers_list))%nat).
  { rewrite Hl2, Hl1, !length_app, pushes_expected, length_expected_pushes. simpl. lia. }
  rewrite Hlen, Hnf by lia. rewrite Hf2.
  assert (Hne : d2 <> []).
  { intros ->. pose proof (proj2 (find_some _ _ Hf2)) as Hm. discriminate Hm. }
  destruct d2 as [|kv d2]; [now elim Hne|].
  exists (with_call (FindOne email) w2), (kv :: d2).
  split; [reflexivity|]. simpl. split; [exact Hf2|]. split; [|split; [exact Hp2|]].
  - rewrite Ha2, Ht1, records_expected. reflexivity.
  - rewrite Hl2, Hl1, Ht1, pushes_expected, <- !app_assoc. reflexivity.
Qed.

(** The [try] block when the request at position [j] (the upsert at 0,
    the push of answer [j - 1], or the re-read after the last push) is
    the first that fails in transport. *)
Lemma save_body_failure c email name phone answers_list w old j e :
  stored_answers email (docs w) = Some old ->
  (j < length answers_list + 2)%nat ->
  (forall i, (i < j)%nat -> fault (length (log w) + i) = None) ->
  fault (length (log w) + j) = Some e ->
  exists w',
    save_body email (profile_of c email name phone) answers_list w = (inl e, w')
    /\ stored_answers email (docs w')
       = Some (old ++ firstn (j - 1)
                        (expected_records (S (S (ticks w))) answers_list))%list
    /\ (j = 0%nat -> docs w' = docs w)
    /\ ((1 <= j)%nat ->
        exists d, find (matches email) (docs w') = Some d
                  /\ profile_stored c email name phone d)
    /\ log w'
       = (log w ++ firstn (S j)
                     (expected_requests c email name phone (ticks w) answers_list))%list.
Proof.
  intros Hs Hj Hnf He.
  destruct j as [|k].
  { (* the upsert *)
    rewrite Nat.add_0_r in He.
    unfold Mongo.save_body, bind. rewrite (upsert_profile_fault c email name phone w e He).
    eexists. split; [reflexivity|]. simpl. rewrite app_nil_r.
    split; [exact Hs|]. split; [reflexivity|]. split; [lia | reflexivity]. }
  destruct (upsert_profile_ok c email name phone w)
    as (w1 & d1 & Hrun1 & Ht1 & Hf1 & Hp1 & Hs1 & Hl1).
  { rewrite <- (Nat.add_0_r (length (log w))). apply Hnf. lia. }
  assert (Ha1 : answers_of d1 = Some old).
  { rewrite Hs in Hs1. unfold stored_answers in Hs1. now rewrite Hf1 in Hs1. }
  assert (Hshift : forall i, (length (log w1) + i = length (log w) + S i)%nat).
  { intros i. rewrite Hl1, length_app. simpl. lia. }
  replace (S k - 1)%nat with k by lia.
  destruct (Nat.lt_ge_cases k (length answers_list)) as [Hk|Hk].
  - (* the push of the answer at position [k] *)
    destruct (push_answers_fault clock fault email answers_list w1 d1 old k e Hk)
      as (w2 & d2 & Hrun2 & Hf2 & Ha2 & Hl2).
    { intros i Hi. rewrite Hshift. apply Hnf. lia. }
    { now rewrite Hshift. }
    { exact Hf1. } { exact Ha1. }
    unfold Mongo.save_body, bind. rewrite Hrun1, Hrun2.
    exists w2. split; [reflexivity|]. split; [|split; [discriminate|split]].
    + unfold stored_answers. rewrite Hf2, Ha2, Ht1, records_expected. reflexivity.
    + intros _. exists d2. split; [exact Hf2|].
      apply (push_answers_profile c email name phone answers_list w1 d1 d2 Hf1 Hp1).
      now rewrite Hrun2.
    + rewrite Hl2, Hl1, Ht1, pushes_expected, <- app_assoc.
      unfold Mongo.expected_requests. rewrite firstn_cons, firstn_app.
      replace (S k - length (expected_pushes email (S (S (ticks w))) answers_list))%nat
        with 0%nat by (rewrite length_expected_pushes; lia).
      now rewrite firstn_O, app_nil_r.
  - (* the re-read *)
    assert (Hkn : k = length answers_list) by lia. subst k.
    destruct (push_answers_ok clock fault email answers_list w1 d1 old)
      as (w2 & d2 & Hrun2 & Hf2 & Ha2 & Hl2).
    { intros i Hi. rewrite Hshift. apply Hnf. lia. }
    { exact Hf1. } { exact Ha1. }
    unfold Mongo.save_body, bind. rewrite Hrun1, Hrun2.
    unfold get_candidate_by_email. rewrite find_one_run.
    assert (Hlen : length (log w2) = (length (log w) + S (length answers_list))%nat).
    { rewrite Hl2, Hl1, !length_app, pushes_expected, length_expected_pushes. simpl. lia. }
    rewrite Hlen, He.
    exists (with_call (FindOne email) w2). split; [reflexivity|].
    cbn [docs log with_call].
    split; [|split; [discriminate|split]].
    + unfold stored_answers. rewrite Hf2, Ha2, Ht1, records_expected.
      rewrite firstn_all2 by (rewrite length_expected_records; lia). reflexivity.
    + intros _. exists d2. split; [exact Hf2|].
      apply (push_answers_profile c email name phone answers_list w1 d1 d2 Hf1 Hp1).
      now rewrite Hrun2.
    + rewrite Hl2, Hl1, Ht1, pushes_expected, <- !app_assoc.
      rewrite firstn_all2; [reflexivity|].
      unfold Mongo.expected_requests. simpl.
      rewrite length_app, length_expected_pushes. simpl. lia.
Qed.

(** With the gateway initialised and an email, the function is its
    [try] block on the profile literal, under the wrapping handler. *)
Lemma save_with_email c email name phone answers_list w :
  db_wrapper w = true ->
  has_email c email ->
  either_field "name" "full_name" (BStr "") c = BStr name ->
  either_field "phone" "phone_number" (BStr "") c = BStr phone ->
  save (BDict c) answers_list w =
    try_except (save_body email (profile_of c email name phone) answers_list)
               (fun ex => raise (save_failure ex)) w.
Proof.
  intros Hw He Hn Hp. destruct (has_email_lookup c email He) as [Hl Hne].
  apply (save_initialised clock fault py_str format_exc c email _ answers_list w Hw Hl Hne).
  now apply build_profile_explicit.
Qed.

(** C7. The save upserts the profile, appends one record per answer in
    input order, re-reads the document and returns [str] of its "_id":
    for a candidate that gives an email, with texts as name and phone,
    once the gateway is initialised the requests sent are the upsert of
    the profile, one push per answer, and the re-read; when all reach
    the server the document found holds the profile, its "answers" are
    the stored ones followed by the record of each answer in order, and
    the result is the text of its "_id". When the request at position
    [j] is the first to fail in transport (the upsert, a push or the
    re-read), the caller receives the wrapping [RuntimeError], no later
    request is sent and nothing is rolled back: the records of the
    pushes before it stay appended, after the profile. *)
Theorem save_in_order_without_rollback c email name phone answers_list w0 old :
  reachable w0 ->
  has_email c email ->
  either_field "name" "full_name" (BStr "") c = BStr name ->
  either_field "phone" "phone_number" (BStr "") c = BStr phone ->
  stored_answers email (docs w0) = Some old ->
  let w := after_init w0 in
  let records := expected_records (S (S (ticks w0))) answers_list in
  let requests := expected_requests c email name phone (ticks w0) answers_list in
  ((forall i, (i < length answers_list + 2)%nat -> fault (length (log w) + i) = None) ->
   exists w' d,
     save (BDict c) answers_list w0 = (inr (py_str (bget "_id" d)), w')
     /\ find (matches email) (docs w') = Some d
     /\ profile_stored c email name phone d
     /\ answers_of d = Some (old ++ records)%list
     /\ log w' = (log w ++ requests)%list)
  /\ (forall j e,
        (j < length answers_list + 2)%nat ->
        (forall i, (i < j)%nat -> fault (length (log w) + i) = None) ->
        fault (length (log w) + j) = Some e ->
        exists w',
          save (BDict c) answers_list w0
          = (inl (Raise RuntimeError
                    ("Failed to save candidate and answers: " ++ exn_msg e
                       ++ nl ++ nl ++ format_exc e)), w')
          /\ stored_answers email (docs w') = Some (old ++ firstn (j - 1) records)%list
          /\ (j = 0%nat -> docs w' = docs w0)
          /\ ((1 <= j)%nat ->
              exists d, find (matches email) (docs w') = Some d
                        /\ profile_stored c email name phone d)
          /\ log w' = (log w ++ firstn (S j) requests)%list).
Proof.
  intros Hr He Hn Hp Hs w records requests.
  destruct (after_init_fields w0) as (Hw & Hd & Ht & _ & _).
  fold w in Hw, Hd, Ht.
  assert (Hs' : stored_answers email (docs w) = Some old) by now rewrite Hd.
  rewrite (save_after_init (BDict c) answers_list w0 Hr). fold w.
  rewrite (save_with_email c email name phone answers_list w Hw He Hn Hp).
  unfold records, requests. rewrite <- Ht. split.
  - intros Hnf.
    destruct (save_body_success c email name phone answers_list w old Hs' Hnf)
      as (w' & d & Hrun & Hf & Ha & Hprof & Hl).
    exists w', d. unfold try_except. rewrite Hrun. auto.
  - intros j e Hj Hnf Hfault.
    destruct (save_body_failure c email name phone answers_list w old j e Hs' Hj Hnf Hfault)
      as (w' & Hrun & Hst & Hz & Hprof & Hl).
    exists w'. unfold try_except. rewrite Hrun.
    split; [reflexivity|]. split; [exact Hst|]. split; [|split; [exact Hprof | exact Hl]].
    intros Hj0. rewrite (Hz Hj0). exact Hd.
Qed.

(** C9 (as amended). A candidate that gives no email (no email key
    holds a truthy value, or the first that does holds white space
    only) makes [save_candidate_and_answers] raise the [ValueError] once
    the gateway is initialised: at once and with nothing sent when it
    already is, and after the requests of the lazy initialisation when
    that succeeds; no document is read or written. When the first
    request of the lazy initialisation fails the caller receives a
    [ConnectionError] instead. The check is the function's own:
    [upsert_candidate] sends its update for any email. *)
Theorem save_without_email_fails c answers_list w0 :
  no_email c ->
  (reachable w0 ->
   save (BDict c) answers_list w0
   = (inl (Raise ValueError "Candidate must include an 'email' field to save to MongoDB."),
      after_init w0)
   /\ docs (after_init w0) = docs w0
   /\ (db_wrapper w0 = true -> after_init w0 = w0)
   /\ exists calls,
        log (after_init w0) = (log w0 ++ calls)%list /\ Forall connection_call calls)
  /\ (forall e,
        db_wrapper w0 = false -> db_instance w0 = false ->
        fault (length (log w0)) = Some e ->
        save (BDict c) answers_list w0
        = (inl (Raise ConnectionError
                  ("MongoDB not initialized and auto-init failed: "
                     ++ "Failed to initialize MongoDB: "
                     ++ match exn_kind e with
                        | ServerSelectionTimeoutError =>
                            "Could not connect to MongoDB: " ++ exn_msg e
                        | _ => exn_msg e
                        end)),
           with_call ServerInfo w0))
  /\ (forall email profile w,
        log (snd (upsert_candidate email profile w))
        = (log w ++ [UpdateOne email (profile_update (ticks w) profile) true])%list).
Proof.
  intros Hno. pose proof (no_email_lookup c Hno) as Hl. split; [|split].
  - intros Hr. destruct (after_init_fields w0) as (Hw & Hd & _ & _ & Hcalls).
    split; [|split; [exact Hd | split; [apply after_init_initialised | exact Hcalls]]].
    rewrite (save_after_init (BDict c) answers_list w0 Hr).
    unfold Mongo.save_candidate_and_answers, bind. rewrite Hw, Hl. reflexivity.
  - intros e Hw Hi Hf.
    destruct (init_step_unreachable w0 e Hw Hi Hf) as (m & Hrun & ->).
    unfold Mongo.save_candidate_and_answers, bind. rewrite Hrun. reflexivity.
  - intros email profile w. rewrite upsert_candidate_run, update_one_run. simpl.
    destruct (fault (length (log w))); [reflexivity|].
    destruct (update_docs _ _ _ _ _ _) as [e|[ds n]]; reflexivity.
Qed.

End SaveClaims.

(* ================================================================== *)
(** * Worked examples for the persistence gateway *)
(* ================================================================== *)

Section MongoExamples.

Import Mongo Examples.




(** Nobody has the email yet: without the flag nothing happens, with it
    the document is created. *)
Lemma add_answer_to_missing_candidate_witness :
  (exists w',
      add_answer tick_clock no_fault "a@b.com" answer_1 false ready_world = (inr tt, w')
      /\ docs w' = docs ready_world)
  /\ (exists w' d,
        add_answer tick_clock no_fault "a@b.com" answer_1 true ready_world = (inr tt, w')
        /\ docs w' = (docs ready_world ++ [d])%list
        /\ matches "a@b.com" d = true
        /\ dict_get "answers" d
           = Some (BList [BDict (stamped tick_clock (ticks ready_world) answer_1)])).
Proof.
  apply (add_answer_to_missing_candidate tick_clock no_fault "a@b.com" answer_1 ready_world);
    reflexivity.
Defined.

(** C6 as stated fails: with the flag disabled and no document for the
    email, the call returns normally instead of raising, and the
    collection stays empty. *)
Lemma add_answer_without_upsert_is_silent :
  find (matches "a@b.com") (docs ready_world) = None
  /\ fst (add_answer tick_clock no_fault "a@b.com" answer_1 false ready_world) = inr tt
  /\ docs (snd (add_answer tick_clock no_fault "a@b.com" answer_1 false ready_world)) = [].
Proof. repeat split; reflexivity. Qed.

(** Three answers for Ann, who has one stored already: four in all, the
    new ones last and in call order. *)
Lemma add_answer_accumulates_witness :
  exists w',
    add_each tick_clock no_fault "a@b.com" [answer_1; answer_2; answer_3] ann_world
      = (inr tt, w')
    /\ stored_answers "a@b.com" (docs w')
       = Some ([BDict [("question", BStr "Q0"); ("answer", BStr "A0")]]
                 ++ stamped_from tick_clock 0 [answer_1; answer_2; answer_3])%list
    /\ length (stamped_from tick_clock 0 [answer_1; answer_2; answer_3]) = 3%nat.
Proof.
  destruct (add_answer_accumulates tick_clock no_fault "a@b.com"
              [answer_1; answer_2; answer_3] ann_world
              [BDict [("question", BStr "Q0"); ("answer", BStr "A0")]])
    as (w' & Hrun & Hs & Hlen & _).
  - reflexivity.
  - reflexivity.
  - exists w'. auto.
Defined.

(** A candidate whose email is found under the second key and ends in a
    no-break space, behind a gateway that is not initialised yet, with
    three answers. Everything is stored; and when the push of the third
    answer fails, the first two records stay stored. *)
Lemma save_in_order_without_rollback_witness :
  (exists w' d,
      save_candidate_and_answers tick_clock no_fault show_id no_traceback
          (BDict padded_candidate) [answer_1; short_answer; unstamped_answer] cold_world
        = (inr (show_id (bget "_id" d)), w')
      /\ find (matches "a@b.com") (docs w') = Some d
      /\ profile_stored padded_candidate "a@b.com" (" Ann" ++ em_space) "555" d
      /\ answers_of d
         = Some (expected_records tick_clock 2 [answer_1; short_answer; unstamped_answer])
      /\ log w'
         = ([ServerInfo; CreateIndex]
              ++ expected_requests tick_clock padded_candidate "a@b.com"
                   (" Ann" ++ em_space) "555" 0
                   [answer_1; short_answer; unstamped_answer])%list)
  /\ (exists w',
        save_candidate_and_answers tick_clock (fails_at 5) show_id no_traceback
            (BDict padded_candidate) [answer_1; short_answer; unstamped_answer] cold_world
          = (inl (Raise RuntimeError
                    ("Failed to save candidate and answers: connection closed"
                       ++ nl ++ nl ++ "")), w')
        /\ stored_answers "a@b.com" (docs w')
           = Some (firstn 2 (expected_records tick_clock 2
                               [answer_1; short_answer; unstamped_answer]))).
Proof.
  assert (He : has_email padded_candidate "a@b.com").
  { exists ("a@b.com" ++ nbsp). split; [reflexivity|]. split; [reflexivity | discriminate]. }
  split.
  - pose proof (save_in_order_without_rollback tick_clock no_fault show_id no_traceback
                  padded_candidate "a@b.com" (" Ann" ++ em_space) "555"
                  [answer_1; short_answer; unstamped_answer] cold_world []
                  (or_intror (or_intror eq_refl)) He eq_refl eq_refl eq_refl) as H.
    cbv zeta in H. destruct H as [Hok _].
    destruct Hok as (w' & d & Hrun & Hf & Hp & Ha & Hl); [reflexivity|].
    exists w', d. auto.
  - pose proof (save_in_order_without_rollback tick_clock (fails_at 5) show_id no_traceback
                  padded_candidate "a@b.com" (" Ann" ++ em_space) "555"
                  [answer_1; short_answer; unstamped_answer] cold_world []
                  (or_intror (or_intror eq_refl)) He eq_refl eq_refl eq_refl) as H.
    cbv zeta in H. destruct H as [_ Hfail].
    destruct (Hfail 3%nat (Raise (OtherError "AutoReconnect") "connection closed"))
      as (w' & Hrun & Hs & _).
    + simpl. lia.
    + intros [|[|[|i]]] Hi; [reflexivity | reflexivity | reflexivity | lia].
    + reflexivity.
    + exists w'. auto.
Defined.

(** The same save, computed: the stored document holds the stripped
    texts and one record per answer, in input order, each with its six
    fields. *)
Lemma padded_candidate_saved :
  save_candidate_and_answers tick_clock no_fault show_id no_traceback
      (BDict padded_candidate) [answer_1; short_answer; unstamped_answer] cold_world
  = (inr "1",
     World
       [[("_id", BOid 1); ("email", BStr "a@b.com"); ("name", BStr "Ann");
         ("phone", BStr "555"); ("position", BStr "");
         ("meta", BDict [("status", BStr "in_progress")]);
         ("tech_stack", BList [BStr "Go"]);
         ("updated_at", BDate 11); ("created_at", BDate 2);
         ("answers",
           BList
             [BDict [("question_id", BNone); ("question", BStr "Q1"); ("answer", BStr "A1");
                     ("tech", BStr "Python"); ("score", BNone); ("timestamp", BDate 3)];
              BDict [("question_id", BNone); ("question", BStr "Q4"); ("answer", BStr "A4");
                     ("tech", BStr "General"); ("score", BNone); ("timestamp", BDate 6)];
              BDict [("question_id", BNone); ("question", BStr "Q5"); ("answer", BStr "A5");
                     ("tech", BStr "General"); ("score", BInt 3); ("timestamp", BNone)]])]]
       true 2 11
       [ServerInfo; CreateIndex;
        UpdateOne "a@b.com"
          (Update (profile_set tick_clock padded_candidate "a@b.com" (" Ann" ++ em_space)
                     "555" 0)
                  [("created_at", BDate 2)] []) true;
        UpdateOne "a@b.com"
          (Update [("updated_at", BDate 5)] []
                  [("answers", expected_record tick_clock 2 answer_1)]) true;
        UpdateOne "a@b.com"
          (Update [("updated_at", BDate 8)] []
                  [("answers", expected_record tick_clock 5 short_answer)]) true;
        UpdateOne "a@b.com"
          (Update [("updated_at", BDate 11)] []
                  [("answers", expected_record tick_clock 8 unstamped_answer)]) true;
        FindOne "a@b.com"]
       true true).
Proof. vm_compute. reflexivity. Qed.

(** The failing request is the upsert, a push, or the re-read: what is
    stored is nothing, the profile and the first record, or everything. *)
Lemma save_fails_at_each_phase :
  stored_answers "a@b.com"
    (docs (snd (save_candidate_and_answers tick_clock (fails_at 0) show_id no_traceback
                  (BDict padded_candidate) [answer_1; short_answer] ready_world)))
    = Some []
  /\ docs (snd (save_candidate_and_answers tick_clock (fails_at 0) show_id no_traceback
                  (BDict padded_candidate) [answer_1; short_answer] ready_world)) = []
  /\ stored_answers "a@b.com"
       (docs (snd (save_candidate_and_answers tick_clock (fails_at 2) show_id no_traceback
                     (BDict padded_candidate) [answer_1; short_answer] ready_world)))
     = Some [expected_record tick_clock 2 answer_1]
  /\ stored_answers "a@b.com"
       (docs (snd (save_candidate_and_answers tick_clock (fails_at 3) show_id no_traceback
                     (BDict padded_candidate) [answer_1; short_answer] ready_world)))
     = Some [expected_record tick_clock 2 answer_1; expected_record tick_clock 5 short_answer]
  /\ (forall k, In k [0; 2; 3]%nat ->
        fst (save_candidate_and_answers tick_clock (fails_at k) show_id no_traceback
               (BDict padded_candidate) [answer_1; short_answer] ready_world)
        = inl (Raise RuntimeError
                 ("Failed to save candidate and answers: connection closed" ++ nl ++ nl ++ ""))).
Proof.
  repeat split; try (vm_compute; reflexivity).
  intros k [<-|[<-|[<-|[]]]]; vm_compute; reflexivity.
Qed.

(** Candidates whose email is empty, or a no-break space only: behind an
    initialised gateway the error is raised with nothing sent, behind
    one that is not, after the two requests of the initialisation. *)
Lemma save_without_email_fails_witness :
  save_candidate_and_answers tick_clock no_fault show_id no_traceback
      (BDict nbsp_email_candidate) [answer_1] ready_world
    = (inl (Raise ValueError "Candidate must include an 'email' field to save to MongoDB."),
       ready_world)
  /\ save_candidate_and_answers tick_clock no_fault show_id no_traceback
       (BDict no_email_candidate) [answer_1] cold_world
     = (inl (Raise ValueError "Candidate must include an 'email' field to save to MongoDB."),
        World [] true 1 0 [ServerInfo; CreateIndex] true true)
  /\ save_candidate_and_answers tick_clock unreachable show_id no_traceback
       (BDict nbsp_email_candidate) [answer_1] cold_world
     = (inl (Raise ConnectionError
               ("MongoDB not initialized and auto-init failed: "
                  ++ "Failed to initialize MongoDB: "
                  ++ "Could not connect to MongoDB: localhost:27017: connection refused")),
        World [] false 1 0 [ServerInfo] false false).
Proof.
  assert (Hn : no_email nbsp_email_candidate).
  { right. exists nbsp. split; [reflexivity|].
    rewrite <- (append_nil_r nbsp). apply white_cons; [|apply white_nil].
    apply space_2. reflexivity. }
  assert (He : no_email no_email_candidate) by (left; reflexivity).
  split; [|split].
  - exact (proj1 (proj1 (save_without_email_fails tick_clock no_fault show_id no_traceback
                           nbsp_email_candidate [answer_1] ready_world Hn)
                    (or_introl eq_refl))).
  - exact (proj1 (proj1 (save_without_email_fails tick_clock no_fault show_id no_traceback
                           no_email_candidate [answer_1] cold_world He)
                    (or_intror (or_intror eq_refl)))).
  - exact (proj1 (proj2 (save_without_email_fails tick_clock unreachable show_id no_traceback
                           nbsp_email_candidate [answer_1] cold_world Hn))
             _ eq_refl eq_refl eq_refl).
Defined.

(** C9 as stated fails. Behind a gateway that is not yet initialised, a
    candidate whose email is empty first triggers the connection: when
    the server cannot be reached the caller gets a [ConnectionError],
    not the error of the email check; when it can, the check fails only
    after [server_info] and the index creation were sent. And
    [upsert_candidate] itself checks nothing: called with an empty email
    it sends the update and stores a document. *)
Lemma email_check_after_connection :
  dict_get "email" no_email_candidate = Some (BStr "")
  /\ dict_get "Email" no_email_candidate = None
  /\ dict_get "email_address" no_email_candidate = None
  /\ fst (save_candidate_and_answers tick_clock unreachable show_id no_traceback
            (BDict no_email_candidate) [] cold_world)
     = inl (Raise ConnectionError
              ("MongoDB not initialized and auto-init failed: "
                 ++ "Failed to initialize MongoDB: "
                 ++ "Could not connect to MongoDB: localhost:27017: connection refused"))
  /\ log (snd (save_candidate_and_answers tick_clock unreachable show_id no_traceback
                 (BDict no_email_candidate) [] cold_world))
     = [ServerInfo]
  /\ fst (save_candidate_and_answers tick_clock no_fault show_id no_traceback
            (BDict no_email_candidate) [] cold_world)
     = inl (Raise ValueError "Candidate must include an 'email' field to save to MongoDB.")
  /\ log (snd (save_candidate_and_answers tick_clock no_fault show_id no_traceback
                 (BDict no_email_candidate) [] cold_world))
     = [ServerInfo; CreateIndex]
  /\ fst (upsert_candidate tick_clock no_fault "" plain_profile ready_world) = inr tt
  /\ length (docs (snd (upsert_candidate tick_clock no_fault "" plain_profile ready_world)))
     = 1%nat.
Proof. repeat split; reflexivity. Qed.

End MongoExamples.

(* ================================================================== *)
(** * Further properties: [str.strip] *)
(* ================================================================== *)

Section StripMore.

(** X22. [strip] removes the white space around a text and nothing
    else: the text is its stripped form between two runs of white-space
    characters (those of Python, the Unicode ones included), the
    stripped form neither starts nor ends with such a character, it is
    empty exactly when the text is white space only, and a text without
    surrounding white space is left as it is. *)
Theorem strip_removes_surrounding_white s :
  (exists l r, white l /\ white r /\ s = l ++ strip s ++ r)
  /\ trimmed (strip s)
  /\ (white s <-> strip s = "")
  /\ (trimmed s -> strip s = s).
Proof.
  destruct (strip_spec s) as (l & r & Hl & Hr & Hs & Ht).
  split; [exists l, r; auto|]. split; [exact Ht|].
  split; [apply white_strip | apply strip_fixed].
Qed.

End StripMore.

(* ================================================================== *)
(** * Further facts about [generate_questions] *)
(* ================================================================== *)

Section ServerMore.

Import Server ServerProps.

Variable groq_client : option client.
Variable json_loads : string -> loads_outcome.
Variable repr_str : string -> string.

Local Abbreviation generate := (generate_questions groq_client json_loads repr_str).
Local Abbreviation responded techs := (answered groq_client json_loads (clean techs)).
Local Abbreviation check_tech := (Server.check_tech repr_str).
Local Abbreviation check_all := (Server.check_all repr_str).
Local Abbreviation collect_questions := (Server.collect_questions repr_str).
Local Abbreviation question_of_item := (Server.question_of_item repr_str).
Local Abbreviation renders_as := (Server.renders_as repr_str).

Lemma trimmed_empty : trimmed "".
Proof. exact (strip_trimmed ""). Qed.

Lemma clean_blank techs : Forall white techs -> clean techs = [].
Proof.
  unfold clean. induction 1 as [|t ts Ht _ IH]; simpl; [reflexivity|].
  apply white_strip in Ht. rewrite Ht. simpl. rewrite andb_false_r. exact IH.
Qed.


Lemma clean_fixed ts :
  Forall (fun t => t <> "" /\ trimmed t) ts -> clean ts = ts.
Proof.
  unfold clean. induction 1 as [|t ts [Hne Hs] _ IH]; simpl; [reflexivity|].
  rewrite (strip_fixed t Hs). destruct t; [now elim Hne|]. simpl.
  rewrite IH. f_equal. exact (strip_fixed _ Hs).
Qed.

(** A result is either the shortcut for a request without usable names,
    or the outcome of the validation loop on a parsed response. *)
Lemma generate_returns techs out :
  generate techs = inr out ->
  (clean techs = [] /\ out = [])
  \/ exists raw parsed,
       responded techs raw parsed /\ check_all parsed (clean techs) [] = inr out.
Proof.
  unfold generate_questions, answered.
  destruct techs as [|t ts]; [intros [= <-]; now left|].
  destruct (clean (t :: ts)) as [|c cs] eqn:Ec; [intros [= <-]; now left|].
  unfold _call_groq_for_questions.
  destruct groq_client as [create|]; [|discriminate].
  destruct (create (join ", " (c :: cs))) as [e|[e|[raw|]]] eqn:Er; try discriminate.
  destruct (json_loads raw) as [parsed| |e] eqn:Ej; try discriminate.
  destruct (check_all parsed (c :: cs) []) as [e|out'] eqn:Ek; [discriminate|].
  intros [= <-]. right. exists raw, parsed. split; [|exact Ek].
  exists create. auto.
Qed.

Lemma question_of_item_clean item q :
  question_of_item item = Some q -> clean_item q.
Proof.
  unfold Server.question_of_item, clean_item.
  destruct item as [| | | | | |d]; try discriminate.
  destruct (dict_mem "question" d); [|discriminate].
  intros [= <-]. simpl. split; [apply strip_trimmed|].
  destruct (get_or_none "ideal_answer_focus" d);
    first [exact trimmed_empty | apply strip_trimmed].
Qed.

Lemma collect_questions_clean items : Forall clean_item (collect_questions items).
Proof.
  induction items as [|item items IH]; simpl; [constructor|].
  destruct (question_of_item item) as [q|] eqn:E; [|exact IH].
  constructor; [exact (question_of_item_clean _ _ E) | exact IH].
Qed.

Lemma forall_firstn {A : Type} (P : A -> Prop) (l : list A) : forall n,
  Forall P l -> Forall P (firstn n l).
Proof.
  induction l as [|x l IH]; intros [|n] H; simpl; try constructor.
  - now inversion H.
  - apply IH. now inversion H.
Qed.

(** What one iteration stores: between 3 and 5 records, all clean. *)
Lemma check_tech_shape parsed tech qs :
  check_tech parsed tech = inr qs ->
  (3 <= length qs <= 5)%nat /\ Forall clean_item qs.
Proof.
  unfold Server.check_tech.
  destruct (py_in tech parsed) as [e|[|]]; try discriminate.
  destruct (py_getitem repr_str parsed tech) as [e|[| | | | |items|]]; try discriminate.
  destruct (Nat.ltb_spec (length (collect_questions items)) 3); [discriminate|].
  intros Heq.
  assert (Hqs : qs = firstn 5 (collect_questions items)) by congruence.
  rewrite Hqs. split.
  - rewrite length_firstn. lia.
  - apply forall_firstn, collect_questions_clean.
Qed.

(** What the loop returns: the entries it started from, and one entry
    for each technology of the request. *)
Lemma check_all_shape parsed techs : forall out0 out,
  check_all parsed techs out0 = inr out ->
  (forall t, In t (dict_keys out) <-> In t (dict_keys out0) \/ In t techs)
  /\ (NoDup (dict_keys out0) -> NoDup (dict_keys out))
  /\ (forall t qs, dict_get t out = Some qs ->
        dict_get t out0 = Some qs \/ (In t techs /\ check_tech parsed t = inr qs)).
Proof.
  induction techs as [|tech rest IH]; intros out0 out; simpl.
  - intros [= <-]. split; [tauto|]. split; [tauto|]. auto.
  - destruct (check_tech parsed tech) as [e|qs] eqn:Et; [discriminate|].
    intros Hrun. destruct (IH _ _ Hrun) as (Hk & Hnd & Hg). split; [|split].
    + intros t. rewrite Hk, in_keys_set. split; intros H.
      * destruct H as [[->|H]|H]; auto.
      * destruct H as [H|[->|H]]; auto.
    + intros H. apply Hnd. now apply nodup_keys_set.
    + intros t qs' Hget. destruct (Hg _ _ Hget) as [H|[H1 H2]]; [|now right; auto].
      destruct (string_dec t tech) as [->|Hne].
      * rewrite dict_get_set_same in H. injection H as <-. right. auto.
      * rewrite dict_get_set_other in H by exact Hne. now left.
Qed.

(** The entries of a returned mapping are those that the iterations of
    the validation loop stored. *)
Lemma generate_checked techs out :
  generate techs = inr out ->
  NoDup (dict_keys out)
  /\ (forall t, In t (dict_keys out) <-> In t (clean techs))
  /\ exists parsed,
       forall t qs, dict_get t out = Some qs -> check_tech parsed t = inr qs.
Proof.
  intros Hrun.
  destruct (generate_returns _ _ Hrun) as [[Hc ->]|(raw & parsed & _ & Hall)].
  - rewrite Hc. split; [constructor|]. split; [tauto|]. exists JNull. discriminate.
  - destruct (check_all_shape _ _ _ _ Hall) as (Hk & Hnd & Hg).
    split; [apply Hnd; constructor|]. split.
    + intros t. rewrite Hk. simpl. tauto.
    + exists parsed. intros t qs Hget.
      destruct (Hg _ _ Hget) as [H|[_ H]]; [discriminate | exact H].
Qed.

(** ** Properties *)

(** X1. A request without a usable name (an empty list, or only items
    that are empty or white space, Unicode white space included)
    returns the empty mapping, whatever the client and the JSON reader
    are: neither is consulted. *)
Theorem blank_request_returns_empty techs :
  Forall white techs -> generate techs = inr [].
Proof.
  intros H. unfold generate_questions.
  destruct techs as [|t ts]; [reflexivity|]. now rewrite (clean_blank _ H).
Qed.

(** X2. With at least one usable name, each failure before validation
    has its own outcome and none returns a mapping: no client gives the
    "not configured" [RuntimeError]; an exception of the SDK call comes
    out unchanged; a response whose content cannot be read gives
    "Groq response parsing failed"; a content of [None], and any
    exception of [json.loads] other than [JSONDecodeError], give the
    "Failed to parse Groq output" failure; a text that is not JSON gives
    "Groq did not return valid JSON" with the raw text at the end. *)
Theorem upstream_failures_surface techs names :
  requests techs names ->
  names <> [] ->
  (groq_client = None ->
   generate techs
   = inl (Raise RuntimeError
            "Groq client not configured. Install `groq` and set GROQ_API_KEY environment variable."))
  /\ (forall create e,
        groq_client = Some create ->
        create (join ", " names) = inl e ->
        generate techs = inl e)
  /\ (forall create e,
        groq_client = Some create ->
        create (join ", " names) = inr (inl e) ->
        generate techs
          = inl (Raise RuntimeError ("Groq response parsing failed: " ++ exn_msg e)))
  /\ (forall create,
        groq_client = Some create ->
        create (join ", " names) = inr (inr None) ->
        generate techs
        = inl (Raise RuntimeError
                 ("Failed to parse Groq output: "
                    ++ "the JSON object must be str, bytes or bytearray, not NoneType"
                    ++ nl ++ nl ++ "Raw output:" ++ nl ++ nl ++ "None")))
  /\ (forall create raw,
        groq_client = Some create ->
        create (join ", " names) = inr (inr (Some raw)) ->
        json_loads raw = DecodeError ->
        generate techs
        = inl (Raise RuntimeError
                 ("Groq did not return valid JSON. Raw output:" ++ nl ++ nl ++ raw)))
  /\ (forall create raw e,
        groq_client = Some create ->
        create (join ", " names) = inr (inr (Some raw)) ->
        json_loads raw = LoadsRaised e ->
        generate techs
        = inl (Raise RuntimeError
                 ("Failed to parse Groq output: " ++ exn_msg e ++ nl ++ nl
                    ++ "Raw output:" ++ nl ++ nl ++ raw))).
Proof.
  intros Hreq Hne. apply requests_clean in Hreq. subst names.
  unfold generate_questions, _call_groq_for_questions.
  destruct techs as [|t ts]; [now elim Hne|].
  destruct (clean (t :: ts)) as [|c cs] eqn:Ec; [now elim Hne|].
  split; [now intros ->|].
  split; [intros create e -> Hr; now rewrite Hr|].
  split; [intros create e -> Hr; now rewrite Hr|].
  split; [intros create -> Hr; now rewrite Hr|].
  split; [intros create raw -> Hr Hj; now rewrite Hr, Hj|].
  intros create raw e -> Hr Hj. now rewrite Hr, Hj.
Qed.

(** X3. When the response supplies every requested technology with a
    list holding at least 3 counted elements, generation returns a
    mapping whose keys are exactly the requested names, each once, and
    whose entry for a technology holds one record for each of the first
    5 (or fewer) counted elements of its list, in the order of the
    list: the stripped text of the element's question and focus. *)
Theorem well_supplied_request_succeeds techs names raw d :
  requests techs names ->
  answered groq_client json_loads names raw (JDict d) ->
  Forall (well_supplied d) names ->
  exists out,
    generate techs = inr out
    /\ NoDup (dict_keys out)
    /\ (forall t, In t (dict_keys out) <-> In t names)
    /\ (forall t items,
          In t names ->
          dict_get t d = Some (JList items) ->
          exists qs,
            dict_get t out = Some qs
            /\ length qs = Nat.min 5 (length (filter counted items))
            /\ Forall2 renders_as (firstn 5 (filter counted items)) qs).
Proof.
  intros Hreq Hr Hall. apply requests_clean in Hreq. subst names.
  pose proof (generate_run groq_client json_loads repr_str techs raw (JDict d) Hr) as Hgen.
  destruct (clean techs) as [|c cs] eqn:Ec.
  - exists []. split; [|split; [constructor|split; [tauto | intros ? ? []]]].
    unfold generate_questions. destruct techs; [reflexivity | now rewrite Ec].
  - rewrite Hgen by discriminate.
    destruct (check_all_success json_loads repr_str _ _ Hall []) as (out & Hrun & Hget & _).
    rewrite Hrun. destruct (check_all_shape _ _ _ _ Hrun) as (Hk & Hnd & _).
    exists out. split; [reflexivity|]. split; [apply Hnd; constructor|].
    split.
    + intros t. rewrite Hk. simpl. tauto.
    + intros t items Hin Hd. rewrite Forall_forall in Hall.
      destruct (well_supplied_check repr_str _ _ (Hall _ Hin))
        as (items' & qs & Hd' & Hc & Hren).
      assert (items' = items) by congruence. subst items'.
      exists qs. split; [now apply Hget|]. split; [|exact Hren].
      rewrite <- (Forall2_length Hren), length_firstn. reflexivity.
Qed.

(** X4. Whatever the response was, a mapping that generation returns
    has the requested names as its keys, each once, and under each key
    between 3 and 5 records whose question and focus carry no
    surrounding white space. *)
Theorem returned_mapping_shape techs names out :
  requests techs names ->
  generate techs = inr out ->
  NoDup (dict_keys out)
  /\ (forall t, In t (dict_keys out) <-> In t names)
  /\ (forall t qs, dict_get t out = Some qs ->
        (3 <= length qs <= 5)%nat
        /\ Forall (fun q => trimmed (question q) /\ trimmed (ideal_answer_focus q)) qs).
Proof.
  intros Hreq Hrun. apply requests_clean in Hreq. subst names.
  destruct (generate_checked _ _ Hrun) as (Hnd & Hk & parsed & Hg).
  split; [exact Hnd|]. split; [exact Hk|].
  intros t qs Hget. exact (check_tech_shape _ _ _ (Hg _ _ Hget)).
Qed.

(** X5. A response that parses to anything but a JSON object (a list,
    a string, a number, [null], ...) never yields a mapping: the call
    raises the parse failure of the [try] block. *)
Theorem non_object_response_rejected techs names raw parsed :
  requests techs names ->
  answered groq_client json_loads names raw parsed ->
  names <> [] ->
  (forall d, parsed <> JDict d) ->
  exists e,
    generate techs
    = inl (Raise RuntimeError
             ("Failed to parse Groq output: " ++ exn_msg e ++ nl ++ nl
                ++ "Raw output:" ++ nl ++ nl ++ raw)).
Proof.
  intros Hreq Hr Hne Hnd. apply requests_clean in Hreq. subst names.
  rewrite (generate_run _ _ _ _ _ _ Hr Hne).
  destruct (clean techs) as [|t ts]; [now elim Hne|].
  assert (Ht : exists e, check_tech parsed t = inl e).
  { unfold Server.check_tech. destruct parsed as [| | | | |l|d]; simpl; eauto.
    - destruct (contains t s); eauto.
    - destruct (existsb _ l); eauto.
    - now elim (Hnd d). }
  destruct Ht as [e Ht]. exists e. simpl. now rewrite Ht.
Qed.

(** X6. A requested technology whose entry is present but is not a list
    (a single string, an object, a number) is reported with the same
    "missing expected key" failure as an absent one, when the
    technologies requested before it are well supplied. *)
Theorem non_list_entry_reported_missing techs raw d before tech after v :
  requests techs (before ++ tech :: after) ->
  answered groq_client json_loads (before ++ tech :: after) raw (JDict d) ->
  dict_get tech d = Some v ->
  (forall items, v <> JList items) ->
  Forall (well_supplied d) before ->
  generate techs
  = inl (Raise RuntimeError
           ("Failed to parse Groq output: Groq JSON missing expected key for tech: "
              ++ repr_str tech ++ nl ++ nl ++ "Raw output:" ++ nl ++ nl ++ raw)).
Proof.
  intros Hreq Hans Hd Hv Hok.
  pose proof (requests_clean _ _ Hreq) as Hc.
  assert (Hr : responded techs raw (JDict d)) by (rewrite Hc; exact Hans).
  assert (Ht : check_tech (JDict d) tech = inl (missing_key repr_str tech)).
  { unfold Server.check_tech, py_in, py_getitem, dict_mem. rewrite Hd.
    destruct v; try reflexivity. now elim (Hv l). }
  exact (proj2 (offender_raises _ _ _ _ _ _ _ _ _ _ Hr Hc Ht) Hok).
Qed.

Lemma check_all_agree d d' techs : forall out0,
  (forall t, In t techs -> dict_get t d = dict_get t d') ->
  check_all (JDict d) techs out0 = check_all (JDict d') techs out0.
Proof.
  induction techs as [|t ts IH]; intros out0 Hagree; simpl; [reflexivity|].
  assert (Ht : check_tech (JDict d) t = check_tech (JDict d') t).
  { unfold Server.check_tech, py_in, py_getitem, dict_mem.
    rewrite (Hagree t) by now left. reflexivity. }
  rewrite Ht. destruct (check_tech (JDict d') t); [reflexivity|].
  apply IH. intros t' H. apply Hagree. now right.
Qed.


End ServerMore.

Section ServerIgnored.

Import Server ServerProps.

(** X8. Entries of the response for technologies that were not
    requested are ignored: two responses that agree on the requested
    names make generation return the same mapping, or fail alike. *)
Theorem unrequested_entries_ignored
    (client1 client2 : option client) (loads1 loads2 : string -> loads_outcome)
    (repr_str : string -> string) techs names raw1 raw2 d1 d2 :
  requests techs names ->
  answered client1 loads1 names raw1 (JDict d1) ->
  answered client2 loads2 names raw2 (JDict d2) ->
  (forall t, In t names -> dict_get t d1 = dict_get t d2) ->
  (exists out,
      generate_questions client1 loads1 repr_str techs = inr out
      /\ generate_questions client2 loads2 repr_str techs = inr out)
  \/ (exists e,
        generate_questions client1 loads1 repr_str techs
        = inl (Raise RuntimeError
                 ("Failed to parse Groq output: " ++ exn_msg e ++ nl ++ nl
                    ++ "Raw output:" ++ nl ++ nl ++ raw1))
        /\ generate_questions client2 loads2 repr_str techs
           = inl (Raise RuntimeError
                    ("Failed to parse Groq output: " ++ exn_msg e ++ nl ++ nl
                       ++ "Raw output:" ++ nl ++ nl ++ raw2))).
Proof.
  intros Hreq H1 H2 Hagree. apply requests_clean in Hreq. subst names.
  pose proof (generate_run client1 loads1 repr_str techs raw1 (JDict d1) H1) as Hgen1.
  pose proof (generate_run client2 loads2 repr_str techs raw2 (JDict d2) H2) as Hgen2.
  destruct (clean techs) as [|c cs] eqn:Ec.
  - assert (Hg : forall cl lo, generate_questions cl lo repr_str techs = inr []).
    { intros cl lo. unfold generate_questions.
      destruct techs; [reflexivity | now rewrite Ec]. }
    left. exists []. now rewrite !Hg.
  - rewrite Hgen1, Hgen2 by discriminate.
    rewrite (check_all_agree repr_str d1 d2 _ [] Hagree).
    destruct (check_all repr_str (JDict d2) (c :: cs) []) as [e0|out0].
    + right. now exists e0.
    + left. now exists out0.
Qed.

End ServerIgnored.

(* ================================================================== *)
(** * Further worked examples for [generate_questions] *)
(* ================================================================== *)

Section ServerMoreExamples.

Import Server ServerProps Examples MoreExamples.

Lemma nbsp_white : white nbsp.
Proof.
  rewrite <- (append_nil_r nbsp). apply white_cons; [|apply white_nil].
  apply space_2. reflexivity.
Qed.

Lemma em_space_white : white em_space.
Proof.
  rewrite <- (append_nil_r em_space). apply white_cons; [|apply white_nil].
  apply space_3. reflexivity.
Qed.

Lemma spaces_white n : white (string_of_list_ascii (repeat " "%char n)).
Proof.
  induction n as [|n IH]; simpl; [apply white_nil|].
  apply (white_cons " " _ (space_1 " "%char eq_refl) IH).
Qed.

(** A name between a no-break space and an em space followed by a
    newline; and a name after a zero width space, which stays. *)
Lemma strip_removes_surrounding_white_witness :
  strip (nbsp ++ " Go" ++ em_space ++ nl) = "Go"
  /\ strip (zwsp ++ "Go ") = zwsp ++ "Go"
  /\ strip (zwsp ++ "Go") = zwsp ++ "Go".
Proof.
  split; [reflexivity|]. split; [reflexivity|].
  apply (proj2 (proj2 (proj2 (strip_removes_surrounding_white (zwsp ++ "Go"))))).
  exact (strip_trimmed (zwsp ++ "Go ")).
Defined.

(** Each white-space character of Python is removed on both sides of a
    name, and the neighbouring characters are kept. *)
Lemma white_space_table :
  Forall (fun w => strip (w ++ "Go" ++ w) = "Go") white_space_characters
  /\ Forall (fun w => strip (w ++ "Go" ++ w) = w ++ "Go" ++ w) other_characters.
Proof. split; repeat (apply Forall_cons; [reflexivity|]); apply Forall_nil. Qed.

(** An empty item, an item of spaces, a no-break space, a space and an
    em space: nothing is requested. *)
Lemma blank_request_returns_empty_witness :
  generate_questions (upstream (JDict six_for_go)) (loads_of (JDict six_for_go)) quoted
    blank_request = inr [].
Proof.
  apply blank_request_returns_empty.
  apply Forall_cons; [apply white_nil|].
  apply Forall_cons; [exact (spaces_white 3)|].
  apply Forall_cons; [exact nbsp_white|].
  apply Forall_cons; [|apply Forall_nil].
  exact (white_cons " " _ (space_1 " "%char eq_refl) em_space_white).
Defined.

(** Python is requested without a client, from a client that answers in
    prose, and with a reader that overflows. *)
Lemma upstream_failures_surface_witness :
  generate_questions None (loads_of (JDict six_for_go)) quoted ["Python"]
  = inl (Raise RuntimeError
           "Groq client not configured. Install `groq` and set GROQ_API_KEY environment variable.")
  /\ generate_questions prose_client (loads_of (JDict six_for_go)) quoted ["Python"]
     = inl (Raise RuntimeError
              ("Groq did not return valid JSON. Raw output:" ++ nl ++ nl ++ prose))
  /\ generate_questions deep_client loads_overflow quoted ["Python"]
     = inl (Raise RuntimeError
              ("Failed to parse Groq output: "
                 ++ "maximum recursion depth exceeded while decoding a JSON array"
                 ++ nl ++ nl ++ "Raw output:" ++ nl ++ nl ++ deep)).
Proof.
  split; [|split].
  - apply (proj1 (upstream_failures_surface None (loads_of (JDict six_for_go)) quoted
                    ["Python"] ["Python"] (clean_requests ["Python"])
                    ltac:(discriminate))).
    reflexivity.
  - apply (proj1 (proj2 (proj2 (proj2 (proj2
             (upstream_failures_surface prose_client (loads_of (JDict six_for_go)) quoted
                ["Python"] ["Python"] (clean_requests ["Python"]) ltac:(discriminate))))))
             (fun _ => inr (inr (Some prose))) prose eq_refl eq_refl eq_refl).
  - apply (proj2 (proj2 (proj2 (proj2 (proj2
             (upstream_failures_surface deep_client loads_overflow quoted
                ["Python"] ["Python"] (clean_requests ["Python"]) ltac:(discriminate))))))
             (fun _ => inr (inr (Some deep))) deep _ eq_refl eq_refl eq_refl).
Defined.

(** Go is requested between a space and a no-break space and answered
    with six question mappings: the entry for "Go" holds five records. *)
Lemma well_supplied_request_succeeds_witness :
  exists out,
    generate_questions (upstream (JDict six_for_go)) (loads_of (JDict six_for_go)) quoted
      padded_go = inr out
    /\ NoDup (dict_keys out)
    /\ (forall t, In t (dict_keys out) <-> In t ["Go"])
    /\ (forall t items,
          In t ["Go"] ->
          dict_get t six_for_go = Some (JList items) ->
          exists qs,
            dict_get t out = Some qs
            /\ length qs = Nat.min 5 (length (filter counted items))
            /\ Forall2 (renders_as quoted) (firstn 5 (filter counted items)) qs).
Proof.
  apply (well_supplied_request_succeeds _ _ quoted padded_go ["Go"]
           (dumps (JDict six_for_go)) six_for_go (clean_requests padded_go)
           (upstream_answers _ _)).
  apply Forall_cons; [|apply Forall_nil].
  exists (map numbered [1; 2; 3; 4; 5; 6]%Z). split; [reflexivity|]. vm_compute. lia.
Defined.

Lemma padded_go_cleaned : clean padded_go = ["Go"].
Proof. reflexivity. Qed.


(** The mapping returned for Go has one key and five stripped records. *)
Lemma returned_mapping_shape_witness :
  NoDup (dict_keys five_for_go)
  /\ (forall t, In t (dict_keys five_for_go) <-> In t ["Go"])
  /\ (forall t qs, dict_get t five_for_go = Some qs ->
        (3 <= length qs <= 5)%nat
        /\ Forall (fun q => trimmed (question q) /\ trimmed (ideal_answer_focus q)) qs).
Proof.
  apply (returned_mapping_shape (upstream (JDict six_for_go)) (loads_of (JDict six_for_go))
           quoted padded_go ["Go"] five_for_go (clean_requests padded_go)).
  vm_compute. reflexivity.
Defined.

(** The response is a list that names Python. *)
Lemma non_object_response_rejected_witness :
  exists e,
    generate_questions (upstream listed_names) (loads_of listed_names) quoted ["Python"]
    = inl (Raise RuntimeError
             ("Failed to parse Groq output: " ++ exn_msg e ++ nl ++ nl
                ++ "Raw output:" ++ nl ++ nl ++ dumps listed_names)).
Proof.
  apply (non_object_response_rejected _ _ quoted ["Python"] ["Python"] (dumps listed_names)
           listed_names (clean_requests ["Python"]) (upstream_answers _ _)).
  - discriminate.
  - intros d H. discriminate H.
Defined.

(** The entry for Python is a single question as a string. *)
Lemma non_list_entry_reported_missing_witness :
  generate_questions (upstream (JDict single_string)) (loads_of (JDict single_string))
    quoted ["Python"]
  = inl (Raise RuntimeError
           ("Failed to parse Groq output: Groq JSON missing expected key for tech: "
              ++ quoted "Python" ++ nl ++ nl ++ "Raw output:" ++ nl ++ nl
              ++ dumps (JDict single_string))).
Proof.
  apply (non_list_entry_reported_missing _ _ quoted ["Python"] (dumps (JDict single_string))
           single_string [] "Python" [] (JStr "What is a decorator?")
           (clean_requests ["Python"]) (upstream_answers _ _) eq_refl).
  - intros items H. discriminate H.
  - apply Forall_nil.
Defined.

(** Go is requested; one of the two responses also has an entry for
    Rust. *)
Lemma unrequested_entries_ignored_witness :
  (exists out,
      generate_questions (upstream (JDict six_for_go)) (loads_of (JDict six_for_go)) quoted
        ["Go"] = inr out
      /\ generate_questions (upstream (JDict go_and_rust)) (loads_of (JDict go_and_rust))
           quoted ["Go"] = inr out)
  \/ (exists e,
        generate_questions (upstream (JDict six_for_go)) (loads_of (JDict six_for_go)) quoted
          ["Go"]
        = inl (Raise RuntimeError
                 ("Failed to parse Groq output: " ++ exn_msg e ++ nl ++ nl
                    ++ "Raw output:" ++ nl ++ nl ++ dumps (JDict six_for_go)))
        /\ generate_questions (upstream (JDict go_and_rust)) (loads_of (JDict go_and_rust))
             quoted ["Go"]
           = inl (Raise RuntimeError
                    ("Failed to parse Groq output: " ++ exn_msg e ++ nl ++ nl
                       ++ "Raw output:" ++ nl ++ nl ++ dumps (JDict go_and_rust)))).
Proof.
  apply (unrequested_entries_ignored _ _ _ _ quoted ["Go"] ["Go"] _ _ six_for_go go_and_rust
           (clean_requests ["Go"]) (upstream_answers _ _) (upstream_answers _ _)).
  intros t [<-|[]]. reflexivity.
Defined.

End ServerMoreExamples.

(* ================================================================== *)
(** * Further properties of app.py *)
(* ================================================================== *)

Section SplitFacts.

Import Form ServerProps.

Variable sep : ascii -> bool.

Lemma separator_free_cons c p :
  separator_free sep (String c p) <-> sep c = false /\ separator_free sep p.
Proof.
  unfold separator_free. split.
  - intros H. split.
    + destruct (sep c) eqn:E; [|reflexivity].
      specialize (H c E). simpl in H. now rewrite Ascii.eqb_refl in H.
    + intros c0 Hc0. specialize (H c0 Hc0). simpl in H.
      now apply orb_false_iff in H.
  - intros [Hc Hp] c0 Hc0. simpl. rewrite (Hp c0 Hc0), orb_false_r.
    apply Ascii.eqb_neq. intros ->. congruence.
Qed.

Lemma separator_free_nil : separator_free sep "".
Proof. intros c _. reflexivity. Qed.

Lemma split_on_not_nil s : split_on sep s <> [].
Proof.
  destruct s as [|c s]; simpl; [discriminate|].
  destruct (sep c); [discriminate|]. destruct (split_on sep s); discriminate.
Qed.

Lemma split_on_pieces s : Forall (separator_free sep) (split_on sep s).
Proof.
  induction s as [|c s IH]; simpl.
  - constructor; [apply separator_free_nil | constructor].
  - destruct (sep c) eqn:E.
    + constructor; [apply separator_free_nil | exact IH].
    + destruct (split_on sep s) as [|p ps].
      * constructor; [|constructor]. apply separator_free_cons.
        split; [exact E | apply separator_free_nil].
      * inversion IH as [|? ? Hp Hps]; subst. constructor; [|exact Hps].
        apply separator_free_cons. now split.
Qed.

Lemma split_on_app p s :
  separator_free sep p ->
  split_on sep (p ++ s)
  = match split_on sep s with
    | q :: qs => (p ++ q) :: qs
    | [] => [p]
    end.
Proof.
  induction p as [|c p IH]; intros Hp.
  - simpl. pose proof (split_on_not_nil s). now destruct (split_on sep s).
  - apply separator_free_cons in Hp as [Hc Hp]. simpl. rewrite Hc, (IH Hp).
    now destruct (split_on sep s).
Qed.

Lemma split_on_free p : separator_free sep p -> split_on sep p = [p].
Proof.
  intros Hp. rewrite <- (append_nil_r p) at 1. rewrite (split_on_app _ _ Hp).
  simpl. now rewrite append_nil_r.
Qed.

Lemma split_on_join c items :
  sep c = true ->
  items <> [] ->
  Forall (separator_free sep) items ->
  split_on sep (join (chr c) items) = items.
Proof.
  intros Hc Hne Hall. induction Hall as [|x l Hx Hl IH]; [now elim Hne|].
  destruct l as [|y l].
  - simpl. now apply split_on_free.
  - change (join (chr c) (x :: y :: l)) with (x ++ String c (join (chr c) (y :: l))).
    rewrite (split_on_app _ _ Hx).
    change (split_on sep (String c (join (chr c) (y :: l))))
      with (if sep c then EmptyString :: split_on sep (join (chr c) (y :: l))
            else match split_on sep (join (chr c) (y :: l)) with
                 | [] => [chr c]
                 | piece :: pieces => String c piece :: pieces
                 end).
    rewrite Hc, IH by discriminate. now rewrite append_nil_r.
Qed.

End SplitFacts.

Section ParseFacts.

Import Server Form ServerProps.

Lemma parse_names s : Forall tech_name (parse_tech_input s).
Proof.
  unfold parse_tech_input. destruct (nonempty s); [|constructor].
  apply Forall_map, Forall_forall. intros item Hin.
  apply filter_In in Hin as [Hin Hne].
  split; [now apply nonempty_neq|]. split; [apply strip_trimmed|].
  intros c Hc. destruct (has_char c (strip item)) eqn:E; [|reflexivity].
  apply has_char_strip in E.
  pose proof (split_on_pieces is_separator s) as Hall.
  rewrite Forall_forall in Hall. now rewrite (Hall _ Hin c Hc) in E.
Qed.

Lemma tech_names_trimmed items :
  Forall tech_name items -> Forall (fun t => t <> "" /\ trimmed t) items.
Proof. apply Forall_impl. intros t (Hne & Hs & _). now split. Qed.

Lemma join_nonempty sep x l : x <> "" -> nonempty (join sep (x :: l)) = true.
Proof.
  intros Hx. destruct x as [|a x]; [now elim Hx|]. unfold join. simpl.
  now destruct l.
Qed.

(** X9. The names that the tech form collects from its four fields are
    non-empty, carry no surrounding white space and no separator, and
    they are the technologies that a request for them asks for: the
    cleaning step of [generate_questions] leaves their list as it is,
    in the order of the fields, duplicates included. *)
Theorem typed_names_requested langs frameworks dbs tools :
  Forall tech_name (techstack langs frameworks dbs tools)
  /\ requests (techstack langs frameworks dbs tools) (techstack langs frameworks dbs tools)
  /\ clean (techstack langs frameworks dbs tools) = techstack langs frameworks dbs tools.
Proof.
  assert (H : Forall tech_name (techstack langs frameworks dbs tools)).
  { unfold techstack. repeat (apply Forall_app; split); apply parse_names. }
  assert (Hc : clean (techstack langs frameworks dbs tools)
               = techstack langs frameworks dbs tools)
    by now apply clean_fixed, tech_names_trimmed.
  split; [exact H|]. split; [|exact Hc].
  rewrite <- Hc at 2. apply clean_requests.
Qed.

(** X10. A list of names that [parse_tech_input] can yield, joined
    with "," as the form does to show a field again, parses back to the
    same list; so does, in particular, every list parsed from a field. *)
Theorem tech_field_round_trip :
  (forall items, Forall tech_name items -> parse_tech_input (join "," items) = items)
  /\ (forall s, parse_tech_input (join "," (parse_tech_input s)) = parse_tech_input s).
Proof.
  assert (Hfix : forall items,
            Forall tech_name items -> parse_tech_input (join "," items) = items).
  { intros items Hall. unfold parse_tech_input.
    destruct items as [|x l]; [reflexivity|].
    assert (Hx : x <> "") by (inversion Hall as [|? ? [H _] _]; exact H).
    rewrite (join_nonempty _ _ _ Hx).
    change "," with (chr ","%char).
    rewrite split_on_join; [|reflexivity|discriminate|].
    - clear Hx. induction Hall as [|t ts (Hne & Hs & _) _ IH]; [reflexivity|].
      simpl. rewrite (strip_fixed t Hs). apply nonempty_neq in Hne. rewrite Hne. simpl.
      now rewrite (strip_fixed t Hs), IH.
    - eapply Forall_impl; [|exact Hall]. now intros t (_ & _ & H). }
  split; [exact Hfix|]. intros s. apply Hfix, parse_names.
Qed.

End ParseFacts.

Section NormaliseGenerated.

Import Server App Form ServerProps.

Variable repr_str : string -> string.

Local Abbreviation normalize_element := (App.normalize_element repr_str).
Local Abbreviation normalize_elements := (App.normalize_elements repr_str).
Local Abbreviation normalize_loop := (App.normalize_loop repr_str).
Local Abbreviation normalize_q_map := (App.normalize_q_map repr_str).

Lemma normalize_item_json q :
  normalize_element (item_json q)
  = inr (QuestionItem (strip (question q)) (strip (ideal_answer_focus q))).
Proof.
  destruct q as [q f]. unfold item_json, App.normalize_element, normalize_dict. simpl.
  destruct q as [|a q]; destruct f as [|b f]; reflexivity.
Qed.

Lemma normalize_items_json qs :
  Forall clean_item qs -> normalize_elements (map item_json qs) = inr qs.
Proof.
  induction 1 as [|q qs [Hq Hf] _ IH]; [reflexivity|].
  cbn [map App.normalize_elements]. rewrite normalize_item_json, IH.
  destruct q as [q f]. simpl in *. now rewrite (strip_fixed q Hq), (strip_fixed f Hf).
Qed.

Lemma normalize_loop_json out : forall acc,
  (forall k qs, In (k, qs) out -> Forall clean_item qs) ->
  normalize_loop (map_json out) acc
  = inr (fold_left (fun a kv => dict_set (fst kv) (snd kv) a) out acc).
Proof.
  induction out as [|[k qs] out IH]; intros acc Hall; [reflexivity|].
  cbn [map_json map App.normalize_loop fst snd normalize_entry fold_left].
  rewrite normalize_items_json by (apply (Hall k); now left).
  apply IH. intros k' qs' Hin. apply (Hall k'). now right.
Qed.

Lemma dict_set_fresh {V : Type} k (v : V) d :
  ~ In k (dict_keys d) -> dict_set k v d = (d ++ [(k, v)])%list.
Proof.
  induction d as [|[k0 v0] d IH]; simpl; intros Hk; [reflexivity|].
  destruct (String.eqb k k0) eqn:E.
  - apply String.eqb_eq in E. elim Hk. now left.
  - rewrite IH; [reflexivity|]. intros H. apply Hk. now right.
Qed.

Lemma set_all_nodup {V : Type} (out : pydict V) : forall acc,
  NoDup (dict_keys out) ->
  (forall k, In k (dict_keys out) -> ~ In k (dict_keys acc)) ->
  fold_left (fun a kv => dict_set (fst kv) (snd kv) a) out acc = (acc ++ out)%list.
Proof.
  induction out as [|[k v] out IH]; intros acc Hnd Hfresh; simpl.
  - now rewrite app_nil_r.
  - inversion Hnd as [|? ? Hk Hnd']; subst.
    rewrite dict_set_fresh by (apply Hfresh; now left).
    rewrite IH; [now rewrite <- app_assoc | exact Hnd'|].
    intros k' Hin. unfold dict_keys. rewrite map_app, in_app_iff. simpl.
    intros [H|[H|[]]].
    + now apply (Hfresh k'); [right|].
    + subst k'. now apply Hk.
Qed.

Lemma in_nodup_get {V : Type} k (v : V) d :
  NoDup (dict_keys d) -> In (k, v) d -> dict_get k d = Some v.
Proof.
  induction d as [|[k0 v0] d IH]; simpl; intros Hnd Hin; [contradiction|].
  inversion Hnd as [|? ? Hk Hnd']; subst.
  destruct Hin as [[= -> ->]|Hin]; [now rewrite String.eqb_refl|].
  destruct (String.eqb k k0) eqn:E; [|now apply IH].
  apply String.eqb_eq in E. subst k0. elim Hk.
  change k with (fst (k, v)). now apply in_map.
Qed.

(** X11. What the tech form stores as the generated questions is the
    mapping that [generate_questions] returned, unchanged by
    [normalize_q_map], and the empty mapping when the call raised: the
    normaliser never raises in the form. *)
Theorem normalizer_keeps_generated
    (groq_client : option client) (json_loads : string -> loads_outcome) techs :
  normalize_q_map (raw_q_map (generate_questions groq_client json_loads repr_str techs))
  = inr (match generate_questions groq_client json_loads repr_str techs with
         | inr out => out
         | inl _ => []
         end).
Proof.
  destruct (generate_questions groq_client json_loads repr_str techs) as [e|out] eqn:Hrun;
    [reflexivity|].
  destruct (generate_checked _ _ _ _ _ Hrun) as (Hnd & _ & parsed & Hitems).
  unfold App.normalize_q_map, raw_q_map. rewrite normalize_loop_json.
  - rewrite set_all_nodup; [reflexivity | exact Hnd | intros k _ []].
  - intros k qs Hin.
    exact (proj2 (check_tech_shape _ _ _ _ (Hitems _ _ (in_nodup_get _ _ _ Hnd Hin)))).
Qed.

End NormaliseGenerated.

Section KeySchemes.

Import Server App Form Mongo.

Lemma last_nondigit_app a b :
  last_nondigit (a ++ b)
  = match last_nondigit b with
    | Some c => Some c
    | None => last_nondigit a
    end.
Proof.
  induction a as [|x a IH]; simpl.
  - now destruct (last_nondigit b).
  - rewrite IH. now destruct (last_nondigit b).
Qed.

Lemma last_nondigit_uint d : last_nondigit (NilEmpty.string_of_uint d) = None.
Proof. induction d; simpl; try rewrite IHd; reflexivity. Qed.

Lemma str_nat_uint n :
  exists d, str_int (Z.of_nat n) = NilZero.string_of_uint d.
Proof.
  unfold str_int. pose proof (Nat2Z.is_nonneg n) as Hn.
  destruct (Z.of_nat n) eqn:E; [eexists; reflexivity | eexists; reflexivity | exfalso; lia].
Qed.

Lemma last_nondigit_str_nat n : last_nondigit (str_int (Z.of_nat n)) = None.
Proof.
  destruct (str_nat_uint n) as [d ->]. destruct d; try reflexivity;
    apply (last_nondigit_uint (_ _)).
Qed.

Lemma answer_key_last tech idx : last_nondigit (answer_key tech idx) = Some "n"%char.
Proof.
  unfold answer_key. rewrite !last_nondigit_app, last_nondigit_str_nat. reflexivity.
Qed.

Lemma text_key_last tech idx : last_nondigit (text_key tech idx) = Some "q"%char.
Proof.
  unfold text_key. rewrite !last_nondigit_app, last_nondigit_str_nat. reflexivity.
Qed.

Lemma key_schemes_disjoint tech idx tech' idx' :
  answer_key tech idx <> text_key tech' idx'.
Proof.
  intros H. apply (f_equal last_nondigit) in H.
  rewrite answer_key_last, text_key_last in H. discriminate H.
Qed.

(** The keys of [question_texts] are all made by [text_key]. *)
Lemma texts_of_items_keys tech items : forall idx texts,
  Forall (fun k => exists t i, k = text_key t i) (dict_keys texts) ->
  Forall (fun k => exists t i, k = text_key t i)
         (dict_keys (texts_of_items tech items idx texts)).
Proof.
  induction items as [|item rest IH]; intros idx texts H; simpl; [exact H|].
  apply IH. apply Forall_forall. intros k Hk. apply in_keys_set in Hk as [->|Hk].
  - eauto.
  - rewrite Forall_forall in H. now apply H.
Qed.

Lemma texts_loop_keys norm : forall texts,
  Forall (fun k => exists t i, k = text_key t i) (dict_keys texts) ->
  Forall (fun k => exists t i, k = text_key t i) (dict_keys (texts_loop norm texts)).
Proof.
  induction norm as [|[tech items] rest IH]; intros texts H; simpl; [exact H|].
  now apply IH, texts_of_items_keys.
Qed.

Lemma question_texts_miss norm tech idx :
  dict_get (answer_key tech idx) (question_texts norm) = None.
Proof.
  apply dict_get_none_keys. intros Hin.
  pose proof (texts_loop_keys norm [] (Forall_nil _)) as H.
  rewrite Forall_forall in H. destruct (H _ Hin) as (t & i & Heq).
  exact (key_schemes_disjoint _ _ _ _ Heq).
Qed.

Section Shown.

Variable text_area : string -> string -> string.

Lemma answers_of_items_keys techs tech items : forall idx answers,
  In tech techs ->
  answer_keyed techs answers ->
  answer_keyed techs (answers_of_items text_area tech items idx answers).
Proof.
  induction items as [|item rest IH]; intros idx answers Hin H; simpl; [exact H|].
  apply IH; [exact Hin|]. apply Forall_forall. intros k Hk.
  apply in_keys_set in Hk as [->|Hk].
  - eauto.
  - unfold answer_keyed in H. rewrite Forall_forall in H. now apply H.
Qed.

Lemma display_loop_keys techs generated : forall answers,
  incl (dict_keys generated) techs ->
  answer_keyed techs answers ->
  answer_keyed techs (display_loop text_area generated answers).
Proof.
  induction generated as [|[tech items] rest IH]; intros answers Hincl H; simpl;
    [exact H|].
  apply IH.
  - intros t Ht. apply Hincl. now right.
  - apply answers_of_items_keys; [apply Hincl; now left | exact H].
Qed.

End Shown.

(** ** The technology of a record *)

Lemma prefix_one_app c a b :
  has_char c b = false -> String.prefix (chr c) (a ++ b) = String.prefix (chr c) a.
Proof.
  intros Hb. destruct a as [|x a]; simpl.
  - destruct b as [|y b]; [reflexivity|]. simpl in *.
    apply orb_false_iff in Hb as [Hb _]. apply Ascii.eqb_neq in Hb.
    now destruct (ascii_dec c y).
  - destruct (ascii_dec c x); [|reflexivity]. now destruct a, b.
Qed.

Lemma prefix_two_app c a b :
  has_char c b = false ->
  String.prefix (String c (chr c)) (a ++ b) = String.prefix (String c (chr c)) a.
Proof.
  intros Hb. destruct a as [|x a].
  - destruct b as [|y b]; [reflexivity|]. simpl in *.
    apply orb_false_iff in Hb as [Hb _]. apply Ascii.eqb_neq in Hb.
    now destruct (ascii_dec c y).
  - change (String.prefix (String c (chr c)) (String x a ++ b))
      with (if ascii_dec c x then String.prefix (chr c) (a ++ b) else false).
    rewrite (prefix_one_app _ _ _ Hb). reflexivity.
Qed.

Lemma contains_two_free c b :
  has_char c b = false -> contains (String c (chr c)) b = false.
Proof.
  induction b as [|y b IH]; intros Hb; [reflexivity|].
  simpl in Hb. apply orb_false_iff in Hb as [Hy Hb]. apply Ascii.eqb_neq in Hy.
  cbn [contains]. rewrite (IH Hb), orb_false_r. simpl.
  now destruct (ascii_dec c y).
Qed.

Lemma contains_two_app c a b :
  has_char c b = false ->
  contains (String c (chr c)) (a ++ b) = contains (String c (chr c)) a.
Proof.
  intros Hb. induction a as [|x a IH].
  - simpl append. rewrite (contains_two_free _ _ Hb). reflexivity.
  - change (contains (String c (chr c)) (String x a ++ b))
      with (String.prefix (String c (chr c)) (String x a ++ b)
            || contains (String c (chr c)) (a ++ b)).
    rewrite (prefix_two_app _ _ _ Hb), IH. reflexivity.
Qed.

Lemma split_head_app c a b :
  has_char c b = false ->
  contains (String c (chr c)) a = true ->
  split_head (String c (chr c)) (a ++ b) = split_head (String c (chr c)) a.
Proof.
  intros Hb. induction a as [|x a IH]; intros Ha; [discriminate Ha|].
  change (split_head (String c (chr c)) (String x a ++ b))
    with (if String.prefix (String c (chr c)) (String x a ++ b) then EmptyString
          else String x (split_head (String c (chr c)) (a ++ b))).
  rewrite (prefix_two_app _ _ _ Hb).
  cbn [split_head]. destruct (String.prefix (String c (chr c)) (String x a)) eqn:E;
    [reflexivity|].
  rewrite IH; [reflexivity|]. cbn [contains] in Ha. now rewrite E in Ha.
Qed.

Lemma underscore_uint d : has_char "_"%char (NilEmpty.string_of_uint d) = false.
Proof. induction d; simpl; try rewrite IHd; reflexivity. Qed.

Lemma underscore_str_nat n : has_char "_"%char (str_int (Z.of_nat n)) = false.
Proof.
  destruct (str_nat_uint n) as [d ->]. destruct d; try reflexivity;
    apply (underscore_uint (_ _)).
Qed.

Lemma tech_part_answer_key tech idx : tech_part (answer_key tech idx) = tech_part tech.
Proof.
  assert (Hb : has_char "_"%char (" Question" ++ str_int (Z.of_nat idx)) = false).
  { rewrite has_char_app, underscore_str_nat. reflexivity. }
  unfold tech_part, answer_key. change "__" with (String "_"%char (chr "_"%char)).
  rewrite (contains_two_app _ _ _ Hb).
  destruct (contains (String "_"%char (chr "_"%char)) tech) eqn:E; [|reflexivity].
  now apply split_head_app.
Qed.

Lemma answers_list_records techs answers norm :
  answer_keyed techs answers ->
  Forall (fun r => exists tech a,
            In tech techs
            /\ r = [("tech", BStr (tech_part tech)); ("question", BStr "");
                    ("answer", BStr a)])
         (answers_list answers (question_texts norm)).
Proof.
  unfold answer_keyed, answers_list, dict_keys. intros H.
  apply Forall_map. rewrite Forall_map in H.
  eapply Forall_impl; [|exact H]. intros [k a] (tech & idx & Hin & Hk). simpl in *.
  subst k. exists tech, a. split; [exact Hin|].
  now rewrite tech_part_answer_key, question_texts_miss.
Qed.

(** X12. The display of the questions stores each answer under
    "<tech> Question<n>", while the question texts are kept under
    "<tech>__q<n>": no key of one scheme is a key of the other. So every
    record built when the answers are submitted has an empty question,
    whatever was generated and answered, and its technology is
    "General" unless the name of the technology contains "__". *)
Theorem submitted_answers_lose_question
    (text_area : string -> string -> string)
    (generated norm : pydict (list question_item)) (answers : pydict string) :
  answer_keyed (dict_keys generated) answers ->
  Forall (fun r => exists tech a,
            In tech (dict_keys generated)
            /\ r = [("tech", BStr (tech_part tech)); ("question", BStr "");
                    ("answer", BStr a)])
         (answers_list (display_loop text_area generated answers) (question_texts norm))
  /\ (Forall (fun tech => contains "__" tech = false) (dict_keys generated) ->
      Forall (fun r => exists a,
                r = [("tech", BStr "General"); ("question", BStr "");
                     ("answer", BStr a)])
             (answers_list (display_loop text_area generated answers)
                           (question_texts norm))).
Proof.
  intros H.
  pose proof (answers_list_records _ _ norm
                (display_loop_keys text_area _ generated answers (incl_refl _) H)) as Hr.
  split; [exact Hr|]. intros Hplain. eapply Forall_impl; [|exact Hr].
  intros r (tech & a & Hin & ->). exists a.
  rewrite Forall_forall in Hplain. unfold tech_part. now rewrite (Hplain _ Hin).
Qed.

End KeySchemes.

(* ================================================================== *)
(** * Further worked examples for the forms *)
(* ================================================================== *)

Section FormExamples.

Import Server App Form Mongo Examples MoreExamples.

Lemma separator_free_plain t :
  has_char ","%char t = false -> has_char "010"%char t = false ->
  has_char ";"%char t = false ->
  separator_free is_separator t.
Proof.
  intros H1 H2 H3 c Hc. unfold is_separator in Hc.
  apply orb_true_iff in Hc as [Hc|Hc]; [apply orb_true_iff in Hc as [Hc|Hc]|];
    apply Ascii.eqb_eq in Hc; subst c; assumption.
Qed.

(** Two names are joined and parsed back. *)
Lemma tech_field_round_trip_witness :
  parse_tech_input (join "," ["Go"; "C++"]) = ["Go"; "C++"].
Proof.
  apply (proj1 tech_field_round_trip).
  apply Forall_cons; [|apply Forall_cons; [|apply Forall_nil]];
    (split; [discriminate|]; split; [|apply separator_free_plain; reflexivity]).
  - exact (strip_trimmed "Go").
  - exact (strip_trimmed "C++").
Defined.

(** A field whose names are padded with a no-break space and an em
    space, and which holds an item of white space only. *)
Lemma padded_field_parsed :
  parse_tech_input ("Go" ++ nbsp ++ "," ++ em_space ++ "; C++" ++ em_space) = ["Go"; "C++"]
  /\ clean (techstack ("Go" ++ nbsp) "" (em_space ++ "Redis") nbsp) = ["Go"; "Redis"].
Proof. split; reflexivity. Qed.

(** Two questions on Go are shown and answered in a fresh session. *)
Lemma submitted_answers_lose_question_witness :
  Forall (fun r => exists a,
            r = [("tech", BStr "General"); ("question", BStr "");
                 ("answer", BStr a)])
         (answers_list (display_loop typed go_questions []) (question_texts go_questions)).
Proof.
  apply (proj2 (submitted_answers_lose_question typed go_questions go_questions []
                  (Forall_nil _))).
  apply Forall_cons; [reflexivity | apply Forall_nil].
Defined.

End FormExamples.

(* ================================================================== *)
(** * Further properties of mongo.py *)
(* ================================================================== *)

Section SaveMore.

Import Mongo MongoProps.

Variable clock : nat -> Z.
Variable fault : nat -> option exn.
Variable py_str : bson -> string.
Variable format_exc : exn -> string.

Local Abbreviation update_one := (Mongo.update_one fault).
Local Abbreviation save_body := (Mongo.save_body clock fault py_str).
Local Abbreviation save := (Mongo.save_candidate_and_answers clock fault py_str format_exc).

(** X14. A save touches one document only: every document that the
    filter on the candidate's email (the stripped text of the first
    truthy email field) does not match is the same, at the same
    position, after the call, whether the call returns or raises and
    wherever it stops. *)
Theorem save_leaves_other_candidates c answers_list w s email i d :
  first_truthy_field email_keys c = Some (BStr s) ->
  strip s = email ->
  nth_error (docs w) i = Some d ->
  matches email d = false ->
  nth_error (docs (snd (save (BDict c) answers_list w))) i = Some d.
Proof.
  intros Hs Hstrip Hi Hm.
  assert (He : bstrip (email_lookup c) = inr email).
  { rewrite email_lookup_first, Hs. simpl. now rewrite Hstrip. }
  assert (Hkept : others_kept email w (snd (save (BDict c) answers_list w))).
  { apply (save_keeps clock fault py_str format_exc (others_kept email)
             (others_kept_docs email) (others_kept_trans email) email).
    - intros. apply update_one_others.
    - intros. apply update_one_others.
    - exact He. }
  exact (Hkept i d Hi Hm).
Qed.

(** X15. A save for a candidate who already has a document adds no
    document and keeps the identity of that one: its "_id", its
    "created_at" and every field other than the profile fields,
    "updated_at" and "answers" are as before, whether the call returns
    or raises; and the string returned is the [str] of that "_id". *)
Theorem save_keeps_identity c answers_list w s email d0 :
  first_truthy_field email_keys c = Some (BStr s) ->
  strip s = email ->
  find (matches email) (docs w) = Some d0 ->
  length (docs (snd (save (BDict c) answers_list w))) = length (docs w)
  /\ (exists d,
        find (matches email) (docs (snd (save (BDict c) answers_list w))) = Some d
        /\ dict_get "_id" d = dict_get "_id" d0
        /\ dict_get "created_at" d = dict_get "created_at" d0
        /\ (forall k, ~ In k saved_fields -> dict_get k d = dict_get k d0))
  /\ (forall r, fst (save (BDict c) answers_list w) = inr r -> r = py_str (bget "_id" d0)).
Proof.
  intros Hs Hstrip Hd.
  assert (He : bstrip (email_lookup c) = inr email).
  { rewrite email_lookup_first, Hs. simpl. now rewrite Hstrip. }
  destruct (save_candidate_kept clock fault py_str format_exc c answers_list w email He d0 Hd) as (Hl & d & Hf & Hk).
  assert (Hid : dict_get "_id" d = dict_get "_id" d0).
  { apply Hk. unfold saved_fields. simpl. intros H.
    repeat (destruct H as [H|H]; [discriminate H|]). exact H. }
  split; [exact Hl|]. split.
  - exists d. split; [exact Hf|]. split; [exact Hid|]. split; [|exact Hk].
    apply Hk. unfold saved_fields. simpl. intros H.
    repeat (destruct H as [H|H]; [discriminate H|]). exact H.
  - intros r Hr.
    destruct (save (BDict c) answers_list w) as [r0 w'] eqn:Hrun. simpl in *. subst r0.
    destruct (save_result clock fault py_str format_exc _ _ _ _ _ _ He Hrun) as (d1 & Hf1 & ->).
    rewrite Hf in Hf1. injection Hf1 as <-. unfold bget. now rewrite Hid.
Qed.

End SaveMore.

Section GatewayMore.

Import Mongo MongoProps.

Variable clock : nat -> Z.
Variable fault : nat -> option exn.
Variable py_str : bson -> string.
Variable format_exc : exn -> string.

Local Abbreviation update_one := (Mongo.update_one fault).
Local Abbreviation add_answer := (Mongo.add_answer clock fault).
Local Abbreviation upsert_candidate := (Mongo.upsert_candidate clock fault).
Local Abbreviation answer_update := (Mongo.answer_update clock).
Local Abbreviation profile_update := (Mongo.profile_update clock).
Local Abbreviation init_mongo := (Mongo.init_mongo fault).
Local Abbreviation save_body := (Mongo.save_body clock fault py_str).
Local Abbreviation save := (Mongo.save_candidate_and_answers clock fault py_str format_exc).

(** X16. When the document of the candidate holds something other than
    an array under "answers", [add_answer] is rejected by the server
    with a write error and the collection is left as it was. *)
Theorem add_answer_rejects_non_array email answer flag w d v :
  fault (length (log w)) = None ->
  find (matches email) (docs w) = Some d ->
  dict_get "answers" d = Some v ->
  (forall l, v <> BList l) ->
  exists m w',
    add_answer email answer flag w = (inl (Raise WriteError m), w')
    /\ docs w' = docs w
    /\ log w' = (log w ++ [UpdateOne email (answer_update (ticks w) answer) flag])%list.
Proof.
  intros Hf Hd Hv Hnl. rewrite add_answer_run, update_one_run.
  replace (fault (length (log (with_tick (with_tick w))))) with (@None exn)
    by (now destruct w).
  replace (docs (with_tick (with_tick w))) with (docs w) by (now destruct w).
  unfold update_docs. cbn [conflicting Mongo.answer_update u_set u_set_on_insert u_push
    dict_keys map fst existsb dict_mem dict_get String.eqb Ascii.eqb Bool.eqb orb].
  rewrite Hd. unfold modified.
  cbn [Mongo.answer_update u_set u_push set_fields fold_left fst snd push_fields push_field].
  unfold push_field. rewrite dict_get_set_other by discriminate. rewrite Hv.
  destruct v; try (eexists; eexists; split; [reflexivity|]; split; now destruct w).
  now elim (Hnl l).
Qed.

(** X17. When no server can be selected, the first initialisation
    fails with the chain of messages of [connect] and [init_mongo],
    sends the one request, and leaves the gateway uninitialised, so that
    a later call tries again; a save wraps that failure in a
    [ConnectionError] before it looks at the candidate. *)
Theorem unreachable_server_reported candidate answers_list w m :
  db_wrapper w = false ->
  db_instance w = false ->
  fault (length (log w)) = Some (Raise ServerSelectionTimeoutError m) ->
  init_mongo w
    = (inl (Raise RuntimeError
              ("Failed to initialize MongoDB: Could not connect to MongoDB: " ++ m)),
       with_call ServerInfo w)
  /\ db_wrapper (with_call ServerInfo w) = false
  /\ db_instance (with_call ServerInfo w) = false
  /\ save candidate answers_list w
     = (inl (Raise ConnectionError
               ("MongoDB not initialized and auto-init failed: "
                  ++ "Failed to initialize MongoDB: Could not connect to MongoDB: " ++ m)),
        with_call ServerInfo w).
Proof.
  intros Hw Hi Hf. destruct w as [ds idx oid t lg inst wr]. simpl in *. subst.
  cbv [Mongo.save_candidate_and_answers Mongo.init_mongo get_db connect _ensure_indexes
       round_trip try_except bind raise ret with_call with_instance with_wrapper
       with_index docs log db_instance db_wrapper email_index next_oid ticks].
  rewrite Hf. cbn. repeat split; reflexivity.
Qed.

(** X18. The first initialisation that reaches the server succeeds
    even when the unique index cannot be created (the request fails, or
    two documents share an email): it sends [server_info] and
    [create_index], changes no document, and leaves the index as it
    was in that case. Once it has succeeded, a further call sends
    nothing. *)
Theorem init_mongo_connects_once w :
  db_wrapper w = false ->
  db_instance w = false ->
  fault (length (log w)) = None ->
  exists w1,
    init_mongo w = (inr tt, w1)
    /\ log w1 = (log w ++ [ServerInfo; CreateIndex])%list
    /\ docs w1 = docs w
    /\ email_index w1
       = match fault (S (length (log w))) with
         | Some _ => email_index w
         | None => if distinct_emails (docs w) then true else email_index w
         end
    /\ db_wrapper w1 = true
    /\ init_mongo w1 = (inr tt, w1).
Proof.
  intros Hw Hi Hf. destruct w as [ds idx oid t lg inst wr]. simpl in *. subst.
  cbv [Mongo.init_mongo get_db connect _ensure_indexes
       round_trip try_except bind raise ret with_call with_instance with_wrapper
       with_index docs log db_instance db_wrapper email_index next_oid ticks].
  rewrite Hf. rewrite length_app. simpl. rewrite Nat.add_1_r.
  destruct (fault (S (length lg))) as [e|].
  - eexists. split; [reflexivity|]. cbn. rewrite <- app_assoc. repeat split; reflexivity.
  - destruct (distinct_emails ds);
      (eexists; split; [reflexivity|]; cbn; rewrite <- app_assoc; repeat split; reflexivity).
Qed.

(** X19. [_normalize_answer_input] never replaces a field that the
    answer supplies, even an empty one: the alternate keys "qid", "q"
    and "response" and the defaults are used only for a key that is
    absent. It reads the clock once when the answer has no "timestamp",
    and changes neither the documents nor the requests sent. *)
Theorem supplied_answer_fields_kept raw w :
  exists norm w',
    _normalize_answer_input clock raw w = (inr norm, w')
    /\ docs w' = docs w
    /\ log w' = log w
    /\ (forall k v, dict_get k raw = Some v -> dict_get k norm = Some v)
    /\ (dict_get "question_id" raw = None ->
        bget "question_id" norm = bor (bget "qid" raw) BNone)
    /\ (dict_get "question" raw = None ->
        bget "question" norm = bor (bget "q" raw) (BStr ""))
    /\ (dict_get "answer" raw = None ->
        bget "answer" norm = bor (bget "response" raw) (BStr ""))
    /\ (dict_get "tech" raw = None -> bget "tech" norm = BStr "General")
    /\ (dict_get "score" raw = None -> bget "score" norm = BNone)
    /\ (dict_get "timestamp" raw = None ->
        bget "timestamp" norm = BDate (clock (ticks w)) /\ ticks w' = S (ticks w)).
Proof.
  rewrite normalize_run. eexists. eexists. split; [reflexivity|].
  split; [now destruct w|]. split; [now destruct w|].
  unfold Mongo.normalize_at.
  split.
  { intros k v H.
    destruct (btruthy (bget "timestamp" (default_fields raw)));
      now apply setdefault_keeps, default_fields_keeps. }
  assert (Hget : forall k,
            k <> "timestamp" ->
            bget k (fst (if btruthy (bget "timestamp" (default_fields raw))
                         then (dict_setdefault "timestamp"
                                 (bget "timestamp" (default_fields raw))
                                 (default_fields raw), ticks w)
                         else (dict_setdefault "timestamp" (BDate (clock (ticks w)))
                                 (default_fields raw), S (ticks w))))
            = bget k (default_fields raw)).
  { intros k Hk.
    destruct (btruthy (bget "timestamp" (default_fields raw))); cbn [fst];
      unfold bget; now rewrite setdefault_get_other. }
  repeat split.
  - intros H. rewrite Hget by discriminate.
    unfold default_fields, bget.
    rewrite !setdefault_get_other by discriminate.
    rewrite setdefault_get_same, H. unfold bor at 2. reflexivity.
  - intros H. rewrite Hget by discriminate.
    unfold default_fields, bget.
    rewrite !(setdefault_get_other "question") by discriminate.
    rewrite setdefault_get_same.
    rewrite !(setdefault_get_other "question") by discriminate.
    rewrite !(setdefault_get_other "q") by discriminate.
    rewrite H. unfold bor at 2. reflexivity.
  - intros H. rewrite Hget by discriminate.
    unfold default_fields, bget.
    rewrite !(setdefault_get_other "answer") by discriminate.
    rewrite setdefault_get_same.
    rewrite !(setdefault_get_other "answer") by discriminate.
    rewrite !(setdefault_get_other "response") by discriminate.
    rewrite H. unfold bor at 2. reflexivity.
  - intros H. rewrite Hget by discriminate.
    unfold default_fields, bget.
    rewrite !(setdefault_get_other "tech") by discriminate.
    rewrite setdefault_get_same.
    rewrite !(setdefault_get_other "tech") by discriminate.
    rewrite H. reflexivity.
  - intros H. rewrite Hget by discriminate.
    unfold default_fields, bget, bget_default.
    rewrite setdefault_get_same.
    rewrite !(setdefault_get_other "score") by discriminate.
    rewrite H. reflexivity.
  - assert (Hts : bget "timestamp" (default_fields raw) = BNone).
    { unfold default_fields, bget.
      rewrite !(setdefault_get_other "timestamp") by discriminate. now rewrite H. }
    rewrite Hts. simpl. unfold bget. rewrite setdefault_get_same.
    unfold default_fields. rewrite !(setdefault_get_other "timestamp") by discriminate.
    now rewrite H.
  - assert (Hts : bget "timestamp" (default_fields raw) = BNone).
    { unfold default_fields, bget.
      rewrite !(setdefault_get_other "timestamp") by discriminate. now rewrite H. }
    rewrite Hts. simpl. now destruct w.
Qed.

(** X20. With the gateway initialised, a save whose candidate cannot
    be used stops before any request is sent and leaves the world as it
    was: a candidate that is not a dict, and one that gives no email,
    raise [ValueError]; an email that is not a text, and with an email a
    name or a phone that is not a text, raise the [AttributeError] of
    [.strip()], not wrapped in a [RuntimeError]. *)
Theorem save_rejects_before_sending candidate answers_list w :
  db_wrapper w = true ->
  ((forall c, candidate <> BDict c) ->
   save candidate answers_list w = (inl (Raise ValueError "candidate must be a dict"), w))
  /\ (forall c,
        candidate = BDict c -> no_email c ->
        save candidate answers_list w
        = (inl (Raise ValueError
                  "Candidate must include an 'email' field to save to MongoDB."), w))
  /\ (forall c v,
        candidate = BDict c ->
        first_truthy_field email_keys c = Some v -> (forall s, v <> BStr s) ->
        exists m, save candidate answers_list w = (inl (Raise AttributeError m), w))
  /\ (forall c email,
        candidate = BDict c -> has_email c email ->
        (forall s, either_field "name" "full_name" (BStr "") c <> BStr s)
        \/ (forall s, either_field "phone" "phone_number" (BStr "") c <> BStr s) ->
        exists m, save candidate answers_list w = (inl (Raise AttributeError m), w)).
Proof.
  intros Hw. unfold Mongo.save_candidate_and_answers, bind. cbv beta. rewrite Hw.
  split; [|split; [|split]].
  - intros Hnd. destruct candidate; try reflexivity. now elim (Hnd d).
  - intros c -> Hno. rewrite (no_email_lookup c Hno). reflexivity.
  - intros c v -> Hv Hns. rewrite email_lookup_first, Hv.
    destruct v; try (eexists; reflexivity). now elim (Hns s).
  - intros c email -> He Hbad. destruct (has_email_lookup c email He) as [Hl Hne].
    rewrite Hl. simpl. rewrite Hne. unfold build_profile. rewrite !either_field_get.
    destruct (either_field "name" "full_name" (BStr "") c) as [| | | |name| | | |] eqn:En;
      try (eexists; reflexivity).
    destruct (either_field "phone" "phone_number" (BStr "") c) as [| | | |phone| | | |] eqn:Ep;
      try (eexists; reflexivity).
    destruct Hbad as [H|H]; [now elim (H name) | now elim (H phone)].
Qed.

(** X21. The first save for an email creates one document: it gets the
    next ObjectId, whose [str] is the value returned, "created_at" from
    the second reading of the clock, the profile of the candidate, and
    the records of the answers. *)
Theorem save_creates_candidate c email name phone answers_list w :
  db_wrapper w = true ->
  has_email c email ->
  either_field "name" "full_name" (BStr "") c = BStr name ->
  either_field "phone" "phone_number" (BStr "") c = BStr phone ->
  find (matches email) (docs w) = None ->
  (forall i, (i < length answers_list + 2)%nat -> fault (length (log w) + i) = None) ->
  exists w' d,
    save (BDict c) answers_list w = (inr (py_str (BOid (next_oid w))), w')
    /\ length (docs w') = S (length (docs w))
    /\ find (matches email) (docs w') = Some d
    /\ dict_get "_id" d = Some (BOid (next_oid w))
    /\ dict_get "created_at" d = Some (BDate (clock (S (ticks w))))
    /\ profile_stored c email name phone d
    /\ answers_of d = Some (expected_records clock (S (S (ticks w))) answers_list).
Proof.
  intros Hw He Hname Hphone Hd Hnf.
  assert (Hold : stored_answers email (docs w) = Some []).
  { unfold stored_answers. now rewrite Hd. }
  destruct (save_body_success clock fault py_str c email name phone answers_list w []
              Hold Hnf)
    as (w' & d & Hrun & Hf & Ha & Hprof & _).
  rewrite (save_with_email clock fault py_str format_exc c email name phone answers_list w
             Hw He Hname Hphone).
  unfold try_except. rewrite Hrun.
  assert (Hf0 : fault (length (log w)) = None).
  { rewrite <- (Nat.add_0_r (length (log w))). apply Hnf. lia. }
  pose proof (upsert_missing clock fault email (strip name) (strip phone)
                (either_field "position" "desired_position" (BStr "") c)
                (field_or "meta" (BDict [("status", BStr "in_progress")]) c)
                (field_or "tech_stack" (BList []) c) w Hf0 Hd) as Hup.
  match type of Hup with
  | _ = (_, with_docs (_ ++ [?x])%list _ _) => set (d1 := x) in *
  end.
  match type of Hup with _ = (_, ?x) => set (w1 := x) in * end.
  assert (Hd1 : find (matches email) (docs w1) = Some d1).
  { replace (docs w1) with (docs w ++ [d1])%list by (now destruct w).
    apply find_app_none; [exact Hd|]. unfold d1, matches. simpl.
    apply String.eqb_refl. }
  pose proof (save_tail_keeps clock fault py_str
                (candidate_kept answer_fields email)
                (candidate_kept_docs _ _) (candidate_kept_trans _ _) email
                (fun t a flag w0 => answer_update_kept clock fault email t a flag w0)
                answers_list w1) as Hkeep.
  unfold Mongo.save_body in Hrun. unfold bind at 1 in Hrun. rewrite Hup in Hrun.
  rewrite Hrun in Hkeep. simpl snd in Hkeep.
  destruct (Hkeep d1 Hd1) as (Hlen & d' & Hf' & Hk).
  rewrite Hf in Hf'. injection Hf' as <-.
  assert (Hother : forall k, k <> "updated_at" -> k <> "answers" ->
                             dict_get k d = dict_get k d1).
  { intros k H1 H2. apply Hk. unfold answer_fields. simpl. intuition congruence. }
  assert (Hid : dict_get "_id" d = Some (BOid (next_oid w))).
  { rewrite Hother by discriminate. reflexivity. }
  exists w', d.
  split; [unfold bget; now rewrite Hid|]. split.
  { rewrite Hlen. replace (docs w1) with (docs w ++ [d1])%list by (now destruct w).
    rewrite length_app. simpl. lia. }
  split; [exact Hf|]. split; [exact Hid|]. split.
  { rewrite Hother by discriminate. reflexivity. }
  split; [exact Hprof | exact Ha].
Qed.

End GatewayMore.

(* ================================================================== *)
(** * Further worked examples for the persistence gateway *)
(* ================================================================== *)

Section MongoMoreExamples.

Import Mongo MongoProps Examples MoreExamples.

(** A candidate whose email ends in a no-break space is saved next to
    Bob's document: the document addressed is Ann's, and Bob's stays. *)
Lemma save_leaves_other_candidates_witness :
  nth_error
    (docs (snd (save_candidate_and_answers tick_clock no_fault show_id no_traceback
                  (BDict padded_candidate) [answer_1; answer_2] two_world)))
    0 = Some bob_doc.
Proof.
  apply (save_leaves_other_candidates tick_clock no_fault show_id no_traceback
           padded_candidate [answer_1; answer_2] two_world ("a@b.com" ++ nbsp) "a@b.com"
           0%nat bob_doc);
    reflexivity.
Defined.

(** The same candidate is saved where Ann has a document: it keeps its
    "_id" and "created_at". *)
Lemma save_keeps_identity_witness :
  length (docs (snd (save_candidate_and_answers tick_clock no_fault show_id no_traceback
                       (BDict padded_candidate) [answer_1] ann_world)))
  = length (docs ann_world)
  /\ (exists d,
        find (matches "a@b.com")
             (docs (snd (save_candidate_and_answers tick_clock no_fault show_id
                           no_traceback (BDict padded_candidate) [answer_1] ann_world)))
          = Some d
        /\ dict_get "_id" d = dict_get "_id" ann_doc
        /\ dict_get "created_at" d = dict_get "created_at" ann_doc
        /\ (forall k, ~ In k saved_fields -> dict_get k d = dict_get k ann_doc))
  /\ (forall r,
        fst (save_candidate_and_answers tick_clock no_fault show_id no_traceback
               (BDict padded_candidate) [answer_1] ann_world) = inr r ->
        r = show_id (bget "_id" ann_doc)).
Proof.
  apply (save_keeps_identity tick_clock no_fault show_id no_traceback
           padded_candidate [answer_1] ann_world ("a@b.com" ++ nbsp) "a@b.com" ann_doc);
    reflexivity.
Defined.

(** The stored "answers" is a text: the push is rejected. *)
Lemma add_answer_rejects_non_array_witness :
  exists m w',
    add_answer tick_clock no_fault "a@b.com" answer_1 true odd_world
      = (inl (Raise WriteError m), w')
    /\ docs w' = docs odd_world
    /\ log w'
       = (log odd_world
            ++ [UpdateOne "a@b.com" (answer_update tick_clock (ticks odd_world) answer_1)
                  true])%list.
Proof.
  apply (add_answer_rejects_non_array tick_clock no_fault "a@b.com" answer_1 true
           odd_world odd_doc (BStr "none yet") eq_refl eq_refl eq_refl).
  intros l H. discriminate H.
Defined.

(** No server answers at the first request. *)
Lemma unreachable_server_reported_witness :
  init_mongo unreachable cold_world
    = (inl (Raise RuntimeError
              ("Failed to initialize MongoDB: Could not connect to MongoDB: "
                 ++ "localhost:27017: connection refused")),
       with_call ServerInfo cold_world)
  /\ db_wrapper (with_call ServerInfo cold_world) = false
  /\ db_instance (with_call ServerInfo cold_world) = false
  /\ save_candidate_and_answers tick_clock unreachable show_id no_traceback
       (BDict ann_candidate) [answer_1] cold_world
     = (inl (Raise ConnectionError
               ("MongoDB not initialized and auto-init failed: "
                  ++ "Failed to initialize MongoDB: Could not connect to MongoDB: "
                  ++ "localhost:27017: connection refused")),
        with_call ServerInfo cold_world).
Proof.
  apply (unreachable_server_reported tick_clock unreachable show_id no_traceback
           (BDict ann_candidate) [answer_1] cold_world
           "localhost:27017: connection refused" eq_refl eq_refl eq_refl).
Defined.

(** The first initialisation against a server that answers. *)
Lemma init_mongo_connects_once_witness :
  exists w1,
    init_mongo no_fault cold_world = (inr tt, w1)
    /\ log w1 = (log cold_world ++ [ServerInfo; CreateIndex])%list
    /\ docs w1 = docs cold_world
    /\ email_index w1
       = match no_fault (S (length (log cold_world))) with
         | Some _ => email_index cold_world
         | None => if distinct_emails (docs cold_world) then true else email_index cold_world
         end
    /\ db_wrapper w1 = true
    /\ init_mongo no_fault w1 = (inr tt, w1).
Proof.
  apply (init_mongo_connects_once no_fault cold_world eq_refl eq_refl eq_refl).
Defined.

(** The empty "question" is kept although "q" holds a text; the absent
    "answer" is taken from "response". *)
Lemma supplied_answer_fields_kept_witness :
  exists norm w',
    _normalize_answer_input tick_clock empty_question_answer ready_world = (inr norm, w')
    /\ dict_get "question" norm = Some (BStr "")
    /\ bget "answer" norm = BStr "A light thread.".
Proof.
  destruct (supplied_answer_fields_kept tick_clock empty_question_answer ready_world)
    as (norm & w' & Hrun & _ & _ & Hkeep & _ & _ & Ha & _).
  exists norm, w'. split; [exact Hrun|].
  split; [apply Hkeep; reflexivity | apply Ha; reflexivity].
Defined.

(** The candidate is a text, not a dict; its email is a no-break space
    and its name a number; its email is usable and its name a number. *)
Lemma save_rejects_before_sending_witness :
  save_candidate_and_answers tick_clock no_fault show_id no_traceback
    (BStr "ann") [answer_1] ready_world
  = (inl (Raise ValueError "candidate must be a dict"), ready_world)
  /\ save_candidate_and_answers tick_clock no_fault show_id no_traceback
       (BDict unnamed_blank_candidate) [answer_1] ready_world
     = (inl (Raise ValueError "Candidate must include an 'email' field to save to MongoDB."),
        ready_world)
  /\ exists m,
       save_candidate_and_answers tick_clock no_fault show_id no_traceback
         (BDict unnamed_candidate) [answer_1] ready_world
       = (inl (Raise AttributeError m), ready_world).
Proof.
  split; [|split].
  - apply (proj1 (save_rejects_before_sending tick_clock no_fault show_id no_traceback
                    (BStr "ann") [answer_1] ready_world eq_refl)).
    intros c H. discriminate H.
  - apply (proj1 (proj2 (save_rejects_before_sending tick_clock no_fault show_id
                           no_traceback (BDict unnamed_blank_candidate) [answer_1]
                           ready_world eq_refl))
             unnamed_blank_candidate eq_refl).
    right. exists nbsp. split; [reflexivity|].
    rewrite <- (append_nil_r nbsp). apply white_cons; [|apply white_nil].
    apply space_2. reflexivity.
  - apply (proj2 (proj2 (proj2 (save_rejects_before_sending tick_clock no_fault show_id
                                  no_traceback (BDict unnamed_candidate) [answer_1]
                                  ready_world eq_refl)))
             unnamed_candidate "a@b.com" eq_refl).
    + exists "a@b.com". split; [reflexivity|]. split; [reflexivity | discriminate].
    + left. intros s H. discriminate H.
Defined.

(** The padded candidate is saved into an empty collection. *)
Lemma save_creates_candidate_witness :
  exists w' d,
    save_candidate_and_answers tick_clock no_fault show_id no_traceback
      (BDict padded_candidate) [answer_1; short_answer] ready_world
      = (inr (show_id (BOid (next_oid ready_world))), w')
    /\ length (docs w') = S (length (docs ready_world))
    /\ find (matches "a@b.com") (docs w') = Some d
    /\ dict_get "_id" d = Some (BOid (next_oid ready_world))
    /\ dict_get "created_at" d = Some (BDate (tick_clock (S (ticks ready_world))))
    /\ profile_stored padded_candidate "a@b.com" (" Ann" ++ em_space) "555" d
    /\ answers_of d
       = Some (expected_records tick_clock (S (S (ticks ready_world)))
                 [answer_1; short_answer]).
Proof.
  apply (save_creates_candidate tick_clock no_fault show_id no_traceback
           padded_candidate "a@b.com" (" Ann" ++ em_space) "555" [answer_1; short_answer]
           ready_world eq_refl).
  - exists ("a@b.com" ++ nbsp). split; [reflexivity|]. split; [reflexivity | discriminate].
  - reflexivity.
  - reflexivity.
  - reflexivity.
  - intros i _. reflexivity.
Defined.

End MongoMoreExamples.
